(** * tigma: the canvas document engine of [src/index.ts]

    A shallow embedding of the editor's document model, history, codec,
    geometry kernel, layer reordering, hit testing, mouse and key handlers
    and of the cells and glyphs that the renderer sets for an entity,
    followed by the properties established about them.

    Conventions of the embedding.
    - A TypeScript [number] that holds a cell coordinate, an id, a z-index or
      a counter is an integer of [Z].  The numbers of the source are doubles:
      their sums and differences are those of [Z] as long as the values stay
      within 2^53 in absolute value, which the embedding takes for granted
      wherever the code works on the cells of a canvas and on entities that
      lie on it.  Two functions are modelled beyond that range, with the
      rounding of doubles ([Float64]), because they run unclamped on whatever
      coordinates a loaded file holds: [moveSelection] and the loop of
      [getLinePoints].  [getLinePoints] itself, as the hit test and the
      renderer use it, is that loop where it is exact.  The midpoints of
      [getResizeHandleAt] are rounded down by [Math.floor] as the division of
      [Z] does.
    - [JSON.parse] returns a value that nothing checks against the interface
      [TigmaFile]: [ParsedFile] is that value, with the places where
      [loadFromFileData] throws on it.
    - An array is a [list] in index order: [push] appends at the end, [pop]
      removes the last element, [shift] removes the first.
    - A [Set<number>] is the list of its members in insertion order, without
      duplicates.
    - An object that is mutated in place ([box.x += dx]) is the first element
      of its array that the preceding [find] returns; the array is rebuilt
      with that element replaced.  History snapshots are built by the clone
      functions, so no snapshot is aliased with the live arrays.
    - [renderer.requestRender()] and [console.error] only signal the outside
      world and leave the state alone; they are omitted, as are the cursor
      blink and the two indices that tell the renderer which swatch of the
      colour picker to highlight.
    - A render function is the list of the cells it sets with
      [buffer.setCell], in the order of the calls, each with its character;
      colours and attributes are left out. *)

From Stdlib Require Import String ZArith List Bool Lia Permutation Sorted.
Import ListNotations.
Open Scope Z_scope.

(* ================================================================== *)
(** * Part I: the program *)
(* ================================================================== *)

(** ** Numbers *)

Module Float64.
(** The arithmetic of a TypeScript [number] on integer values.  A [number]
    is an IEEE 754 double: every integer up to 2^53 in absolute value is
    one, and beyond that only the multiples of a power of two that have 53
    significant bits are.  [round z] is the double that a sum or a
    difference with the exact value [z] yields: [z] itself up to 2^53, and
    otherwise the nearest multiple of the spacing [ulp], a tie going to
    the multiple with the even quotient.  Overflow to [Infinity], which
    needs a value above 10^308, is left out. *)
Definition round (z : Z) : Z :=
  if Z.abs z <=? 2 ^ 53 then z
  else
    let ulp := 2 ^ (Z.log2 (Z.abs z) - 52) in
    let q := Z.abs z / ulp in
    let r := Z.abs z mod ulp in
    let q' := if 2 * r <? ulp then q
              else if ulp <? 2 * r then q + 1
              else if Z.even q then q else q + 1 in
    Z.sgn z * (q' * ulp).

(** [a + b], [a - b] and [a * b] on doubles. *)
Definition add (a b : Z) : Z := round (a + b).
Definition sub (a b : Z) : Z := round (a - b).
Definition mul (a b : Z) : Z := round (a * b).
End Float64.

(** ** Colours *)

Module RGBA.
(** Modelled from the spec: the class [RGBA] is imported from
    [@opentui/core] and is not under src/.  The spec describes a colour as
    "a fully specified RGBA 4-tuple" whose channels are written to the file
    as [{r,g,b,a}]; the model is that 4-tuple, with [fromInts] and
    [fromValues] building it from the four channel values and [r], [g],
    [b], [a] reading them back. *)
Record t := mk { r : Z; g : Z; b : Z; a : Z }.
Definition fromInts (r g b a : Z) : t := mk r g b a.
Definition fromValues (r g b a : Z) : t := mk r g b a.
End RGBA.

(** [type EntityColor = RGBA | null]: [None] is the transparent colour. *)
Definition EntityColor := option RGBA.t.

Definition STROKE_PALETTE : list EntityColor :=
  [ None;
    Some (RGBA.fromInts 0 0 0 255);
    Some (RGBA.fromInts 255 255 255 255);
    Some (RGBA.fromInts 255 100 100 255);
    Some (RGBA.fromInts 100 255 100 255);
    Some (RGBA.fromInts 100 100 255 255);
    Some (RGBA.fromInts 255 255 100 255) ].

Definition FILL_PALETTE : list EntityColor :=
  [ None;
    Some (RGBA.fromInts 0 0 0 255);
    Some (RGBA.fromInts 60 60 60 255);
    Some (RGBA.fromInts 80 30 30 255);
    Some (RGBA.fromInts 30 80 30 255);
    Some (RGBA.fromInts 30 30 80 255);
    Some (RGBA.fromInts 80 80 30 255) ].

(** ** Entities *)

Module TextChar.
Record t := mk { char : string; bold : bool; color : EntityColor }.
End TextChar.

Module TextBox.
Record t := mk {
  id : Z; x : Z; y : Z;
  chars : list TextChar.t;
  zIndex : Z;
  strokeColor : EntityColor;
  fillColor : EntityColor }.
End TextBox.

Module Rectangle.
Record t := mk {
  id : Z; x1 : Z; y1 : Z; x2 : Z; y2 : Z;
  bold : bool;
  zIndex : Z;
  strokeColor : EntityColor;
  fillColor : EntityColor }.
End Rectangle.

Module Line.
Record t := mk {
  id : Z; x1 : Z; y1 : Z; x2 : Z; y2 : Z;
  bold : bool;
  zIndex : Z;
  strokeColor : EntityColor;
  fillColor : EntityColor }.
End Line.

Inductive Tool := ToolMove | ToolText | ToolRectangle | ToolLine.

(** [type ResizeHandle = "nw" | ... | null]; [null] is [None] of
    [option ResizeHandle]. *)
Inductive ResizeHandle :=
| H_nw | H_n | H_ne | H_e | H_se | H_s | H_sw | H_w.

(** [interface HistorySnapshot]: the three collections and the four
    counters. *)
Record HistorySnapshot := mkSnapshot {
  textBoxes : list TextBox.t;
  rectangles : list Rectangle.t;
  lines : list Line.t;
  nextTextBoxId : Z;
  nextRectId : Z;
  nextLineId : Z;
  nextZIndex : Z }.

(** ** The persisted format *)

Module SerializedColor.
Record t := mk { r : Z; g : Z; b : Z; a : Z }.
End SerializedColor.

Module SerializedTextChar.
Record t := mk { char : string; bold : bool; color : option SerializedColor.t }.
End SerializedTextChar.

Module SerializedTextBox.
Record t := mk {
  id : Z; x : Z; y : Z;
  chars : list SerializedTextChar.t;
  zIndex : Z;
  strokeColor : option SerializedColor.t;
  fillColor : option SerializedColor.t }.
End SerializedTextBox.

Module SerializedRectangle.
Record t := mk {
  id : Z; x1 : Z; y1 : Z; x2 : Z; y2 : Z;
  bold : bool;
  zIndex : Z;
  strokeColor : option SerializedColor.t;
  fillColor : option SerializedColor.t }.
End SerializedRectangle.

Module SerializedLine.
Record t := mk {
  id : Z; x1 : Z; y1 : Z; x2 : Z; y2 : Z;
  bold : bool;
  zIndex : Z;
  strokeColor : option SerializedColor.t;
  fillColor : option SerializedColor.t }.
End SerializedLine.

(** The value found under the key [version] of a parsed file.  The
    interface declares the literal type [1], but [JSON.parse] returns
    whatever the file holds, and [loadFile] compares it with [!== 1]. *)
Inductive VersionTag :=
| VNumber (n : Z)
| VText (s : string)
| VAbsent.

Module TigmaFile.
Record t := mk {
  version : VersionTag;
  textBoxes : list SerializedTextBox.t;
  rectangles : list SerializedRectangle.t;
  lines : list SerializedLine.t;
  nextTextBoxId : Z;
  nextRectId : Z;
  nextLineId : Z;
  nextZIndex : Z }.
End TigmaFile.

(** ** The application state

    The fields of [class CanvasApp] that the engine reads or writes.  The
    seven document fields have the shape of a [HistorySnapshot] and are kept
    in one such record ([document]); the other fields are grouped by the
    comment headings of the class. *)

Record Selection := mkSelection {
  selectedTextBoxIds : list Z;
  selectedRectIds : list Z;
  selectedLineIds : list Z }.

Record Hover := mkHover {
  hoveredTextBoxId : option Z;
  hoveredRectId : option Z;
  hoveredLineId : option Z }.

Record Gesture := mkGesture {
  currentTool : Tool;
  isDrawingRect : bool;
  isDrawingLine : bool;
  isSelecting : bool;
  isSelectionPending : bool;
  isDraggingMouse : bool;
  isDraggingSelection : bool;
  isResizingRect : bool;
  resizeHandle : option ResizeHandle;
  drawStartX : Z; drawStartY : Z;
  drawCursorX : Z; drawCursorY : Z;
  dragStartX : Z; dragStartY : Z;
  mouseDownX : Z; mouseDownY : Z;
  hasDragged : bool;
  clickedOnSelectedTextBox : bool }.

Record Style := mkStyle {
  boldMode : bool;
  currentStrokeColor : EntityColor;
  currentFillColor : EntityColor }.

Record CanvasApp := mkApp {
  gridWidth : Z;
  gridHeight : Z;
  document : HistorySnapshot;
  selection : Selection;
  hover : Hover;
  activeTextBoxId : option Z;
  textCursorPos : Z;
  gesture : Gesture;
  style : Style;
  historyStack : list HistorySnapshot;
  redoStack : list HistorySnapshot;
  currentFilePath : option string }.

Definition MAX_HISTORY : nat := 100.

(** ** Record updates *)

Definition with_document (d : HistorySnapshot) (s : CanvasApp) : CanvasApp :=
  mkApp (gridWidth s) (gridHeight s) d (selection s) (hover s)
        (activeTextBoxId s) (textCursorPos s) (gesture s) (style s)
        (historyStack s) (redoStack s) (currentFilePath s).

Definition with_selection (sel : Selection) (s : CanvasApp) : CanvasApp :=
  mkApp (gridWidth s) (gridHeight s) (document s) sel (hover s)
        (activeTextBoxId s) (textCursorPos s) (gesture s) (style s)
        (historyStack s) (redoStack s) (currentFilePath s).

Definition with_hover (h : Hover) (s : CanvasApp) : CanvasApp :=
  mkApp (gridWidth s) (gridHeight s) (document s) (selection s) h
        (activeTextBoxId s) (textCursorPos s) (gesture s) (style s)
        (historyStack s) (redoStack s) (currentFilePath s).

Definition with_activeTextBoxId (i : option Z) (s : CanvasApp) : CanvasApp :=
  mkApp (gridWidth s) (gridHeight s) (document s) (selection s) (hover s)
        i (textCursorPos s) (gesture s) (style s)
        (historyStack s) (redoStack s) (currentFilePath s).

Definition with_textCursorPos (p : Z) (s : CanvasApp) : CanvasApp :=
  mkApp (gridWidth s) (gridHeight s) (document s) (selection s) (hover s)
        (activeTextBoxId s) p (gesture s) (style s)
        (historyStack s) (redoStack s) (currentFilePath s).

Definition with_gesture (gs : Gesture) (s : CanvasApp) : CanvasApp :=
  mkApp (gridWidth s) (gridHeight s) (document s) (selection s) (hover s)
        (activeTextBoxId s) (textCursorPos s) gs (style s)
        (historyStack s) (redoStack s) (currentFilePath s).

Definition with_historyStack (h : list HistorySnapshot) (s : CanvasApp) : CanvasApp :=
  mkApp (gridWidth s) (gridHeight s) (document s) (selection s) (hover s)
        (activeTextBoxId s) (textCursorPos s) (gesture s) (style s)
        h (redoStack s) (currentFilePath s).

Definition with_redoStack (h : list HistorySnapshot) (s : CanvasApp) : CanvasApp :=
  mkApp (gridWidth s) (gridHeight s) (document s) (selection s) (hover s)
        (activeTextBoxId s) (textCursorPos s) (gesture s) (style s)
        (historyStack s) h (currentFilePath s).

Definition with_currentFilePath (p : option string) (s : CanvasApp) : CanvasApp :=
  mkApp (gridWidth s) (gridHeight s) (document s) (selection s) (hover s)
        (activeTextBoxId s) (textCursorPos s) (gesture s) (style s)
        (historyStack s) (redoStack s) p.

Definition with_textBoxes (l : list TextBox.t) (d : HistorySnapshot) : HistorySnapshot :=
  mkSnapshot l (rectangles d) (lines d)
             (nextTextBoxId d) (nextRectId d) (nextLineId d) (nextZIndex d).

Definition with_rectangles (l : list Rectangle.t) (d : HistorySnapshot) : HistorySnapshot :=
  mkSnapshot (textBoxes d) l (lines d)
             (nextTextBoxId d) (nextRectId d) (nextLineId d) (nextZIndex d).

Definition with_lines (l : list Line.t) (d : HistorySnapshot) : HistorySnapshot :=
  mkSnapshot (textBoxes d) (rectangles d) l
             (nextTextBoxId d) (nextRectId d) (nextLineId d) (nextZIndex d).

(** ** Arrays *)

(** [a.push(x)]. *)
Definition push {A : Type} (l : list A) (x : A) : list A := l ++ [x].

(** [a.pop()]: the array without its last element, and that element;
    [None] on the empty array (where JavaScript returns [undefined]). *)
Fixpoint pop {A : Type} (l : list A) : option (list A * A) :=
  match l with
  | [] => None
  | x :: l' =>
      match pop l' with
      | None => Some ([], x)
      | Some (front, y) => Some (x :: front, y)
      end
  end.

(** [a.shift()], for its effect on the array. *)
Definition shift {A : Type} (l : list A) : list A := tl l.

(** The in-place mutation [const o = a.find(p); if (o) { o.f = ... }]:
    the first element that satisfies [p] is replaced by its image. *)
Fixpoint updateFound {A : Type} (p : A -> bool) (f : A -> A) (l : list A) : list A :=
  match l with
  | [] => []
  | o :: l' => if p o then f o :: l' else o :: updateFound p f l'
  end.

(** ** History (undo/redo) *)

Definition cloneTextBoxes (boxes : list TextBox.t) : list TextBox.t :=
  map (fun b =>
         TextBox.mk (TextBox.id b) (TextBox.x b) (TextBox.y b)
           (map (fun c => TextChar.mk (TextChar.char c) (TextChar.bold c)
                                      (TextChar.color c))
                (TextBox.chars b))
           (TextBox.zIndex b) (TextBox.strokeColor b) (TextBox.fillColor b))
      boxes.

Definition cloneRectangles (rects : list Rectangle.t) : list Rectangle.t :=
  map (fun r =>
         Rectangle.mk (Rectangle.id r) (Rectangle.x1 r) (Rectangle.y1 r)
           (Rectangle.x2 r) (Rectangle.y2 r) (Rectangle.bold r)
           (Rectangle.zIndex r) (Rectangle.strokeColor r) (Rectangle.fillColor r))
      rects.

Definition cloneLines (ls : list Line.t) : list Line.t :=
  map (fun l =>
         Line.mk (Line.id l) (Line.x1 l) (Line.y1 l) (Line.x2 l) (Line.y2 l)
           (Line.bold l) (Line.zIndex l) (Line.strokeColor l) (Line.fillColor l))
      ls.

(** The object literal built at the head of [saveSnapshot], [undo] and
    [redo]. *)
Definition currentSnapshot (s : CanvasApp) : HistorySnapshot :=
  let d := document s in
  mkSnapshot (cloneTextBoxes (textBoxes d)) (cloneRectangles (rectangles d))
             (cloneLines (lines d))
             (nextTextBoxId d) (nextRectId d) (nextLineId d) (nextZIndex d).

Definition saveSnapshot (s : CanvasApp) : CanvasApp :=
  let snapshot := currentSnapshot s in
  let stack := push (historyStack s) snapshot in
  let stack := if (MAX_HISTORY <? length stack)%nat then shift stack else stack in
  with_redoStack [] (with_historyStack stack s).

Definition clearSelection (s : CanvasApp) : CanvasApp :=
  with_selection (mkSelection [] [] []) s.

(** The tail shared by [undo] and [redo]: install [snapshot] and reset the
    transient state. *)
Definition install (snapshot : HistorySnapshot) (s : CanvasApp) : CanvasApp :=
  clearSelection
    (with_hover (mkHover None None None)
       (with_activeTextBoxId None
          (with_document snapshot s))).

Definition undo (s : CanvasApp) : CanvasApp :=
  if (length (historyStack s) =? 0)%nat then s
  else
    let s1 := with_redoStack (push (redoStack s) (currentSnapshot s)) s in
    match pop (historyStack s1) with
    | None => s1
    | Some (stack, snapshot) => install snapshot (with_historyStack stack s1)
    end.

Definition redo (s : CanvasApp) : CanvasApp :=
  if (length (redoStack s) =? 0)%nat then s
  else
    let s1 := with_historyStack (push (historyStack s) (currentSnapshot s)) s in
    match pop (redoStack s1) with
    | None => s1
    | Some (stack, snapshot) => install snapshot (with_redoStack stack s1)
    end.

(** ** File save/load *)

Definition serializeColor (color : EntityColor) : option SerializedColor.t :=
  match color with
  | None => None
  | Some c => Some (SerializedColor.mk (RGBA.r c) (RGBA.g c) (RGBA.b c) (RGBA.a c))
  end.

Definition deserializeColor (color : option SerializedColor.t) : EntityColor :=
  match color with
  | None => None
  | Some c => Some (RGBA.fromValues (SerializedColor.r c) (SerializedColor.g c)
                                    (SerializedColor.b c) (SerializedColor.a c))
  end.

Definition serializeTextBox (box : TextBox.t) : SerializedTextBox.t :=
  SerializedTextBox.mk (TextBox.id box) (TextBox.x box) (TextBox.y box)
    (map (fun c => SerializedTextChar.mk (TextChar.char c) (TextChar.bold c)
                     (serializeColor (TextChar.color c)))
         (TextBox.chars box))
    (TextBox.zIndex box)
    (serializeColor (TextBox.strokeColor box))
    (serializeColor (TextBox.fillColor box)).

Definition deserializeTextBox (box : SerializedTextBox.t) : TextBox.t :=
  TextBox.mk (SerializedTextBox.id box) (SerializedTextBox.x box)
    (SerializedTextBox.y box)
    (map (fun c => TextChar.mk (SerializedTextChar.char c)
                     (SerializedTextChar.bold c)
                     (deserializeColor (SerializedTextChar.color c)))
         (SerializedTextBox.chars box))
    (SerializedTextBox.zIndex box)
    (deserializeColor (SerializedTextBox.strokeColor box))
    (deserializeColor (SerializedTextBox.fillColor box)).

Definition serializeRectangle (rect : Rectangle.t) : SerializedRectangle.t :=
  SerializedRectangle.mk (Rectangle.id rect)
    (Rectangle.x1 rect) (Rectangle.y1 rect) (Rectangle.x2 rect) (Rectangle.y2 rect)
    (Rectangle.bold rect) (Rectangle.zIndex rect)
    (serializeColor (Rectangle.strokeColor rect))
    (serializeColor (Rectangle.fillColor rect)).

Definition deserializeRectangle (rect : SerializedRectangle.t) : Rectangle.t :=
  Rectangle.mk (SerializedRectangle.id rect)
    (SerializedRectangle.x1 rect) (SerializedRectangle.y1 rect)
    (SerializedRectangle.x2 rect) (SerializedRectangle.y2 rect)
    (SerializedRectangle.bold rect) (SerializedRectangle.zIndex rect)
    (deserializeColor (SerializedRectangle.strokeColor rect))
    (deserializeColor (SerializedRectangle.fillColor rect)).

Definition serializeLine (line : Line.t) : SerializedLine.t :=
  SerializedLine.mk (Line.id line)
    (Line.x1 line) (Line.y1 line) (Line.x2 line) (Line.y2 line)
    (Line.bold line) (Line.zIndex line)
    (serializeColor (Line.strokeColor line))
    (serializeColor (Line.fillColor line)).

Definition deserializeLine (line : SerializedLine.t) : Line.t :=
  Line.mk (SerializedLine.id line)
    (SerializedLine.x1 line) (SerializedLine.y1 line)
    (SerializedLine.x2 line) (SerializedLine.y2 line)
    (SerializedLine.bold line) (SerializedLine.zIndex line)
    (deserializeColor (SerializedLine.strokeColor line))
    (deserializeColor (SerializedLine.fillColor line)).

Definition toFileData (s : CanvasApp) : TigmaFile.t :=
  let d := document s in
  TigmaFile.mk (VNumber 1)
    (map serializeTextBox (textBoxes d))
    (map serializeRectangle (rectangles d))
    (map serializeLine (lines d))
    (nextTextBoxId d) (nextRectId d) (nextLineId d) (nextZIndex d).

(** [loadFromFileData(data)] on a value of its declared type, on which
    it cannot throw. *)
Definition loadFromFileData (data : TigmaFile.t) (s : CanvasApp) : CanvasApp :=
  let d := mkSnapshot
             (map deserializeTextBox (TigmaFile.textBoxes data))
             (map deserializeRectangle (TigmaFile.rectangles data))
             (map deserializeLine (TigmaFile.lines data))
             (TigmaFile.nextTextBoxId data) (TigmaFile.nextRectId data)
             (TigmaFile.nextLineId data) (TigmaFile.nextZIndex data) in
  with_redoStack []
    (with_historyStack []
       (clearSelection
          (with_hover (mkHover None None None)
             (with_activeTextBoxId None
                (with_document d s))))).

Definition versionIsOne (v : VersionTag) : bool :=
  match v with
  | VNumber n => n =? 1
  | _ => false
  end.

Module ParsedFile.
(** What [JSON.parse] returned, as [loadFile] reads it: through the
    interface [TigmaFile], to which the value is cast without a check.  A
    collection is [None] when the key is absent or holds a value that is not
    an array: [.map] on it throws a [TypeError].  An element is [None] when
    the deserializer throws on it: the element is [null], or its [chars] is
    not an array, or one of its colours is absent ([undefined.r]).  The
    fields that are present are taken to hold values of their declared
    types. *)
Record t := mk {
  version : VersionTag;
  textBoxes : option (list (option SerializedTextBox.t));
  rectangles : option (list (option SerializedRectangle.t));
  lines : option (list (option SerializedLine.t));
  nextTextBoxId : Z;
  nextRectId : Z;
  nextLineId : Z;
  nextZIndex : Z }.

(** A value that conforms to the interface. *)
Definition conforming (data : TigmaFile.t) : t :=
  mk (TigmaFile.version data)
     (Some (map Some (TigmaFile.textBoxes data)))
     (Some (map Some (TigmaFile.rectangles data)))
     (Some (map Some (TigmaFile.lines data)))
     (TigmaFile.nextTextBoxId data) (TigmaFile.nextRectId data)
     (TigmaFile.nextLineId data) (TigmaFile.nextZIndex data).

(** How a call ends: it returns, or it throws; either way it leaves a
    state. *)
Inductive Completion :=
| Normal (s : CanvasApp)
| Throw (s : CanvasApp).

(** [elements.map(f)], which throws when [f] throws on an element. *)
Fixpoint mapElements {A B : Type} (f : A -> B) (elements : list (option A))
  : option (list B) :=
  match elements with
  | [] => Some []
  | None :: _ => None
  | Some e :: rest =>
      match mapElements f rest with
      | None => None
      | Some rest' => Some (f e :: rest')
      end
  end.

(** [collection.map(f)], which also throws when [collection] is not an
    array. *)
Definition mapOrThrow {A B : Type} (f : A -> B)
    (collection : option (list (option A))) : option (list B) :=
  match collection with
  | None => None
  | Some elements => mapElements f elements
  end.

(** [loadFromFileData(data)] on the parsed value, assignment by
    assignment: an exception leaves the assignments made before it. *)
Definition loadFromFileData (data : t) (s : CanvasApp) : Completion :=
  match mapOrThrow deserializeTextBox (textBoxes data) with
  | None => Throw s
  | Some boxes =>
      let s1 := with_document (with_textBoxes boxes (document s)) s in
      match mapOrThrow deserializeRectangle (rectangles data) with
      | None => Throw s1
      | Some rects =>
          let s2 := with_document (with_rectangles rects (document s1)) s1 in
          match mapOrThrow deserializeLine (lines data) with
          | None => Throw s2
          | Some ls =>
              let d := mkSnapshot boxes rects ls
                         (nextTextBoxId data) (nextRectId data)
                         (nextLineId data) (nextZIndex data) in
              Normal
                (with_redoStack []
                   (with_historyStack []
                      (clearSelection
                         (with_hover (mkHover None None None)
                            (with_activeTextBoxId None
                               (with_document d s2))))))
          end
      end
  end.
End ParsedFile.

(** [loadFile(filePath)].  [absolutePath] stands for
    [path.resolve(filePath)], and [parsed] for the outcome of
    [JSON.parse(fs.readFileSync(absolutePath))]: [None] when either call
    throws, or when the parsed value is [null], so that reading
    [data.version] throws.  The [catch] clause turns every exception into
    [false], and leaves the state as the exception found it. *)
Definition loadFile (absolutePath : string) (parsed : option ParsedFile.t)
    (s : CanvasApp) : bool * CanvasApp :=
  match parsed with
  | None => (false, s)
  | Some data =>
      if negb (versionIsOne (ParsedFile.version data)) then (false, s)
      else
        match ParsedFile.loadFromFileData data s with
        | ParsedFile.Normal s' =>
            (true, with_currentFilePath (Some absolutePath) s')
        | ParsedFile.Throw s' => (false, s')
        end
  end.

(** ** Selection helpers *)

(** [set.add(id)]. *)
Definition setAdd (id : Z) (ids : list Z) : list Z :=
  if existsb (Z.eqb id) ids then ids else ids ++ [id].

Definition isMultiSelection (s : CanvasApp) : bool :=
  let sel := selection s in
  (1 <? length (selectedTextBoxIds sel) + length (selectedRectIds sel)
        + length (selectedLineIds sel))%nat.

Definition getTotalSelectionCount (s : CanvasApp) : nat :=
  let sel := selection s in
  (length (selectedTextBoxIds sel) + length (selectedRectIds sel)
   + length (selectedLineIds sel))%nat.

Definition selectRect (id : Z) (addToSelection : bool) (s : CanvasApp) : CanvasApp :=
  let s1 := if negb addToSelection then clearSelection s else s in
  let sel := selection s1 in
  with_selection
    (mkSelection (selectedTextBoxIds sel) (setAdd id (selectedRectIds sel))
                 (selectedLineIds sel))
    s1.

(** [box.x += dx; box.y += dy], and the same on the two corners of a
    rectangle and the two endpoints of a line, as [moveSelection] does it:
    no bound of the canvas limits the sums, which are sums of doubles. *)
Definition shiftTextBox (dx dy : Z) (box : TextBox.t) : TextBox.t :=
  TextBox.mk (TextBox.id box)
    (Float64.add (TextBox.x box) dx) (Float64.add (TextBox.y box) dy)
    (TextBox.chars box) (TextBox.zIndex box)
    (TextBox.strokeColor box) (TextBox.fillColor box).

Definition shiftRect (dx dy : Z) (rect : Rectangle.t) : Rectangle.t :=
  Rectangle.mk (Rectangle.id rect)
    (Float64.add (Rectangle.x1 rect) dx) (Float64.add (Rectangle.y1 rect) dy)
    (Float64.add (Rectangle.x2 rect) dx) (Float64.add (Rectangle.y2 rect) dy)
    (Rectangle.bold rect) (Rectangle.zIndex rect)
    (Rectangle.strokeColor rect) (Rectangle.fillColor rect).

Definition shiftLine (dx dy : Z) (line : Line.t) : Line.t :=
  Line.mk (Line.id line)
    (Float64.add (Line.x1 line) dx) (Float64.add (Line.y1 line) dy)
    (Float64.add (Line.x2 line) dx) (Float64.add (Line.y2 line) dy)
    (Line.bold line) (Line.zIndex line)
    (Line.strokeColor line) (Line.fillColor line).

(** [moveSelection(dx, dy)]: three loops over the selected ids, each of
    which looks the entity up with [find] and adds the delta to its
    coordinates. *)
Definition moveSelection (dx dy : Z) (s : CanvasApp) : CanvasApp :=
  let d := document s in
  let sel := selection s in
  let boxes :=
    fold_left (fun boxes id =>
                 updateFound (fun b => TextBox.id b =? id) (shiftTextBox dx dy) boxes)
              (selectedTextBoxIds sel) (textBoxes d) in
  let rects :=
    fold_left (fun rects id =>
                 updateFound (fun r => Rectangle.id r =? id) (shiftRect dx dy) rects)
              (selectedRectIds sel) (rectangles d) in
  let ls :=
    fold_left (fun ls id =>
                 updateFound (fun l => Line.id l =? id) (shiftLine dx dy) ls)
              (selectedLineIds sel) (lines d) in
  with_document (with_lines ls (with_rectangles rects (with_textBoxes boxes d))) s.

(** ** Text box operations *)

Definition getTextLength (box : TextBox.t) : Z := Z.of_nat (length (TextBox.chars box)).

Definition commitActiveTextBox (s : CanvasApp) : CanvasApp :=
  match activeTextBoxId s with
  | None => s
  | Some active =>
      let d := document s in
      let boxes :=
        match find (fun b => TextBox.id b =? active) (textBoxes d) with
        | Some box =>
            if getTextLength box =? 0
            then filter (fun b => negb (TextBox.id b =? active)) (textBoxes d)
            else textBoxes d
        | None => textBoxes d
        end in
      with_textCursorPos 0
        (with_activeTextBoxId None (with_document (with_textBoxes boxes d) s))
  end.


(** ** Rectangle operations *)

(** The result of [normalizeRect] and [normalizeLine]. *)
Record Box := mkBox { bx1 : Z; by1 : Z; bx2 : Z; by2 : Z }.

Definition normalizeRect (rect : Rectangle.t) : Box :=
  mkBox (Z.min (Rectangle.x1 rect) (Rectangle.x2 rect))
        (Z.min (Rectangle.y1 rect) (Rectangle.y2 rect))
        (Z.max (Rectangle.x1 rect) (Rectangle.x2 rect))
        (Z.max (Rectangle.y1 rect) (Rectangle.y2 rect)).

(** [moveRect(id, newX, newY)]: the single-entity move, clamped by the
    normalized extent. *)
Definition moveRect (id newX newY : Z) (s : CanvasApp) : CanvasApp :=
  let d := document s in
  match find (fun r => Rectangle.id r =? id) (rectangles d) with
  | None => s
  | Some rect =>
      let normalized := normalizeRect rect in
      let width := bx2 normalized - bx1 normalized in
      let height := by2 normalized - by1 normalized in
      let newX := Z.max 0 (Z.min (gridWidth s - width - 1) newX) in
      let newY := Z.max 0 (Z.min (gridHeight s - height - 1) newY) in
      let rects :=
        updateFound (fun r => Rectangle.id r =? id)
          (fun r => Rectangle.mk (Rectangle.id r) newX newY
                      (newX + width) (newY + height)
                      (Rectangle.bold r) (Rectangle.zIndex r)
                      (Rectangle.strokeColor r) (Rectangle.fillColor r))
          (rectangles d) in
      with_document (with_rectangles rects d) s
  end.

Definition setCorners (x1 y1 x2 y2 : Z) (rect : Rectangle.t) : Rectangle.t :=
  Rectangle.mk (Rectangle.id rect) x1 y1 x2 y2
    (Rectangle.bold rect) (Rectangle.zIndex rect)
    (Rectangle.strokeColor rect) (Rectangle.fillColor rect).

(** The [switch] of [resizeRect], on the found rectangle. *)
Definition resizeBy (handle : ResizeHandle) (mouseX mouseY : Z)
    (rect : Rectangle.t) : Rectangle.t :=
  let x1 := Rectangle.x1 rect in
  let y1 := Rectangle.y1 rect in
  let x2 := Rectangle.x2 rect in
  let y2 := Rectangle.y2 rect in
  match handle with
  | H_nw => setCorners mouseX mouseY x2 y2 rect
  | H_ne => setCorners x1 mouseY mouseX y2 rect
  | H_sw => setCorners mouseX y1 x2 mouseY rect
  | H_se => setCorners x1 y1 mouseX mouseY rect
  | H_n => setCorners x1 mouseY x2 y2 rect
  | H_s => setCorners x1 y1 x2 mouseY rect
  | H_w => setCorners mouseX y1 x2 y2 rect
  | H_e => setCorners x1 y1 mouseX y2 rect
  end.

Definition resizeRect (id mouseX mouseY : Z) (s : CanvasApp) : CanvasApp :=
  let d := document s in
  match find (fun r => Rectangle.id r =? id) (rectangles d),
        resizeHandle (gesture s) with
  | Some _, Some handle =>
      let mouseX := Z.max 0 (Z.min (gridWidth s - 1) mouseX) in
      let mouseY := Z.max 0 (Z.min (gridHeight s - 1) mouseY) in
      let rects :=
        updateFound (fun r => Rectangle.id r =? id)
          (resizeBy handle mouseX mouseY) (rectangles d) in
      with_document (with_rectangles rects d) s
  | _, _ => s
  end.

(** ** Tool management *)

Definition setTool (tool : Tool) (s : CanvasApp) : CanvasApp :=
  let s1 := match activeTextBoxId s with
            | Some _ => commitActiveTextBox s
            | None => s
            end in
  let gs := gesture s1 in
  let s2 :=
    with_gesture
      (mkGesture tool false false false false false
         (isDraggingSelection gs) (isResizingRect gs) (resizeHandle gs)
         (drawStartX gs) (drawStartY gs) (drawCursorX gs) (drawCursorY gs)
         (dragStartX gs) (dragStartY gs) (mouseDownX gs) (mouseDownY gs)
         (hasDragged gs) (clickedOnSelectedTextBox gs))
      s1 in
  match tool with
  | ToolMove => s2
  | _ => clearSelection (with_hover (mkHover None None None) s2)
  end.

Definition set_isDrawingRect (v : bool) (gs : Gesture) : Gesture :=
  mkGesture (currentTool gs) v (isDrawingLine gs) (isSelecting gs)
    (isSelectionPending gs) (isDraggingMouse gs)
    (isDraggingSelection gs) (isResizingRect gs) (resizeHandle gs)
    (drawStartX gs) (drawStartY gs) (drawCursorX gs) (drawCursorY gs)
    (dragStartX gs) (dragStartY gs) (mouseDownX gs) (mouseDownY gs)
    (hasDragged gs) (clickedOnSelectedTextBox gs).

Definition commitRectangle (s : CanvasApp) : CanvasApp :=
  if negb (isDrawingRect (gesture s)) then s
  else
    let gs := gesture s in
    let x1 := Z.min (drawStartX gs) (drawCursorX gs) in
    let x2 := Z.max (drawStartX gs) (drawCursorX gs) in
    let y1 := Z.min (drawStartY gs) (drawCursorY gs) in
    let y2 := Z.max (drawStartY gs) (drawCursorY gs) in
    let s1 :=
      if (x1 <? x2) || (y1 <? y2) then
        let s' := saveSnapshot s in
        let d := document s' in
        let rect :=
          Rectangle.mk (nextRectId d) x1 y1 x2 y2 (boldMode (style s'))
            (nextZIndex d) (currentStrokeColor (style s'))
            (currentFillColor (style s')) in
        let d' :=
          mkSnapshot (textBoxes d) (push (rectangles d) rect) (lines d)
            (nextTextBoxId d) (nextRectId d + 1) (nextLineId d)
            (nextZIndex d + 1) in
        selectRect (Rectangle.id rect) false (with_document d' s')
      else s in
    setTool ToolMove (with_gesture (set_isDrawingRect false (gesture s1)) s1).

(** ** Line operations *)

Definition normalizeLine (line : Line.t) : Box :=
  mkBox (Z.min (Line.x1 line) (Line.x2 line))
        (Z.min (Line.y1 line) (Line.y2 line))
        (Z.max (Line.x1 line) (Line.x2 line))
        (Z.max (Line.y1 line) (Line.y2 line)).

(** [line.x1 += dx; line.y1 += dy; line.x2 += dx; line.y2 += dy] of
    [moveLine], where the delta leads to a cell of the canvas. *)
Definition translateLine (dx dy : Z) (line : Line.t) : Line.t :=
  Line.mk (Line.id line)
    (Line.x1 line + dx) (Line.y1 line + dy)
    (Line.x2 line + dx) (Line.y2 line + dy)
    (Line.bold line) (Line.zIndex line)
    (Line.strokeColor line) (Line.fillColor line).


(** The loop of [getLinePoints].  [dx], [dy], [sx], [sy] are the constants
    computed before the loop, [x2], [y2] the target cell, and [x], [y],
    [err] the loop variables.  One unit of [fuel] pays for one iteration;
    [None] means that the fuel ran out before the [break].  The sums and
    differences are those of doubles. *)
Fixpoint linePointsLoop (fuel : nat) (dx dy sx sy x2 y2 : Z) (x y err : Z)
  : option (list (Z * Z)) :=
  match fuel with
  | O => None
  | S fuel' =>
      if (x =? x2) && (y =? y2) then Some [(x, y)]
      else
        let e2 := Float64.mul 2 err in
        let '(err1, x') :=
          if -dy <? e2 then (Float64.sub err dy, Float64.add x sx) else (err, x) in
        let '(err2, y') :=
          if e2 <? dx then (Float64.add err1 dx, Float64.add y sy) else (err1, y) in
        match linePointsLoop fuel' dx dy sx sy x2 y2 x' y' err2 with
        | None => None
        | Some points => Some ((x, y) :: points)
        end
  end.

(** [getLinePoints(x1, y1, x2, y2)], Bresenham's line algorithm, run for at
    most [fuel] iterations. *)
Definition getLinePointsFuel (fuel : nat) (x1 y1 x2 y2 : Z) : option (list (Z * Z)) :=
  let dx := Z.abs (Float64.sub x2 x1) in
  let dy := Z.abs (Float64.sub y2 y1) in
  let sx := if x1 <? x2 then 1 else -1 in
  let sy := if y1 <? y2 then 1 else -1 in
  linePointsLoop fuel dx dy sx sy x2 y2 x1 y1 (Float64.sub dx dy).

Module Exact.
(** The same loop and the same function when no operation rounds: the
    sums and differences are those of [Z]. *)
Fixpoint linePointsLoop (fuel : nat) (dx dy sx sy x2 y2 : Z) (x y err : Z)
  : option (list (Z * Z)) :=
  match fuel with
  | O => None
  | S fuel' =>
      if (x =? x2) && (y =? y2) then Some [(x, y)]
      else
        let e2 := 2 * err in
        let '(err1, x') := if -dy <? e2 then (err - dy, x + sx) else (err, x) in
        let '(err2, y') := if e2 <? dx then (err1 + dx, y + sy) else (err1, y) in
        match linePointsLoop fuel' dx dy sx sy x2 y2 x' y' err2 with
        | None => None
        | Some points => Some ((x, y) :: points)
        end
  end.

Definition getLinePointsFuel (fuel : nat) (x1 y1 x2 y2 : Z) : option (list (Z * Z)) :=
  let dx := Z.abs (x2 - x1) in
  let dy := Z.abs (y2 - y1) in
  let sx := if x1 <? x2 then 1 else -1 in
  let sy := if y1 <? y2 then 1 else -1 in
  linePointsLoop fuel dx dy sx sy x2 y2 x1 y1 (dx - dy).
End Exact.

(** A number of iterations that is always enough when no operation rounds:
    each iteration then makes at least one of the [|x2-x1| + |y2-y1|] unit
    steps to the target. *)
Definition lineFuel (x1 y1 x2 y2 : Z) : nat :=
  S (Z.to_nat (Z.abs (x2 - x1) + Z.abs (y2 - y1))).

(** [getLinePoints] as a total function: the cells that the loop returns
    when no operation rounds, which is the case for every line whose
    endpoints are cells of a canvas.  The hit test [isOnLine] and the
    renderer are modelled with it. *)
Definition getLinePoints (x1 y1 x2 y2 : Z) : list (Z * Z) :=
  match Exact.getLinePointsFuel (lineFuel x1 y1 x2 y2) x1 y1 x2 y2 with
  | Some points => points
  | None => []
  end.

(** ** Mouse handling: the branch of [handleMouse] for a [drag] event *)

Definition clampX (s : CanvasApp) (x : Z) : Z := Z.max 0 (Z.min (gridWidth s - 1) x).
Definition clampY (s : CanvasApp) (y : Z) : Z := Z.max 0 (Z.min (gridHeight s - 1) y).

Definition set_hasDragged (v : bool) (gs : Gesture) : Gesture :=
  mkGesture (currentTool gs) (isDrawingRect gs) (isDrawingLine gs) (isSelecting gs)
    (isSelectionPending gs) (isDraggingMouse gs)
    (isDraggingSelection gs) (isResizingRect gs) (resizeHandle gs)
    (drawStartX gs) (drawStartY gs) (drawCursorX gs) (drawCursorY gs)
    (dragStartX gs) (dragStartY gs) (mouseDownX gs) (mouseDownY gs)
    v (clickedOnSelectedTextBox gs).

(** [isSelectionPending = false; isSelecting = true; isDraggingMouse = true]. *)
Definition startSelecting (gs : Gesture) : Gesture :=
  mkGesture (currentTool gs) (isDrawingRect gs) (isDrawingLine gs) true
    false true
    (isDraggingSelection gs) (isResizingRect gs) (resizeHandle gs)
    (drawStartX gs) (drawStartY gs) (drawCursorX gs) (drawCursorY gs)
    (dragStartX gs) (dragStartY gs) (mouseDownX gs) (mouseDownY gs)
    (hasDragged gs) (clickedOnSelectedTextBox gs).

Definition set_dragStart (x y : Z) (gs : Gesture) : Gesture :=
  mkGesture (currentTool gs) (isDrawingRect gs) (isDrawingLine gs) (isSelecting gs)
    (isSelectionPending gs) (isDraggingMouse gs)
    (isDraggingSelection gs) (isResizingRect gs) (resizeHandle gs)
    (drawStartX gs) (drawStartY gs) (drawCursorX gs) (drawCursorY gs)
    x y (mouseDownX gs) (mouseDownY gs)
    (hasDragged gs) (clickedOnSelectedTextBox gs).

Definition set_drawCursor (x y : Z) (gs : Gesture) : Gesture :=
  mkGesture (currentTool gs) (isDrawingRect gs) (isDrawingLine gs) (isSelecting gs)
    (isSelectionPending gs) (isDraggingMouse gs)
    (isDraggingSelection gs) (isResizingRect gs) (resizeHandle gs)
    (drawStartX gs) (drawStartY gs) x y
    (dragStartX gs) (dragStartY gs) (mouseDownX gs) (mouseDownY gs)
    (hasDragged gs) (clickedOnSelectedTextBox gs).

Definition isToolMove (t : Tool) : bool :=
  match t with ToolMove => true | _ => false end.

(** [handleMouse(event)] for [event.type === "drag"], with [ex = event.x]
    and [ey = event.y]. *)
Definition handleMouseDrag (ex ey : Z) (s : CanvasApp) : CanvasApp :=
  if gridHeight s <=? ey then s
  else
    let s1 :=
      if negb (ex =? mouseDownX (gesture s)) || negb (ey =? mouseDownY (gesture s))
      then with_gesture (set_hasDragged true (gesture s)) s
      else s in
    let s2 :=
      if isSelectionPending (gesture s1) && hasDragged (gesture s1)
         && isToolMove (currentTool (gesture s1))
      then with_gesture (startSelecting (gesture s1)) s1
      else s1 in
    let gs := gesture s2 in
    if isDraggingSelection gs then
      let dx := ex - dragStartX gs in
      let dy := ey - dragStartY gs in
      let s3 := moveSelection dx dy s2 in
      with_gesture (set_dragStart ex ey (gesture s3)) s3
    else if isResizingRect gs then
      match selectedRectIds (selection s2) with
      | rectId :: _ => resizeRect rectId ex ey s2
      | [] => s2
      end
    else if isDrawingRect gs || isDrawingLine gs || isSelecting gs then
      with_gesture (set_drawCursor (clampX s2 ex) (clampY s2 ey) gs) s2
    else s2.

(** ** Layer management *)

Inductive ObjectType := TypeText | TypeRect | TypeLine.

(** The object returned by [getSelectedObject]. *)
Module SelectedObject.
Record t := mk { type : ObjectType; zIndex : Z; id : Z }.
End SelectedObject.

Definition getSelectedObject (s : CanvasApp) : option SelectedObject.t :=
  let d := document s in
  let sel := selection s in
  let fromLines :=
    match selectedLineIds sel with
    | [id] =>
        match find (fun l => Line.id l =? id) (lines d) with
        | Some line => Some (SelectedObject.mk TypeLine (Line.zIndex line) (Line.id line))
        | None => None
        end
    | _ => None
    end in
  let fromRects :=
    match selectedRectIds sel with
    | [id] =>
        match find (fun r => Rectangle.id r =? id) (rectangles d) with
        | Some rect =>
            Some (SelectedObject.mk TypeRect (Rectangle.zIndex rect) (Rectangle.id rect))
        | None => fromLines
        end
    | _ => fromLines
    end in
  match selectedTextBoxIds sel with
  | [id] =>
      match find (fun b => TextBox.id b =? id) (textBoxes d) with
      | Some box => Some (SelectedObject.mk TypeText (TextBox.zIndex box) (TextBox.id box))
      | None => fromRects
      end
  | _ => fromRects
  end.

(** [indices.sort((a, b) => a - b)]: ascending order.  On integers the
    result of a comparison sort is determined by its input, whatever the
    algorithm; insertion sort is used here. *)
Fixpoint insertAscending (z : Z) (l : list Z) : list Z :=
  match l with
  | [] => [z]
  | h :: t => if z <=? h then z :: l else h :: insertAscending z t
  end.

Fixpoint sortAscending (l : list Z) : list Z :=
  match l with
  | [] => []
  | h :: t => insertAscending h (sortAscending t)
  end.

(** The indices in the order in which [getAllZIndices] pushes them. *)
Definition zIndicesOf (d : HistorySnapshot) : list Z :=
  map TextBox.zIndex (textBoxes d) ++ map Rectangle.zIndex (rectangles d)
  ++ map Line.zIndex (lines d).

Definition getAllZIndices (s : CanvasApp) : list Z :=
  sortAscending (zIndicesOf (document s)).

(** [a.indexOf(v)]: the first index that holds [v], or [-1]. *)
Fixpoint indexOfFrom (i : Z) (v : Z) (l : list Z) : Z :=
  match l with
  | [] => -1
  | h :: t => if h =? v then i else indexOfFrom (i + 1) v t
  end.

Definition indexOf (v : Z) (l : list Z) : Z := indexOfFrom 0 v l.

(** [a[i]!] for an index that the guards of the callers keep inside the
    array. *)
Definition at_ (l : list Z) (i : Z) : Z := nth (Z.to_nat i) l 0.

Definition setTextBoxZ (z : Z) (box : TextBox.t) : TextBox.t :=
  TextBox.mk (TextBox.id box) (TextBox.x box) (TextBox.y box) (TextBox.chars box)
    z (TextBox.strokeColor box) (TextBox.fillColor box).

Definition setRectZ (z : Z) (rect : Rectangle.t) : Rectangle.t :=
  Rectangle.mk (Rectangle.id rect) (Rectangle.x1 rect) (Rectangle.y1 rect)
    (Rectangle.x2 rect) (Rectangle.y2 rect) (Rectangle.bold rect)
    z (Rectangle.strokeColor rect) (Rectangle.fillColor rect).

Definition setLineZ (z : Z) (line : Line.t) : Line.t :=
  Line.mk (Line.id line) (Line.x1 line) (Line.y1 line) (Line.x2 line) (Line.y2 line)
    (Line.bold line) z (Line.strokeColor line) (Line.fillColor line).

(** The part shared by [moveLayerDown] and [moveLayerUp] after the
    neighbour's z-index [otherZ] is known: snapshot, hand the selected
    z-index to the first entity of each collection that holds [otherZ], then
    give [otherZ] to the selected entity. *)
Definition swapZIndex (selected : SelectedObject.t) (otherZ : Z) (s : CanvasApp)
  : CanvasApp :=
  let s1 := saveSnapshot s in
  let d := document s1 in
  let selZ := SelectedObject.zIndex selected in
  let boxes :=
    updateFound (fun b => TextBox.zIndex b =? otherZ) (setTextBoxZ selZ) (textBoxes d) in
  let rects :=
    updateFound (fun r => Rectangle.zIndex r =? otherZ) (setRectZ selZ) (rectangles d) in
  let ls :=
    updateFound (fun l => Line.zIndex l =? otherZ) (setLineZ selZ) (lines d) in
  let id := SelectedObject.id selected in
  let d' :=
    match SelectedObject.type selected with
    | TypeText =>
        mkSnapshot
          (updateFound (fun b => TextBox.id b =? id) (setTextBoxZ otherZ) boxes)
          rects ls
          (nextTextBoxId d) (nextRectId d) (nextLineId d) (nextZIndex d)
    | TypeRect =>
        mkSnapshot boxes
          (updateFound (fun r => Rectangle.id r =? id) (setRectZ otherZ) rects)
          ls
          (nextTextBoxId d) (nextRectId d) (nextLineId d) (nextZIndex d)
    | TypeLine =>
        mkSnapshot boxes rects
          (updateFound (fun l => Line.id l =? id) (setLineZ otherZ) ls)
          (nextTextBoxId d) (nextRectId d) (nextLineId d) (nextZIndex d)
    end in
  with_document d' s1.

Definition moveLayerDown (s : CanvasApp) : CanvasApp :=
  match getSelectedObject s with
  | None => s
  | Some selected =>
      let allZIndices := getAllZIndices s in
      let currentIndex := indexOf (SelectedObject.zIndex selected) allZIndices in
      if currentIndex <=? 0 then s
      else
        let lowerZ := at_ allZIndices (currentIndex - 1) in
        swapZIndex selected lowerZ s
  end.

Definition moveLayerUp (s : CanvasApp) : CanvasApp :=
  match getSelectedObject s with
  | None => s
  | Some selected =>
      let allZIndices := getAllZIndices s in
      let currentIndex := indexOf (SelectedObject.zIndex selected) allZIndices in
      if Z.of_nat (length allZIndices) - 1 <=? currentIndex then s
      else
        let higherZ := at_ allZIndices (currentIndex + 1) in
        swapZIndex selected higherZ s
  end.

(** ** Further selection helpers *)

Definition hasSelection (s : CanvasApp) : bool :=
  let sel := selection s in
  (0 <? length (selectedTextBoxIds sel))%nat
  || (0 <? length (selectedRectIds sel))%nat
  || (0 <? length (selectedLineIds sel))%nat.

(** [set.has(id)]. *)
Definition setHas (id : Z) (ids : list Z) : bool := existsb (Z.eqb id) ids.

(** [set.delete(id)]. *)
Definition setDelete (id : Z) (ids : list Z) : list Z :=
  filter (fun i => negb (i =? id)) ids.

Definition isTextBoxSelected (id : Z) (s : CanvasApp) : bool :=
  setHas id (selectedTextBoxIds (selection s)).

Definition isRectSelected (id : Z) (s : CanvasApp) : bool :=
  setHas id (selectedRectIds (selection s)).

Definition isLineSelected (id : Z) (s : CanvasApp) : bool :=
  setHas id (selectedLineIds (selection s)).

Definition selectTextBox (id : Z) (addToSelection : bool) (s : CanvasApp) : CanvasApp :=
  let s1 := if negb addToSelection then clearSelection s else s in
  let sel := selection s1 in
  with_selection
    (mkSelection (setAdd id (selectedTextBoxIds sel)) (selectedRectIds sel)
                 (selectedLineIds sel))
    s1.

Definition selectLine (id : Z) (addToSelection : bool) (s : CanvasApp) : CanvasApp :=
  let s1 := if negb addToSelection then clearSelection s else s in
  let sel := selection s1 in
  with_selection
    (mkSelection (selectedTextBoxIds sel) (selectedRectIds sel)
                 (setAdd id (selectedLineIds sel)))
    s1.

(** ** Hit testing *)

(** The loop shared by [getTextBoxAt], [getRectangleAt] and [getLineAt]:
    [found] is replaced by a later hit only when that one has a strictly
    greater z-index. *)
Definition topmostFrom {A : Type} (hit : A -> bool) (zIndex : A -> Z)
    (found : option A) (l : list A) : option A :=
  fold_left
    (fun found o =>
       if hit o then
         match found with
         | None => Some o
         | Some f => if zIndex f <? zIndex o then Some o else found
         end
       else found)
    l found.

Definition topmost {A : Type} (hit : A -> bool) (zIndex : A -> Z) (l : list A)
  : option A :=
  topmostFrom hit zIndex None l.

(** The test of [getTextBoxAt]: the cell lies on the row of the run, within
    its effective width. *)
Definition isOnTextBox (x y : Z) (box : TextBox.t) : bool :=
  let boxWidth := Z.max 1 (getTextLength box) in
  (TextBox.x box <=? x) && (x <? TextBox.x box + boxWidth) && (y =? TextBox.y box).

Definition getTextBoxAt (x y : Z) (s : CanvasApp) : option TextBox.t :=
  topmost (isOnTextBox x y) TextBox.zIndex (textBoxes (document s)).

Definition isOnRectBorder (x y : Z) (rect : Rectangle.t) : bool :=
  let n := normalizeRect rect in
  let onTopOrBottom :=
    ((y =? by1 n) || (y =? by2 n)) && (bx1 n <=? x) && (x <=? bx2 n) in
  let onLeftOrRight :=
    ((x =? bx1 n) || (x =? bx2 n)) && (by1 n <=? y) && (y <=? by2 n) in
  onTopOrBottom || onLeftOrRight.

Definition getRectangleAt (x y : Z) (s : CanvasApp) : option Rectangle.t :=
  topmost (isOnRectBorder x y) Rectangle.zIndex (rectangles (document s)).

Definition isOnLine (x y : Z) (line : Line.t) : bool :=
  let n := normalizeLine line in
  if bx1 n =? bx2 n then
    (x =? bx1 n) && (by1 n <=? y) && (y <=? by2 n)
  else if by1 n =? by2 n then
    (y =? by1 n) && (bx1 n <=? x) && (x <=? bx2 n)
  else
    let points := getLinePoints (bx1 n) (by1 n) (bx2 n) (by2 n) in
    existsb (fun p => (fst p =? x) && (snd p =? y)) points.

Definition getLineAt (x y : Z) (s : CanvasApp) : option Line.t :=
  topmost (isOnLine x y) Line.zIndex (lines (document s)).

(** [Math.floor((a + b) / 2)]: the division of [Z] rounds towards minus
    infinity, as [Math.floor] does. *)
Definition midpoint (a b : Z) : Z := (a + b) / 2.

Definition getResizeHandleAt (rectId x y : Z) (s : CanvasApp) : option ResizeHandle :=
  match find (fun r => Rectangle.id r =? rectId) (rectangles (document s)) with
  | None => None
  | Some rect =>
      let n := normalizeRect rect in
      let x1 := bx1 n in let y1 := by1 n in
      let x2 := bx2 n in let y2 := by2 n in
      if (x =? x1) && (y =? y1) then Some H_nw
      else if (x =? x2) && (y =? y1) then Some H_ne
      else if (x =? x1) && (y =? y2) then Some H_sw
      else if (x =? x2) && (y =? y2) then Some H_se
      else
        let midX := midpoint x1 x2 in
        let midY := midpoint y1 y2 in
        if (x =? midX) && (y =? y1) then Some H_n
        else if (x =? midX) && (y =? y2) then Some H_s
        else if (x =? x1) && (y =? midY) then Some H_w
        else if (x =? x2) && (y =? midY) then Some H_e
        else None
  end.

(** ** Hover *)

(** The kind picked by [updateHover]: the hit of greatest z-index, the text
    run before the rectangle before the line on equal z-indices, and none
    below z-index 0. *)
Definition highestType (textBox : option TextBox.t) (rect : option Rectangle.t)
    (line : option Line.t) : option ObjectType :=
  let '(highestZ, highest) :=
    match textBox with
    | Some b => if -1 <? TextBox.zIndex b then (TextBox.zIndex b, Some TypeText)
                else (-1, None)
    | None => (-1, None)
    end in
  let '(highestZ, highest) :=
    match rect with
    | Some r => if highestZ <? Rectangle.zIndex r then (Rectangle.zIndex r, Some TypeRect)
                else (highestZ, highest)
    | None => (highestZ, highest)
    end in
  match line with
  | Some l => if highestZ <? Line.zIndex l then Some TypeLine else highest
  | None => highest
  end.

Definition updateHover (x y : Z) (s : CanvasApp) : CanvasApp :=
  if negb (isToolMove (currentTool (gesture s))) then
    with_hover (mkHover None None None) s
  else
    let onHandle :=
      match selectedRectIds (selection s) with
      | [rectId] =>
          if negb (isMultiSelection s) then
            match getResizeHandleAt rectId x y s with
            | Some _ => Some rectId
            | None => None
            end
          else None
      | _ => None
      end in
    match onHandle with
    | Some rectId => with_hover (mkHover None (Some rectId) None) s
    | None =>
        let textBox := getTextBoxAt x y s in
        let rect := getRectangleAt x y s in
        let line := getLineAt x y s in
        match highestType textBox rect line with
        | Some TypeText =>
            with_hover (mkHover (option_map TextBox.id textBox) None None) s
        | Some TypeRect =>
            with_hover (mkHover None (option_map Rectangle.id rect) None) s
        | Some TypeLine =>
            with_hover (mkHover None None (option_map Line.id line)) s
        | None => with_hover (mkHover None None None) s
        end
    end.

(** ** Deleting *)

Definition clearHoverIf (id : Z) (h : option Z) : option Z :=
  match h with
  | Some i => if i =? id then None else h
  | None => None
  end.

Definition deleteTextBox (id : Z) (s : CanvasApp) : CanvasApp :=
  let s1 := saveSnapshot s in
  let d := document s1 in
  let s2 :=
    with_document
      (with_textBoxes (filter (fun b => negb (TextBox.id b =? id)) (textBoxes d)) d)
      s1 in
  let s3 := with_activeTextBoxId (clearHoverIf id (activeTextBoxId s2)) s2 in
  let h := hover s3 in
  with_hover (mkHover (clearHoverIf id (hoveredTextBoxId h)) (hoveredRectId h)
                      (hoveredLineId h))
             s3.

Definition deleteRect (id : Z) (s : CanvasApp) : CanvasApp :=
  let s1 := saveSnapshot s in
  let d := document s1 in
  let s2 :=
    with_document
      (with_rectangles (filter (fun r => negb (Rectangle.id r =? id)) (rectangles d)) d)
      s1 in
  let h := hover s2 in
  with_hover (mkHover (hoveredTextBoxId h) (clearHoverIf id (hoveredRectId h))
                      (hoveredLineId h))
             s2.

Definition deleteLine (id : Z) (s : CanvasApp) : CanvasApp :=
  let s1 := saveSnapshot s in
  let d := document s1 in
  let s2 :=
    with_document
      (with_lines (filter (fun l => negb (Line.id l =? id)) (lines d)) d)
      s1 in
  let h := hover s2 in
  with_hover (mkHover (hoveredTextBoxId h) (hoveredRectId h)
                      (clearHoverIf id (hoveredLineId h)))
             s2.

(** The branch of the key handler for [delete] and [backspace], outside
    text editing: the selected entities if there are any, otherwise the
    hovered entity. *)
Definition handleDeleteKey (s : CanvasApp) : CanvasApp :=
  if hasSelection s then
    let s1 := saveSnapshot s in
    let d := document s1 in
    let sel := selection s1 in
    let boxes :=
      fold_left (fun boxes id => filter (fun b => negb (TextBox.id b =? id)) boxes)
                (selectedTextBoxIds sel) (textBoxes d) in
    let rects :=
      fold_left (fun rects id => filter (fun r => negb (Rectangle.id r =? id)) rects)
                (selectedRectIds sel) (rectangles d) in
    let ls :=
      fold_left (fun ls id => filter (fun l => negb (Line.id l =? id)) ls)
                (selectedLineIds sel) (lines d) in
    clearSelection
      (with_document (with_lines ls (with_rectangles rects (with_textBoxes boxes d))) s1)
  else
    match hoveredTextBoxId (hover s), hoveredRectId (hover s),
          hoveredLineId (hover s) with
    | Some id, _, _ => deleteTextBox id s
    | None, Some id, _ => deleteRect id s
    | None, None, Some id => deleteLine id s
    | None, None, None => s
    end.

(** ** Committing a line and a box selection *)

Definition set_isDrawingLine (v : bool) (gs : Gesture) : Gesture :=
  mkGesture (currentTool gs) (isDrawingRect gs) v (isSelecting gs)
    (isSelectionPending gs) (isDraggingMouse gs)
    (isDraggingSelection gs) (isResizingRect gs) (resizeHandle gs)
    (drawStartX gs) (drawStartY gs) (drawCursorX gs) (drawCursorY gs)
    (dragStartX gs) (dragStartY gs) (mouseDownX gs) (mouseDownY gs)
    (hasDragged gs) (clickedOnSelectedTextBox gs).

Definition set_isSelecting (v : bool) (gs : Gesture) : Gesture :=
  mkGesture (currentTool gs) (isDrawingRect gs) (isDrawingLine gs) v
    (isSelectionPending gs) (isDraggingMouse gs)
    (isDraggingSelection gs) (isResizingRect gs) (resizeHandle gs)
    (drawStartX gs) (drawStartY gs) (drawCursorX gs) (drawCursorY gs)
    (dragStartX gs) (dragStartY gs) (mouseDownX gs) (mouseDownY gs)
    (hasDragged gs) (clickedOnSelectedTextBox gs).

Definition commitLine (s : CanvasApp) : CanvasApp :=
  if negb (isDrawingLine (gesture s)) then s
  else
    let gs := gesture s in
    let x1 := drawStartX gs in
    let y1 := drawStartY gs in
    let x2 := drawCursorX gs in
    let y2 := drawCursorY gs in
    let s1 :=
      if negb (x1 =? x2) || negb (y1 =? y2) then
        let s' := saveSnapshot s in
        let d := document s' in
        let line :=
          Line.mk (nextLineId d) x1 y1 x2 y2 (boldMode (style s'))
            (nextZIndex d) (currentStrokeColor (style s')) None in
        let d' :=
          mkSnapshot (textBoxes d) (rectangles d) (push (lines d) line)
            (nextTextBoxId d) (nextRectId d) (nextLineId d + 1)
            (nextZIndex d + 1) in
        selectLine (Line.id line) false (with_document d' s')
      else s in
    setTool ToolMove (with_gesture (set_isDrawingLine false (gesture s1)) s1).

(** The closure [isIntersecting] of [commitSelection]: the box
    [(x1,y1)-(x2,y2)] meets the marquee [(selX1,selY1)-(selX2,selY2)]. *)
Definition isIntersecting (selX1 selY1 selX2 selY2 x1 y1 x2 y2 : Z) : bool :=
  negb ((x2 <? selX1) || (selX2 <? x1) || (y2 <? selY1) || (selY2 <? y1)).

Definition commitSelection (s : CanvasApp) : CanvasApp :=
  if negb (isSelecting (gesture s)) then s
  else
    let gs := gesture s in
    let selX1 := Z.min (drawStartX gs) (drawCursorX gs) in
    let selX2 := Z.max (drawStartX gs) (drawCursorX gs) in
    let selY1 := Z.min (drawStartY gs) (drawCursorY gs) in
    let selY2 := Z.max (drawStartY gs) (drawCursorY gs) in
    let meets := isIntersecting selX1 selY1 selX2 selY2 in
    let d := document s in
    let s1 :=
      fold_left
        (fun s box =>
           let width := Z.max 1 (getTextLength box) in
           if meets (TextBox.x box) (TextBox.y box)
                    (TextBox.x box + width - 1) (TextBox.y box)
           then selectTextBox (TextBox.id box) true s else s)
        (textBoxes d) s in
    let s2 :=
      fold_left
        (fun s rect =>
           let n := normalizeRect rect in
           if meets (bx1 n) (by1 n) (bx2 n) (by2 n)
           then selectRect (Rectangle.id rect) true s else s)
        (rectangles d) s1 in
    let s3 :=
      fold_left
        (fun s line =>
           let n := normalizeLine line in
           if meets (bx1 n) (by1 n) (bx2 n) (by2 n)
           then selectLine (Line.id line) true s else s)
        (lines d) s2 in
    with_gesture (set_isSelecting false (gesture s3)) s3.

(** ** Colours of the selection *)

Definition with_style (st : Style) (s : CanvasApp) : CanvasApp :=
  mkApp (gridWidth s) (gridHeight s) (document s) (selection s) (hover s)
        (activeTextBoxId s) (textCursorPos s) (gesture s) st
        (historyStack s) (redoStack s) (currentFilePath s).

(** [box.strokeColor = c], and [char.color = c] for each of its
    characters. *)
Definition strokeTextBox (c : EntityColor) (box : TextBox.t) : TextBox.t :=
  TextBox.mk (TextBox.id box) (TextBox.x box) (TextBox.y box)
    (map (fun ch => TextChar.mk (TextChar.char ch) (TextChar.bold ch) c)
         (TextBox.chars box))
    (TextBox.zIndex box) c (TextBox.fillColor box).

Definition strokeRect (c : EntityColor) (rect : Rectangle.t) : Rectangle.t :=
  Rectangle.mk (Rectangle.id rect) (Rectangle.x1 rect) (Rectangle.y1 rect)
    (Rectangle.x2 rect) (Rectangle.y2 rect) (Rectangle.bold rect)
    (Rectangle.zIndex rect) c (Rectangle.fillColor rect).

Definition strokeLine (c : EntityColor) (line : Line.t) : Line.t :=
  Line.mk (Line.id line) (Line.x1 line) (Line.y1 line) (Line.x2 line) (Line.y2 line)
    (Line.bold line) (Line.zIndex line) c (Line.fillColor line).

Definition fillTextBox (c : EntityColor) (box : TextBox.t) : TextBox.t :=
  TextBox.mk (TextBox.id box) (TextBox.x box) (TextBox.y box) (TextBox.chars box)
    (TextBox.zIndex box) (TextBox.strokeColor box) c.

Definition fillRect (c : EntityColor) (rect : Rectangle.t) : Rectangle.t :=
  Rectangle.mk (Rectangle.id rect) (Rectangle.x1 rect) (Rectangle.y1 rect)
    (Rectangle.x2 rect) (Rectangle.y2 rect) (Rectangle.bold rect)
    (Rectangle.zIndex rect) (Rectangle.strokeColor rect) c.

Definition applyStrokeColorToSelection (s : CanvasApp) : CanvasApp :=
  if negb (hasSelection s) then s
  else
    let s1 := saveSnapshot s in
    let d := document s1 in
    let sel := selection s1 in
    let c := currentStrokeColor (style s1) in
    let boxes :=
      fold_left (fun boxes id =>
                   updateFound (fun b => TextBox.id b =? id) (strokeTextBox c) boxes)
                (selectedTextBoxIds sel) (textBoxes d) in
    let rects :=
      fold_left (fun rects id =>
                   updateFound (fun r => Rectangle.id r =? id) (strokeRect c) rects)
                (selectedRectIds sel) (rectangles d) in
    let ls :=
      fold_left (fun ls id =>
                   updateFound (fun l => Line.id l =? id) (strokeLine c) ls)
                (selectedLineIds sel) (lines d) in
    with_document (with_lines ls (with_rectangles rects (with_textBoxes boxes d))) s1.

Definition applyFillColorToSelection (s : CanvasApp) : CanvasApp :=
  if negb (hasSelection s) then s
  else
    let s1 := saveSnapshot s in
    let d := document s1 in
    let sel := selection s1 in
    let c := currentFillColor (style s1) in
    let boxes :=
      fold_left (fun boxes id =>
                   updateFound (fun b => TextBox.id b =? id) (fillTextBox c) boxes)
                (selectedTextBoxIds sel) (textBoxes d) in
    let rects :=
      fold_left (fun rects id =>
                   updateFound (fun r => Rectangle.id r =? id) (fillRect c) rects)
                (selectedRectIds sel) (rectangles d) in
    with_document (with_rectangles rects (with_textBoxes boxes d)) s1.

(** [PALETTE[colorIndex] ?? null]. *)
Definition paletteAt (palette : list EntityColor) (colorIndex : Z) : EntityColor :=
  nth (Z.to_nat colorIndex) palette None.

(** [handleColorPickerClick(x, y)]: whether the click was handled, and the
    state.  The fields [currentStrokeColorIndex] and [currentFillColorIndex],
    which only tell the renderer which swatch to highlight, are not part of
    the state. *)
Definition handleColorPickerClick (x y : Z) (s : CanvasApp) : bool * CanvasApp :=
  let pickerY := gridHeight s - 1 in
  let width := gridWidth s in
  let pickerWidth := 32 in
  let startX := width - pickerWidth in
  if negb (y =? pickerY) || (x <? startX) then (false, s)
  else
    let strokeColorsStart := startX + 8 in
    let strokeColorsEnd := strokeColorsStart + Z.of_nat (length STROKE_PALETTE) - 1 in
    let fillColorsStart := startX + 8 + Z.of_nat (length STROKE_PALETTE) + 2 + 6 in
    let fillColorsEnd := fillColorsStart + Z.of_nat (length FILL_PALETTE) - 1 in
    let inStroke :=
      (strokeColorsStart <=? x) && (x <=? strokeColorsEnd)
      && (0 <=? x - strokeColorsStart)
      && (x - strokeColorsStart <? Z.of_nat (length STROKE_PALETTE)) in
    let inFill :=
      (fillColorsStart <=? x) && (x <=? fillColorsEnd)
      && (0 <=? x - fillColorsStart)
      && (x - fillColorsStart <? Z.of_nat (length FILL_PALETTE)) in
    if inStroke then
      let st := style s in
      let s1 :=
        with_style (mkStyle (boldMode st)
                            (paletteAt STROKE_PALETTE (x - strokeColorsStart))
                            (currentFillColor st)) s in
      (true, applyStrokeColorToSelection s1)
    else if inFill then
      let st := style s in
      let s1 :=
        with_style (mkStyle (boldMode st) (currentStrokeColor st)
                            (paletteAt FILL_PALETTE (x - fillColorsStart))) s in
      (true, applyFillColorToSelection s1)
    else (false, s).

(** ** Text input *)

(** The fields of a [KeyEvent] that the handlers read.  A key without a
    name has the empty [name]. *)
Module KeyEvent.
Record t := mk { name : string; sequence : string; ctrl : bool; meta : bool }.
End KeyEvent.

(** The index at which [a.splice(start, ...)] begins: a negative [start]
    counts from the end, and the result is kept within the array. *)
Definition spliceStart (len start : Z) : nat :=
  Z.to_nat (if start <? 0 then Z.max (len + start) 0 else Z.min start len).

(** [a.splice(start, deleteCount, ...items)], for its effect on the
    array. *)
Definition splice {A : Type} (l : list A) (start : Z) (deleteCount : nat)
    (items : list A) : list A :=
  let i := spliceStart (Z.of_nat (length l)) start in
  firstn i l ++ items ++ skipn (i + deleteCount) l.

Definition setChars (chars : list TextChar.t) (box : TextBox.t) : TextBox.t :=
  TextBox.mk (TextBox.id box) (TextBox.x box) (TextBox.y box) chars
    (TextBox.zIndex box) (TextBox.strokeColor box) (TextBox.fillColor box).

Definition toggleBold (s : CanvasApp) : CanvasApp :=
  let st := style s in
  with_style (mkStyle (negb (boldMode st)) (currentStrokeColor st)
                      (currentFillColor st)) s.

(** [b.id === this.activeTextBoxId], which no box satisfies when nothing is
    being edited. *)
Definition isActiveBox (s : CanvasApp) (box : TextBox.t) : bool :=
  match activeTextBoxId s with
  | Some id => TextBox.id box =? id
  | None => false
  end.

(** The in-place [box.chars.splice(start, deleteCount, ...items)] on the
    box being edited. *)
Definition spliceActive (start : Z) (deleteCount : nat) (items : list TextChar.t)
    (s : CanvasApp) : CanvasApp :=
  let d := document s in
  with_document
    (with_textBoxes
       (updateFound (isActiveBox s)
          (fun b => setChars (splice (TextBox.chars b) start deleteCount items) b)
          (textBoxes d))
       d)
    s.

(** [key.sequence.length === 1] and its code is between 32 and 126. *)
Definition isPrintable (sequence : string) : bool :=
  match sequence with
  | String c EmptyString =>
      let code := Ascii.nat_of_ascii c in
      (32 <=? code)%nat && (code <=? 126)%nat
  | _ => false
  end.

Definition handleTextInput (key : KeyEvent.t) (s : CanvasApp) : CanvasApp :=
  if String.eqb (KeyEvent.name key) "b" && KeyEvent.ctrl key && negb (KeyEvent.meta key)
  then toggleBold s
  else
    match find (isActiveBox s) (textBoxes (document s)) with
    | None => s
    | Some box =>
        let pos := textCursorPos s in
        let len := Z.of_nat (length (TextBox.chars box)) in
        let name := KeyEvent.name key in
        if String.eqb name "left" then
          if 0 <? pos then with_textCursorPos (pos - 1) s else s
        else if String.eqb name "right" then
          if pos <? len then with_textCursorPos (pos + 1) s else s
        else if String.eqb name "home" then with_textCursorPos 0 s
        else if String.eqb name "end" then with_textCursorPos len s
        else if String.eqb name "backspace" then
          if 0 <? pos then
            with_textCursorPos (pos - 1) (spliceActive (pos - 1) 1 [] (saveSnapshot s))
          else s
        else if String.eqb name "delete" then
          if pos <? len then spliceActive pos 1 [] (saveSnapshot s) else s
        else if isPrintable (KeyEvent.sequence key) && negb (KeyEvent.ctrl key)
                && negb (KeyEvent.meta key) then
          let s1 := saveSnapshot s in
          let newChar :=
            TextChar.mk (KeyEvent.sequence key) (boldMode (style s1))
                        (currentStrokeColor (style s1)) in
          with_textCursorPos (pos + 1) (spliceActive pos 0 [newChar] s1)
        else s
    end.

(** ** Mouse handling: the other branches of [handleMouse] *)

(** [handleMouse(event)] for [event.type === "move"]. *)
Definition handleMouseMove (ex ey : Z) (s : CanvasApp) : CanvasApp :=
  if gridHeight s <=? ey then s else updateHover ex ey s.

(** The assignments that end the branch for [up] and [drag-end]. *)
Definition endGesture (gs : Gesture) : Gesture :=
  mkGesture (currentTool gs) (isDrawingRect gs) (isDrawingLine gs) false
    false false
    false false None
    (drawStartX gs) (drawStartY gs) (drawCursorX gs) (drawCursorY gs)
    (dragStartX gs) (dragStartY gs) (mouseDownX gs) (mouseDownY gs)
    false false.

(** [handleMouse(event)] for [event.type === "up"] or ["drag-end"]. *)
Definition handleMouseUp (ex ey : Z) (s : CanvasApp) : CanvasApp :=
  if gridHeight s <=? ey then s
  else
    let s1 :=
      if isDrawingRect (gesture s) then
        commitRectangle
          (with_gesture (set_drawCursor (clampX s ex) (clampY s ey) (gesture s)) s)
      else s in
    let s2 :=
      if isDrawingLine (gesture s1) then
        commitLine
          (with_gesture (set_drawCursor (clampX s1 ex) (clampY s1 ey) (gesture s1)) s1)
      else s1 in
    let s3 :=
      if isSelecting (gesture s2) then
        commitSelection
          (with_gesture (set_drawCursor (clampX s2 ex) (clampY s2 ey) (gesture s2)) s2)
      else s2 in
    let s4 :=
      if clickedOnSelectedTextBox (gesture s3) && negb (hasDragged (gesture s3)) then
        match selectedTextBoxIds (selection s3) with
        | [textBoxId] =>
            match find (fun b => TextBox.id b =? textBoxId)
                       (textBoxes (document s3)) with
            | Some textBox =>
                let relativeX := ex - TextBox.x textBox in
                clearSelection
                  (with_textCursorPos (Z.min relativeX (getTextLength textBox))
                     (with_activeTextBoxId (Some (TextBox.id textBox)) s3))
            | None => s3
            end
        | _ => s3
        end
      else s3 in
    with_gesture (endGesture (gesture s4)) s4.

(** [mouseDownX = x; mouseDownY = y; hasDragged = false;
    clickedOnSelectedTextBox = false]. *)
Definition pressAt (x y : Z) (gs : Gesture) : Gesture :=
  mkGesture (currentTool gs) (isDrawingRect gs) (isDrawingLine gs) (isSelecting gs)
    (isSelectionPending gs) (isDraggingMouse gs)
    (isDraggingSelection gs) (isResizingRect gs) (resizeHandle gs)
    (drawStartX gs) (drawStartY gs) (drawCursorX gs) (drawCursorY gs)
    (dragStartX gs) (dragStartY gs) x y
    false false.

(** [isResizingRect = true; resizeHandle = handle; isDraggingMouse = true]. *)
Definition startResizing (handle : ResizeHandle) (gs : Gesture) : Gesture :=
  mkGesture (currentTool gs) (isDrawingRect gs) (isDrawingLine gs) (isSelecting gs)
    (isSelectionPending gs) true
    (isDraggingSelection gs) true (Some handle)
    (drawStartX gs) (drawStartY gs) (drawCursorX gs) (drawCursorY gs)
    (dragStartX gs) (dragStartY gs) (mouseDownX gs) (mouseDownY gs)
    (hasDragged gs) (clickedOnSelectedTextBox gs).

Definition set_clickedOnSelectedTextBox (v : bool) (gs : Gesture) : Gesture :=
  mkGesture (currentTool gs) (isDrawingRect gs) (isDrawingLine gs) (isSelecting gs)
    (isSelectionPending gs) (isDraggingMouse gs)
    (isDraggingSelection gs) (isResizingRect gs) (resizeHandle gs)
    (drawStartX gs) (drawStartY gs) (drawCursorX gs) (drawCursorY gs)
    (dragStartX gs) (dragStartY gs) (mouseDownX gs) (mouseDownY gs)
    (hasDragged gs) v.

(** [isDraggingSelection = true; dragStartX = x; dragStartY = y;
    isDraggingMouse = true]. *)
Definition startDragging (x y : Z) (gs : Gesture) : Gesture :=
  mkGesture (currentTool gs) (isDrawingRect gs) (isDrawingLine gs) (isSelecting gs)
    (isSelectionPending gs) true
    true (isResizingRect gs) (resizeHandle gs)
    (drawStartX gs) (drawStartY gs) (drawCursorX gs) (drawCursorY gs)
    x y (mouseDownX gs) (mouseDownY gs)
    (hasDragged gs) (clickedOnSelectedTextBox gs).

(** [isSelectionPending = true] and the draw anchor and cursor at the
    click. *)
Definition pendSelection (x y : Z) (gs : Gesture) : Gesture :=
  mkGesture (currentTool gs) (isDrawingRect gs) (isDrawingLine gs) (isSelecting gs)
    true (isDraggingMouse gs)
    (isDraggingSelection gs) (isResizingRect gs) (resizeHandle gs)
    x y x y
    (dragStartX gs) (dragStartY gs) (mouseDownX gs) (mouseDownY gs)
    (hasDragged gs) (clickedOnSelectedTextBox gs).

(** The start of a rectangle draw ([rect = true]) or of a line draw. *)
Definition startDrawing (rect : bool) (x y : Z) (gs : Gesture) : Gesture :=
  mkGesture (currentTool gs)
    (if rect then true else isDrawingRect gs)
    (if rect then isDrawingLine gs else true)
    (isSelecting gs)
    (isSelectionPending gs) true
    (isDraggingSelection gs) (isResizingRect gs) (resizeHandle gs)
    x y x y
    (dragStartX gs) (dragStartY gs) (mouseDownX gs) (mouseDownY gs)
    (hasDragged gs) (clickedOnSelectedTextBox gs).

(** The selection logic of a click on an entity of one kind: toggle under
    shift, otherwise select it alone unless it is selected already. *)
Definition clickSelect (shiftHeld alreadySelected : bool) (id : Z)
    (toggle : list Z -> Selection) (selectAlone : CanvasApp -> CanvasApp)
    (ids : list Z) (s : CanvasApp) : CanvasApp :=
  if shiftHeld then
    with_selection
      (toggle (if alreadySelected then setDelete id ids else setAdd id ids)) s
  else if negb alreadySelected then selectAlone s
  else s.

(** The rest of a click on an entity: snapshot and start dragging. *)
Definition beginDrag (x y : Z) (s : CanvasApp) : CanvasApp :=
  let s1 := saveSnapshot s in
  with_gesture (startDragging x y (gesture s1)) s1.

(** The part of the [down] branch for the move tool. *)
Definition handleMouseDownMove (ex ey : Z) (shiftHeld : bool) (s : CanvasApp)
  : CanvasApp :=
  let s := with_gesture (pressAt ex ey (gesture s)) s in
  let handle :=
    match selectedRectIds (selection s) with
    | [rectId] =>
        if negb (isMultiSelection s) then getResizeHandleAt rectId ex ey s else None
    | _ => None
    end in
  match handle with
  | Some handle =>
      let s1 := saveSnapshot s in
      with_gesture (startResizing handle (gesture s1)) s1
  | None =>
      let sel := selection s in
      match getTextBoxAt ex ey s with
      | Some clickedTextBox =>
          let id := TextBox.id clickedTextBox in
          let alreadySelected := isTextBoxSelected id s in
          let s1 :=
            if alreadySelected && negb shiftHeld && negb (isMultiSelection s)
            then with_gesture (set_clickedOnSelectedTextBox true (gesture s)) s
            else s in
          beginDrag ex ey
            (clickSelect shiftHeld alreadySelected id
               (fun ids => mkSelection ids (selectedRectIds sel) (selectedLineIds sel))
               (selectTextBox id false) (selectedTextBoxIds sel) s1)
      | None =>
          match getRectangleAt ex ey s with
          | Some clickedRect =>
              let id := Rectangle.id clickedRect in
              beginDrag ex ey
                (clickSelect shiftHeld (isRectSelected id s) id
                   (fun ids => mkSelection (selectedTextBoxIds sel) ids
                                           (selectedLineIds sel))
                   (selectRect id false) (selectedRectIds sel) s)
          | None =>
              match getLineAt ex ey s with
              | Some clickedLine =>
                  let id := Line.id clickedLine in
                  beginDrag ex ey
                    (clickSelect shiftHeld (isLineSelected id s) id
                       (fun ids => mkSelection (selectedTextBoxIds sel)
                                               (selectedRectIds sel) ids)
                       (selectLine id false) (selectedLineIds sel) s)
              | None =>
                  let s1 := if negb shiftHeld then clearSelection s else s in
                  with_gesture (pendSelection ex ey (gesture s1)) s1
              end
          end
      end
  end.

(** The part of the [down] branch for the drawing tools. *)
Definition handleMouseDownDraw (ex ey : Z) (s : CanvasApp) : CanvasApp :=
  let s := clearSelection s in
  match currentTool (gesture s) with
  | ToolText =>
      match getTextBoxAt ex ey s with
      | Some clickedTextBox =>
          let relativeX := ex - TextBox.x clickedTextBox in
          with_textCursorPos (Z.min relativeX (getTextLength clickedTextBox))
            (with_activeTextBoxId (Some (TextBox.id clickedTextBox)) s)
      | None =>
          let s1 := saveSnapshot s in
          let d := document s1 in
          let newBox :=
            TextBox.mk (nextTextBoxId d) ex ey [] (nextZIndex d)
                       (currentStrokeColor (style s1)) None in
          let d' :=
            mkSnapshot (push (textBoxes d) newBox) (rectangles d) (lines d)
              (nextTextBoxId d + 1) (nextRectId d) (nextLineId d)
              (nextZIndex d + 1) in
          with_textCursorPos 0
            (with_activeTextBoxId (Some (TextBox.id newBox)) (with_document d' s1))
      end
  | ToolRectangle => with_gesture (startDrawing true ex ey (gesture s)) s
  | ToolLine => with_gesture (startDrawing false ex ey (gesture s)) s
  | ToolMove => s
  end.

(** [handleMouse(event)] for [event.type === "down"], with
    [shiftHeld = event.modifiers?.shift ?? false]. *)
Definition handleMouseDown (ex ey : Z) (shiftHeld : bool) (s : CanvasApp) : CanvasApp :=
  if gridHeight s <=? ey then s
  else
    let '(handled, s1) := handleColorPickerClick ex ey s in
    if handled then s1
    else
      (* editing text: a click on the box being edited moves the caret *)
      let onActiveBox :=
        match activeTextBoxId s with
        | Some _ =>
            match find (isActiveBox s) (textBoxes (document s)) with
            | Some activeBox =>
                if isOnTextBox ex ey activeBox then Some activeBox else None
            | None => None
            end
        | None => None
        end in
      match onActiveBox with
      | Some activeBox =>
          let relativeX := ex - TextBox.x activeBox in
          with_textCursorPos (Z.min relativeX (getTextLength activeBox)) s
      | None =>
          let s2 :=
            match activeTextBoxId s with
            | Some _ => setTool ToolMove (commitActiveTextBox s)
            | None => s
            end in
          if isToolMove (currentTool (gesture s2))
          then handleMouseDownMove ex ey shiftHeld s2
          else handleMouseDownDraw ex ey s2
      end.

(** ** Drawing a line *)





(** ** Drawing a rectangle and a text run *)

(** The values of [v] in [for (let v = a; v <= b; v++)]. *)
Definition zrange (a b : Z) : list Z :=
  map (fun k => a + Z.of_nat k) (seq 0 (Z.to_nat (b - a + 1))).

(** [x < 0 || x >= this.gridWidth || y < 0 || y >= this.gridHeight]. *)
Definition offGrid (x y : Z) (s : CanvasApp) : bool :=
  (x <? 0) || (gridWidth s <=? x) || (y <? 0) || (gridHeight s <=? y).

(** The glyph that the border loop of [renderRectangle] chooses for the
    cell [(x, y)]; the empty string where it sets nothing. *)
Definition borderChar (n : Box) (x y : Z) : string :=
  if (y =? by1 n) && (x =? bx1 n) then "┌"
  else if (y =? by1 n) && (x =? bx2 n) then "┐"
  else if (y =? by2 n) && (x =? bx1 n) then "└"
  else if (y =? by2 n) && (x =? bx2 n) then "┘"
  else if (y =? by1 n) || (y =? by2 n) then "─"
  else if (x =? bx1 n) || (x =? bx2 n) then "│"
  else EmptyString.

(** [renderRectangle(buffer, rect, ...)]: the cells it sets with
    [buffer.setCell], in the order of the calls, each with its character:
    first the fill, then the border.  The colours and the attributes are
    left out. *)
Definition renderRectangleFill (rect : Rectangle.t) (s : CanvasApp)
  : list (Z * Z * string) :=
  let n := normalizeRect rect in
  match Rectangle.fillColor rect with
  | None => []
  | Some _ =>
      let hasStroke := match Rectangle.strokeColor rect with Some _ => true | None => false end in
      let fillX1 := if hasStroke then bx1 n + 1 else bx1 n in
      let fillY1 := if hasStroke then by1 n + 1 else by1 n in
      let fillX2 := if hasStroke then bx2 n - 1 else bx2 n in
      let fillY2 := if hasStroke then by2 n - 1 else by2 n in
      flat_map (fun y =>
                  flat_map (fun x => if offGrid x y s then [] else [(x, y, " "%string)])
                           (zrange fillX1 fillX2))
               (zrange fillY1 fillY2)
  end.

Definition renderRectangleBorder (rect : Rectangle.t) (s : CanvasApp)
  : list (Z * Z * string) :=
  let n := normalizeRect rect in
  match Rectangle.strokeColor rect with
  | None => []
  | Some _ =>
      flat_map (fun y =>
                  flat_map (fun x =>
                              if offGrid x y s then []
                              else
                                let char := borderChar n x y in
                                if String.eqb char EmptyString then []
                                else [(x, y, char)])
                           (zrange (bx1 n) (bx2 n)))
               (zrange (by1 n) (by2 n))
  end.

Definition renderRectangle (rect : Rectangle.t) (s : CanvasApp) : list (Z * Z * string) :=
  renderRectangleFill rect s ++ renderRectangleBorder rect s.

(** [renderTextBox(buffer, box, isHovered, isSelected)]: the cells it sets,
    each with its character. *)
Definition renderTextBox (box : TextBox.t) (isHovered isSelected : bool) (s : CanvasApp)
  : list (Z * Z * string) :=
  let boxWidth := Z.max 1 (Z.of_nat (length (TextBox.chars box))) in
  flat_map
    (fun i =>
       let x := TextBox.x box + i in
       if (0 <=? x) && (x <? gridWidth s) && (0 <=? TextBox.y box)
          && (TextBox.y box <? gridHeight s)
       then
         match nth_error (TextBox.chars box) (Z.to_nat i) with
         | Some charInfo => [(x, TextBox.y box, TextChar.char charInfo)]
         | None => if isHovered || isSelected then [(x, TextBox.y box, " "%string)]
                   else []
         end
       else [])
    (zrange 0 (boxWidth - 1)).


(** ** Resizing the terminal and the escape key *)

(** [handleResize(width, height)]. *)
Definition handleResize (width height : Z) (s : CanvasApp) : CanvasApp :=
  mkApp width height (document s) (selection s) (hover s)
        (activeTextBoxId s) (textCursorPos s) (gesture s) (style s)
        (historyStack s) (redoStack s) (currentFilePath s).

(** The two branches of the key handler for [escape]: while a text run is
    edited, commit it and switch to the move tool; otherwise give up the
    rectangle or the line that is being drawn. *)
Definition handleEscapeKey (s : CanvasApp) : CanvasApp :=
  match activeTextBoxId s with
  | Some _ => setTool ToolMove (commitActiveTextBox s)
  | None =>
      if isDrawingRect (gesture s)
      then with_gesture (set_isDrawingRect false (gesture s)) s
      else if isDrawingLine (gesture s)
           then with_gesture (set_isDrawingLine false (gesture s)) s
           else s
  end.


(* ================================================================== *)
(** * Part II: the vocabulary of the properties *)
(* ================================================================== *)

(** ** History *)

(** A gesture as the history manager sees it: [saveSnapshot()] first, then
    some mutation, which leaves the document as [d]. *)
Definition snapshotThen (d : HistorySnapshot) (s : CanvasApp) : CanvasApp :=
  with_document d (saveSnapshot s).

Definition snapshotRun (ds : list HistorySnapshot) (s : CanvasApp) : CanvasApp :=
  fold_left (fun s d => snapshotThen d s) ds s.

(** The two stacks together hold at most [MAX_HISTORY] snapshots. *)
Definition historyWithinBound (s : CanvasApp) : Prop :=
  (length (historyStack s) + length (redoStack s) <= MAX_HISTORY)%nat.

(** ** Channel ranges *)

Definition inByteRange (v : Z) : bool := (0 <=? v) && (v <=? 255).

(** A serialized colour field is in range when it is [null] or all four
    of its channels are in [0,255]. *)
Definition serializedColorInRange (c : option SerializedColor.t) : bool :=
  match c with
  | None => true
  | Some c => inByteRange (SerializedColor.r c) && inByteRange (SerializedColor.g c)
              && inByteRange (SerializedColor.b c) && inByteRange (SerializedColor.a c)
  end.

Definition colorInRange (c : EntityColor) : bool :=
  match c with
  | None => true
  | Some c => inByteRange (RGBA.r c) && inByteRange (RGBA.g c)
              && inByteRange (RGBA.b c) && inByteRange (RGBA.a c)
  end.

(** Every colour field of every entity of a file. *)
Definition fileColors (f : TigmaFile.t) : list (option SerializedColor.t) :=
  flat_map (fun b => SerializedTextBox.strokeColor b :: SerializedTextBox.fillColor b
                     :: map SerializedTextChar.color (SerializedTextBox.chars b))
           (TigmaFile.textBoxes f)
  ++ flat_map (fun r => [SerializedRectangle.strokeColor r; SerializedRectangle.fillColor r])
              (TigmaFile.rectangles f)
  ++ flat_map (fun l => [SerializedLine.strokeColor l; SerializedLine.fillColor l])
              (TigmaFile.lines f).

(** Every colour field of every entity of a document, in the same order. *)
Definition documentColors (d : HistorySnapshot) : list EntityColor :=
  flat_map (fun b => TextBox.strokeColor b :: TextBox.fillColor b
                     :: map TextChar.color (TextBox.chars b))
           (textBoxes d)
  ++ flat_map (fun r => [Rectangle.strokeColor r; Rectangle.fillColor r]) (rectangles d)
  ++ flat_map (fun l => [Line.strokeColor l; Line.fillColor l]) (lines d).

(** ** Canvas bounds *)

(** A bounding box lies on a canvas of [w] by [h] cells. *)
Definition boxInCanvas (w h : Z) (bb : Box) : bool :=
  (0 <=? bx1 bb) && (bx2 bb <=? w - 1) && (0 <=? by1 bb) && (by2 bb <=? h - 1).

Definition rectInCanvas (w h : Z) (rect : Rectangle.t) : bool :=
  boxInCanvas w h (normalizeRect rect).

(** ** Line rasterization *)


(** The cells of a straight run of [n] steps of [(ux, uy)] from [(x, y)]:
    [n + 1] cells. *)
Fixpoint walk (n : nat) (ux uy x y : Z) : list (Z * Z) :=
  (x, y) :: match n with
            | O => []
            | S n' => walk n' ux uy (x + ux) (y + uy)
            end.


(** ** Exchanging two z-indices *)

(** The transposition of [a] and [b]. *)
Definition swapZ (a b z : Z) : Z :=
  if z =? a then b else if z =? b then a else z.

(** A collection in which the z-indices [a] and [b] are exchanged: every
    entity keeps its place and all its other fields. *)
Definition exchange {T : Type} (getZ : T -> Z) (setZ : Z -> T -> T)
    (a b : Z) (l : list T) : list T :=
  map (fun e => setZ (swapZ a b (getZ e)) e) l.

(** [d'] is [d] with the z-indices [a] and [b] exchanged in the three
    collections; the counters are those of [d]. *)
Definition exchanged (a b : Z) (d d' : HistorySnapshot) : Prop :=
  textBoxes d' = exchange TextBox.zIndex setTextBoxZ a b (textBoxes d)
  /\ rectangles d' = exchange Rectangle.zIndex setRectZ a b (rectangles d)
  /\ lines d' = exchange Line.zIndex setLineZ a b (lines d)
  /\ nextTextBoxId d' = nextTextBoxId d /\ nextRectId d' = nextRectId d
  /\ nextLineId d' = nextLineId d /\ nextZIndex d' = nextZIndex d.

(** The number of positions at which two lists of z-indices differ. *)
Definition differingPositions (l l' : list Z) : nat :=
  length (filter (fun p => negb (fst p =? snd p)) (combine l l')).

(** [b] is the next z-index above [a] among [zs]. *)
Definition neighbourAbove (zs : list Z) (a b : Z) : Prop :=
  In b zs /\ a < b /\ forall z, In z zs -> z <= a \/ b <= z.

(** [b] is the next z-index below [a] among [zs]. *)
Definition neighbourBelow (zs : list Z) (a b : Z) : Prop :=
  In b zs /\ b < a /\ forall z, In z zs -> z <= b \/ a <= z.

(** ** Sample states *)

(** The document of a fresh application: no entity, every counter at 1. *)
Definition emptyDocument : HistorySnapshot := mkSnapshot [] [] [] 1 1 1 1.

Definition initialGesture : Gesture :=
  mkGesture ToolMove false false false false false false false None
            0 0 0 0 0 0 0 0 false false.

Definition initialStyle : Style :=
  mkStyle false (Some (RGBA.fromInts 255 255 255 255)) None.

(** The field initializers of [class CanvasApp], for a canvas of [w] by [h]
    cells. *)
Definition initialApp (w h : Z) : CanvasApp :=
  mkApp w h emptyDocument (mkSelection [] [] []) (mkHover None None None)
        None 0 initialGesture initialStyle [] [] None.

Definition white : EntityColor := Some (RGBA.fromInts 255 255 255 255).

(** A document with a transparent and an opaque colour, an empty and a
    non-empty text run, and a line whose endpoints coincide. *)
Definition mixedDocument : HistorySnapshot :=
  mkSnapshot
    [TextBox.mk 1 2 2 [] 1 white None;
     TextBox.mk 2 5 7 [TextChar.mk "h" true white; TextChar.mk "i" false None]
                3 None (Some (RGBA.fromInts 80 30 30 255))]
    [Rectangle.mk 1 9 4 3 8 true 2 white (Some (RGBA.fromInts 30 30 80 255))]
    [Line.mk 1 6 6 6 6 false 4 None None]
    3 2 2 5.

(** One rectangle, drawn from (1,1) to (4,3) on an 80 by 24 canvas. *)
Definition oneRectDocument : HistorySnapshot :=
  mkSnapshot [] [Rectangle.mk 1 1 1 4 3 false 1 white None] [] 1 2 1 2.

(** The state after that rectangle was drawn and the gesture undone: the
    undo stack is empty and the redo stack holds the document with the
    rectangle. *)
Definition undoneApp : CanvasApp :=
  with_redoStack [oneRectDocument] (initialApp 80 24).

(** The state after that rectangle was drawn: one entry on the undo
    stack. *)
Definition drawnApp : CanvasApp :=
  with_historyStack [emptyDocument]
    (with_document oneRectDocument (initialApp 80 24)).

(** A version-1 file with one rectangle whose stroke colour has a red
    channel of 300. *)
Definition brightFile : ParsedFile.t :=
  ParsedFile.conforming
    (TigmaFile.mk (VNumber 1) []
       [SerializedRectangle.mk 1 1 1 4 3 false 1
          (Some (SerializedColor.mk 300 0 0 255)) None]
       [] 1 2 1 2).

(** The application after [loadFile] read that file. *)
Definition brightApp : CanvasApp :=
  snd (loadFile "bright.tigma" (Some brightFile) (initialApp 80 24)).

(** A file of version 2 with the same content. *)
Definition futureFile : ParsedFile.t :=
  ParsedFile.conforming
    (TigmaFile.mk (VNumber 2) []
       [SerializedRectangle.mk 1 1 1 4 3 false 1 None None] [] 1 2 1 2).

(** A file of version 1 that holds one text run and no key [rectangles]. *)
Definition tornFile : ParsedFile.t :=
  ParsedFile.mk (VNumber 1)
    (Some [Some (SerializedTextBox.mk 7 2 2 [] 9 None None)])
    None (Some []) 8 1 1 10.

(** ** What a file describes *)

(** A colour of the document is the colour of the file: both transparent,
    or the same four channels. *)
Definition sameColor (c : option SerializedColor.t) (e : EntityColor) : Prop :=
  match c, e with
  | None, None => True
  | Some c, Some e =>
      RGBA.r e = SerializedColor.r c /\ RGBA.g e = SerializedColor.g c
      /\ RGBA.b e = SerializedColor.b c /\ RGBA.a e = SerializedColor.a c
  | _, _ => False
  end.

Definition sameChar (c : SerializedTextChar.t) (e : TextChar.t) : Prop :=
  TextChar.char e = SerializedTextChar.char c
  /\ TextChar.bold e = SerializedTextChar.bold c
  /\ sameColor (SerializedTextChar.color c) (TextChar.color e).

Definition sameTextBox (b : SerializedTextBox.t) (e : TextBox.t) : Prop :=
  TextBox.id e = SerializedTextBox.id b
  /\ TextBox.x e = SerializedTextBox.x b /\ TextBox.y e = SerializedTextBox.y b
  /\ Forall2 sameChar (SerializedTextBox.chars b) (TextBox.chars e)
  /\ TextBox.zIndex e = SerializedTextBox.zIndex b
  /\ sameColor (SerializedTextBox.strokeColor b) (TextBox.strokeColor e)
  /\ sameColor (SerializedTextBox.fillColor b) (TextBox.fillColor e).

Definition sameRectangle (r : SerializedRectangle.t) (e : Rectangle.t) : Prop :=
  Rectangle.id e = SerializedRectangle.id r
  /\ Rectangle.x1 e = SerializedRectangle.x1 r
  /\ Rectangle.y1 e = SerializedRectangle.y1 r
  /\ Rectangle.x2 e = SerializedRectangle.x2 r
  /\ Rectangle.y2 e = SerializedRectangle.y2 r
  /\ Rectangle.bold e = SerializedRectangle.bold r
  /\ Rectangle.zIndex e = SerializedRectangle.zIndex r
  /\ sameColor (SerializedRectangle.strokeColor r) (Rectangle.strokeColor e)
  /\ sameColor (SerializedRectangle.fillColor r) (Rectangle.fillColor e).

Definition sameLine (l : SerializedLine.t) (e : Line.t) : Prop :=
  Line.id e = SerializedLine.id l
  /\ Line.x1 e = SerializedLine.x1 l /\ Line.y1 e = SerializedLine.y1 l
  /\ Line.x2 e = SerializedLine.x2 l /\ Line.y2 e = SerializedLine.y2 l
  /\ Line.bold e = SerializedLine.bold l
  /\ Line.zIndex e = SerializedLine.zIndex l
  /\ sameColor (SerializedLine.strokeColor l) (Line.strokeColor e)
  /\ sameColor (SerializedLine.fillColor l) (Line.fillColor e).

(** The document [d] is the record [data], field by field: the same
    entities in the same order, and the same four counters. *)
Definition describes (data : TigmaFile.t) (d : HistorySnapshot) : Prop :=
  Forall2 sameTextBox (TigmaFile.textBoxes data) (textBoxes d)
  /\ Forall2 sameRectangle (TigmaFile.rectangles data) (rectangles d)
  /\ Forall2 sameLine (TigmaFile.lines data) (lines d)
  /\ nextTextBoxId d = TigmaFile.nextTextBoxId data
  /\ nextRectId d = TigmaFile.nextRectId data
  /\ nextLineId d = TigmaFile.nextLineId data
  /\ nextZIndex d = TigmaFile.nextZIndex data.

(** The 80 by 24 canvas with one rectangle from (0,0) to (3,2), just after
    a pointer-down of the move tool on its top border at (2,0): the
    rectangle is selected and a drag of the selection has begun. *)
Definition cornerRect : Rectangle.t := Rectangle.mk 1 0 0 3 2 false 1 white None.

Definition cornerDocument : HistorySnapshot := mkSnapshot [] [cornerRect] [] 1 2 1 2.

Definition draggingApp : CanvasApp :=
  mkApp 80 24 cornerDocument (mkSelection [] [1] []) (mkHover None None None)
        None 0
        (mkGesture ToolMove false false false false true true false None
                   0 0 0 0 2 0 2 0 false false)
        initialStyle [cornerDocument] [] None.

(** The rectangle tool in the middle of a draw gesture anchored at
    [(ax, ay)], with the pointer released at [(cx, cy)]. *)
Definition drawingApp (ax ay cx cy : Z) : CanvasApp :=
  with_gesture
    (mkGesture ToolRectangle true false false false true false false None
               ax ay cx cy 0 0 0 0 false false)
    (initialApp 80 24).

(** The rectangle of [oneRectDocument] selected, with its north-west handle
    grabbed. *)
Definition resizingApp : CanvasApp :=
  mkApp 80 24 oneRectDocument (mkSelection [] [1] []) (mkHover None None None)
        None 0
        (mkGesture ToolMove false false false false true false true (Some H_nw)
                   0 0 0 0 0 0 1 1 false false)
        initialStyle [oneRectDocument] [] None.

(** A text run (z 1), a rectangle (z 2) and a line (z 5), with the rectangle
    selected. *)
Definition layeredDocument : HistorySnapshot :=
  mkSnapshot
    [TextBox.mk 1 2 2 [TextChar.mk "a" false white] 1 white None]
    [Rectangle.mk 1 1 1 4 3 false 2 white None]
    [Line.mk 1 0 5 6 5 false 5 white None]
    2 2 2 6.

Definition layeredApp : CanvasApp :=
  with_selection (mkSelection [] [1] [])
    (with_document layeredDocument (initialApp 80 24)).

(** ** Hit testing *)

(** A cell lies in a box, and on its outline. *)
Definition inBox (bb : Box) (x y : Z) : Prop :=
  bx1 bb <= x <= bx2 bb /\ by1 bb <= y <= by2 bb.

Definition onOutline (bb : Box) (x y : Z) : Prop :=
  inBox bb x y /\ (x = bx1 bb \/ x = bx2 bb \/ y = by1 bb \/ y = by2 bb).

(** [o] is a hit of greatest z-index among the hits of [l]. *)
Definition isTopmost {A : Type} (hit : A -> bool) (zIndex : A -> Z)
    (l : list A) (o : A) : Prop :=
  In o l /\ hit o = true
  /\ forall o', In o' l -> hit o' = true -> zIndex o' <= zIndex o.



(** ** Text editing *)

(** [box] is the text run being edited. *)
Definition editing (s : CanvasApp) (box : TextBox.t) : Prop :=
  find (isActiveBox s) (textBoxes (document s)) = Some box.

(** The caret is at a position of the run being edited, its end
    included. *)
Definition caretInRange (s : CanvasApp) (box : TextBox.t) : Prop :=
  0 <= textCursorPos s <= getTextLength box.

(** The keys that reach the last branch of [handleTextInput] and insert
    their character. *)
Definition typesCharacter (key : KeyEvent.t) : bool :=
  negb (existsb (String.eqb (KeyEvent.name key))
                ["left"; "right"; "home"; "end"; "backspace"; "delete"]%string)
  && isPrintable (KeyEvent.sequence key)
  && negb (KeyEvent.ctrl key) && negb (KeyEvent.meta key).

Definition letterKey (c : string) : KeyEvent.t := KeyEvent.mk c c false false.

Definition namedKey (name : string) : KeyEvent.t :=
  KeyEvent.mk name EmptyString false false.

(** A text run "ab" beside a rectangle, being edited with the caret after
    the "a". *)
Definition editingApp : CanvasApp :=
  with_textCursorPos 1
    (with_activeTextBoxId (Some 1)
       (with_document
          (mkSnapshot
             [TextBox.mk 1 2 2 [TextChar.mk "a" false white; TextChar.mk "b" false white]
                         1 white None]
             [Rectangle.mk 1 1 1 4 3 false 2 white None]
             [] 2 2 1 3)
          (initialApp 80 24))).


(** ** Edits and undo steps *)

(** The operations that change the document on behalf of a key or of the
    end of a drawing gesture. *)
Inductive Edit :=
| EditKey (key : KeyEvent.t)
| EditDelete
| EditCommitRectangle
| EditCommitLine
| EditLayerUp
| EditLayerDown
| EditStroke
| EditFill.

Definition runEdit (e : Edit) (s : CanvasApp) : CanvasApp :=
  match e with
  | EditKey key => handleTextInput key s
  | EditDelete => handleDeleteKey s
  | EditCommitRectangle => commitRectangle s
  | EditCommitLine => commitLine s
  | EditLayerUp => moveLayerUp s
  | EditLayerDown => moveLayerDown s
  | EditStroke => applyStrokeColorToSelection s
  | EditFill => applyFillColorToSelection s
  end.

(** Between [s] and [s'] no snapshot was taken. *)
Definition sameHistory (s s' : CanvasApp) : Prop :=
  historyStack s' = historyStack s /\ redoStack s' = redoStack s.

(** Between [s] and [s'] [saveSnapshot] ran once, on the document of [s]. *)
Definition oneSnapshot (s s' : CanvasApp) : Prop :=
  historyStack s' = historyStack (saveSnapshot s) /\ redoStack s' = [].


(** ** Mouse gestures *)

(** No gesture is under way and no text run is being edited. *)
Definition idle (s : CanvasApp) : Prop :=
  activeTextBoxId s = None
  /\ isDrawingRect (gesture s) = false /\ isDrawingLine (gesture s) = false
  /\ isSelecting (gesture s) = false /\ isSelectionPending (gesture s) = false
  /\ isDraggingSelection (gesture s) = false /\ isResizingRect (gesture s) = false.

(** A press at [(x,y)], the drags through [path], and the release at
    [(ux,uy)]. *)
Definition mouseGesture (x y : Z) (shiftHeld : bool) (path : list (Z * Z))
    (ux uy : Z) (s : CanvasApp) : CanvasApp :=
  handleMouseUp ux uy
    (fold_left (fun s p => handleMouseDrag (fst p) (snd p) s) path
       (handleMouseDown x y shiftHeld s)).

(** The two courses a gesture that began in [s] can be on in [t]: the
    press took a snapshot and nothing is being drawn; or no snapshot was
    taken, the document is untouched and nothing is being moved. *)
Definition grabbed (s t : CanvasApp) : Prop :=
  oneSnapshot s t
  /\ isDrawingRect (gesture t) = false /\ isDrawingLine (gesture t) = false
  /\ isSelecting (gesture t) = false /\ isSelectionPending (gesture t) = false.

Definition tracking (s t : CanvasApp) : Prop :=
  sameHistory s t /\ document t = document s
  /\ isDraggingSelection (gesture t) = false /\ isResizingRect (gesture t) = false
  /\ (activeTextBoxId t = None
      \/ (isDrawingRect (gesture t) = false /\ isDrawingLine (gesture t) = false)).


(** ** Numbering *)

(** The ids of each kind are pairwise distinct and below the counter of
    the kind; the z-indices of all the entities are pairwise distinct and
    below [nextZIndex]. *)
Definition wellNumbered (d : HistorySnapshot) : Prop :=
  NoDup (map TextBox.id (textBoxes d))
  /\ NoDup (map Rectangle.id (rectangles d))
  /\ NoDup (map Line.id (lines d))
  /\ NoDup (zIndicesOf d)
  /\ Forall (fun i => i < nextTextBoxId d) (map TextBox.id (textBoxes d))
  /\ Forall (fun i => i < nextRectId d) (map Rectangle.id (rectangles d))
  /\ Forall (fun i => i < nextLineId d) (map Line.id (lines d))
  /\ Forall (fun z => z < nextZIndex d) (zIndicesOf d).

(** The document and every snapshot on the two stacks are well
    numbered. *)
Definition wellNumberedApp (s : CanvasApp) : Prop :=
  wellNumbered (document s)
  /\ Forall wellNumbered (historyStack s)
  /\ Forall wellNumbered (redoStack s).

(** What the user can do, short of loading a file. *)
Inductive Command :=
| CmdEdit (e : Edit)
| CmdMouseDown (x y : Z) (shiftHeld : bool)
| CmdMouseDrag (x y : Z)
| CmdMouseUp (x y : Z)
| CmdMouseMove (x y : Z)
| CmdResize (width height : Z)
| CmdEscape
| CmdTool (tool : Tool)
| CmdUndo
| CmdRedo.

Definition runCommand (c : Command) (s : CanvasApp) : CanvasApp :=
  match c with
  | CmdEdit e => runEdit e s
  | CmdMouseDown x y shiftHeld => handleMouseDown x y shiftHeld s
  | CmdMouseDrag x y => handleMouseDrag x y s
  | CmdMouseUp x y => handleMouseUp x y s
  | CmdMouseMove x y => handleMouseMove x y s
  | CmdResize width height => handleResize width height s
  | CmdEscape => handleEscapeKey s
  | CmdTool tool => setTool tool s
  | CmdUndo => undo s
  | CmdRedo => redo s
  end.

Definition runCommands (cs : list Command) (s : CanvasApp) : CanvasApp :=
  fold_left (fun s c => runCommand c s) cs s.


(** A text run on the upper-left corner of a rectangle that is above it
    in the layer order; nothing is selected. *)
Definition overlapApp : CanvasApp :=
  with_document
    (mkSnapshot
       [TextBox.mk 1 1 1 [TextChar.mk "a" false white] 1 white None]
       [Rectangle.mk 1 1 1 4 3 false 2 white None]
       [] 2 2 1 3)
    (initialApp 80 24).


(** ** The marquee *)

(** Two boxes have a cell in common. *)
Definition shareCell (b1 b2 : Box) : Prop :=
  exists x y, inBox b1 x y /\ inBox b2 x y.

(** The box spanned by the anchor and the cursor of the gesture. *)
Definition marquee (gs : Gesture) : Box :=
  mkBox (Z.min (drawStartX gs) (drawCursorX gs)) (Z.min (drawStartY gs) (drawCursorY gs))
        (Z.max (drawStartX gs) (drawCursorX gs)) (Z.max (drawStartY gs) (drawCursorY gs)).

(** The cells of a text run: its row, over its effective width. *)
Definition textBoxExtent (box : TextBox.t) : Box :=
  mkBox (TextBox.x box) (TextBox.y box)
        (TextBox.x box + Z.max 1 (getTextLength box) - 1) (TextBox.y box).

(** The state in which a marquee from (0,0) to (2,2) is about to be
    committed over [layeredDocument], with nothing selected. *)
Definition marqueeApp : CanvasApp :=
  with_gesture
    (mkGesture ToolMove false false true false true false false None
               0 0 2 2 0 0 0 0 true false)
    (with_document layeredDocument (initialApp 80 24)).


(** ** Drawing *)




(** ** Exact arithmetic *)

(** An integer that a double holds, and up to which every integer is a
    double: its absolute value is at most 2^53. *)
Definition exactInteger (z : Z) : Prop := Z.abs z <= 2 ^ 53.

(** A line on which [getLinePoints] computes without rounding: its
    endpoints are exact integers and three times its extent, along either
    axis, is at most 2^53.  Every line between two cells of a canvas is
    one. *)
Definition exactLine (x1 y1 x2 y2 : Z) : Prop :=
  exactInteger x1 /\ exactInteger y1 /\ exactInteger x2 /\ exactInteger y2
  /\ 3 * Z.abs (x2 - x1) <= 2 ^ 53 /\ 3 * Z.abs (y2 - y1) <= 2 ^ 53.

(** The loop of [getLinePoints] does not reach its [break], however many
    iterations it is given. *)
Definition neverReturns (x1 y1 x2 y2 : Z) : Prop :=
  forall fuel, getLinePointsFuel fuel x1 y1 x2 y2 = None.

(** ** Translations *)

(** The translation of an entity by (dx, dy) in exact arithmetic. *)
Definition translateTextBox (dx dy : Z) (box : TextBox.t) : TextBox.t :=
  TextBox.mk (TextBox.id box) (TextBox.x box + dx) (TextBox.y box + dy)
    (TextBox.chars box) (TextBox.zIndex box)
    (TextBox.strokeColor box) (TextBox.fillColor box).

Definition translateRect (dx dy : Z) (rect : Rectangle.t) : Rectangle.t :=
  Rectangle.mk (Rectangle.id rect)
    (Rectangle.x1 rect + dx) (Rectangle.y1 rect + dy)
    (Rectangle.x2 rect + dx) (Rectangle.y2 rect + dy)
    (Rectangle.bold rect) (Rectangle.zIndex rect)
    (Rectangle.strokeColor rect) (Rectangle.fillColor rect).

(** Every coordinate of every entity of [d] is at most [m] in absolute
    value. *)
Definition coordinatesWithin (m : Z) (d : HistorySnapshot) : Prop :=
  (forall box, In box (textBoxes d) ->
     Z.abs (TextBox.x box) <= m /\ Z.abs (TextBox.y box) <= m)
  /\ (forall rect, In rect (rectangles d) ->
        Z.abs (Rectangle.x1 rect) <= m /\ Z.abs (Rectangle.y1 rect) <= m
        /\ Z.abs (Rectangle.x2 rect) <= m /\ Z.abs (Rectangle.y2 rect) <= m)
  /\ (forall line, In line (lines d) ->
        Z.abs (Line.x1 line) <= m /\ Z.abs (Line.y1 line) <= m
        /\ Z.abs (Line.x2 line) <= m /\ Z.abs (Line.y2 line) <= m).

(** No selection holds an id twice: the three selections are [Set]s. *)
Definition selectionIsSet (s : CanvasApp) : Prop :=
  NoDup (selectedTextBoxIds (selection s))
  /\ NoDup (selectedRectIds (selection s))
  /\ NoDup (selectedLineIds (selection s)).

(** A rectangle that ends two columns from 2^53, selected: the state in
    which a drag of the selection by one column to the right and back is
    followed below. *)
Definition farRect : Rectangle.t :=
  Rectangle.mk 1 (2 ^ 53 - 1) 0 (2 ^ 53) 2 false 1 white None.

Definition farApp : CanvasApp :=
  with_selection (mkSelection [] [1] [])
    (with_document (mkSnapshot [] [farRect] [] 1 2 1 2) (initialApp 80 24)).

(** ** Resize handles *)

(** The coordinates that [resizeRect] writes for a handle: [x1] for the
    three handles of the west side, [x2] for those of the east side, [y1]
    for those of the north side and [y2] for those of the south side. *)
Definition writesX1 (handle : ResizeHandle) : bool :=
  match handle with H_nw | H_w | H_sw => true | _ => false end.

Definition writesX2 (handle : ResizeHandle) : bool :=
  match handle with H_ne | H_e | H_se => true | _ => false end.

Definition writesY1 (handle : ResizeHandle) : bool :=
  match handle with H_nw | H_n | H_ne => true | _ => false end.

Definition writesY2 (handle : ResizeHandle) : bool :=
  match handle with H_sw | H_s | H_se => true | _ => false end.

(** ** Empty text runs *)

(** [d'] is the document of [s] without its active text run, which holds
    no character. *)
Definition droppedEmptyRun (s : CanvasApp) (d' : HistorySnapshot) : Prop :=
  exists active box,
    activeTextBoxId s = Some active
    /\ find (fun b => TextBox.id b =? active) (textBoxes (document s)) = Some box
    /\ TextBox.chars box = []
    /\ d' = with_textBoxes
              (filter (fun b => negb (TextBox.id b =? active)) (textBoxes (document s)))
              (document s).

(* ================================================================== *)
(** * Part III: properties *)
(* ================================================================== *)

(** ** Numbers *)

(** No sum and no difference rounds as long as its exact value is at most
    2^53 in absolute value. *)
Lemma round_exact z : exactInteger z -> Float64.round z = z.
Proof.
  unfold exactInteger, Float64.round. intros H.
  destruct (Z.leb_spec (Z.abs z) (2 ^ 53)) as [_|Hgt]; [reflexivity|].
  exfalso. apply (Z.lt_irrefl (Z.abs z)). now apply Z.le_lt_trans with (2 ^ 53).
Qed.

Lemma add_exact a b : exactInteger (a + b) -> Float64.add a b = a + b.
Proof. apply round_exact. Qed.



(** From 2^53 on a sum may round: 2^53 + 1 is no double, and the sum is
    2^53; 2^53 + 3 lies halfway between two doubles, and the sum is the
    one with the even quotient, 2^53 + 4. *)
Lemma add_rounds :
  Float64.add (2 ^ 53) 1 = 2 ^ 53
  /\ Float64.add (2 ^ 53 + 2) 1 = 2 ^ 53 + 4
  /\ Float64.sub (2 ^ 53 + 4) 1 = 2 ^ 53 + 4
  /\ Float64.sub (2 ^ 53) 1 = 2 ^ 53 - 1.
Proof. repeat split. Qed.

(** ** Arrays *)

Lemma pop_push {A : Type} (l : list A) (x : A) : pop (push l x) = Some (l, x).
Proof.
  unfold push. induction l as [|h t IH]; simpl.
  - reflexivity.
  - now rewrite IH.
Qed.

Lemma pop_nonempty {A : Type} (l : list A) :
  l <> [] -> exists front top, l = push front top /\ pop l = Some (front, top).
Proof.
  intros Hne. destruct (exists_last Hne) as [front [top ->]].
  exists front, top. split; [reflexivity|]. apply pop_push.
Qed.

Lemma map_fixpoint {A : Type} (f : A -> A) (l : list A) :
  (forall x, f x = x) -> map f l = l.
Proof.
  intros Hf. induction l as [|h t IH]; simpl; [reflexivity|].
  now rewrite Hf, IH.
Qed.

Lemma map_fixpoint_in {A : Type} (f : A -> A) (l : list A) :
  (forall x, In x l -> f x = x) -> map f l = l.
Proof.
  intros Hf. induction l as [|h t IH]; simpl; [reflexivity|].
  rewrite Hf, IH; auto using in_eq, in_cons.
Qed.

Lemma updateFound_none {A : Type} (p : A -> bool) (f : A -> A) (l : list A) :
  (forall o, In o l -> p o = false) -> updateFound p f l = l.
Proof.
  intros Hp. induction l as [|h t IH]; simpl; [reflexivity|].
  rewrite (Hp h (in_eq h t)). f_equal. apply IH.
  intros o Ho. apply Hp. now right.
Qed.

(** ** History *)

Lemma cloneTextBoxes_eq boxes : cloneTextBoxes boxes = boxes.
Proof.
  apply map_fixpoint. intros [i x0 y0 cs z sc fc]; simpl.
  f_equal. apply map_fixpoint. now intros [].
Qed.

Lemma cloneRectangles_eq rects : cloneRectangles rects = rects.
Proof. apply map_fixpoint. now intros []. Qed.

Lemma cloneLines_eq ls : cloneLines ls = ls.
Proof. apply map_fixpoint. now intros []. Qed.

(** The snapshot taken of a state is a copy of its document. *)
Lemma currentSnapshot_eq s : currentSnapshot s = document s.
Proof.
  unfold currentSnapshot.
  rewrite cloneTextBoxes_eq, cloneRectangles_eq, cloneLines_eq.
  now destruct (document s).
Qed.

Lemma length_zero_iff {A : Type} (l : list A) : (length l =? 0)%nat = true <-> l = [].
Proof.
  destruct l; simpl; split; intros H; try reflexivity; discriminate.
Qed.

Lemma undo_empty s : historyStack s = [] -> undo s = s.
Proof. intros H. unfold undo. now rewrite H. Qed.

Lemma redo_empty s : redoStack s = [] -> redo s = s.
Proof. intros H. unfold redo. now rewrite H. Qed.

(** What [undo] does on a non-empty undo stack. *)
Lemma undo_nonempty s front top :
  historyStack s = push front top ->
  undo s = install top (with_historyStack front
                          (with_redoStack (push (redoStack s) (document s)) s)).
Proof.
  intros H. unfold undo.
  destruct (length (historyStack s) =? 0)%nat eqn:E.
  - apply length_zero_iff in E. rewrite E in H. unfold push in H.
    now destruct front.
  - rewrite currentSnapshot_eq. cbn [historyStack with_redoStack].
    now rewrite H, pop_push.
Qed.

Lemma redo_nonempty s front top :
  redoStack s = push front top ->
  redo s = install top (with_redoStack front
                          (with_historyStack (push (historyStack s) (document s)) s)).
Proof.
  intros H. unfold redo.
  destruct (length (redoStack s) =? 0)%nat eqn:E.
  - apply length_zero_iff in E. rewrite E in H. unfold push in H.
    now destruct front.
  - rewrite currentSnapshot_eq. cbn [redoStack with_historyStack].
    now rewrite H, pop_push.
Qed.

(** C1, as stated, fails at history depth 0 when the redo stack is not
    empty: [undo()] returns at once and [redo()] then installs the top of the
    redo stack, so the document after the pair is not the one before it. *)
Lemma undo_redo_at_depth_zero :
  (length (historyStack undoneApp) <= 100)%nat
  /\ undo undoneApp = undoneApp
  /\ document undoneApp = emptyDocument
  /\ document (redo (undo undoneApp)) = oneRectDocument
  /\ document (redo (undo undoneApp)) <> document undoneApp.
Proof.
  repeat split; try reflexivity.
  - simpl. lia.
  - discriminate.
Qed.

(** C1 (amended): when the undo stack is not empty (any depth from 1 on, so
    in particular up to 100) or the redo stack is empty, [undo()] followed at
    once by [redo()] restores the three collections and the four counters,
    and both stacks as well; [undo()] leaves the state alone when the undo
    stack is empty, and [redo()] when the redo stack is empty. *)
Theorem undo_then_redo s :
  (historyStack s <> [] \/ redoStack s = [] ->
     document (redo (undo s)) = document s
     /\ historyStack (redo (undo s)) = historyStack s
     /\ redoStack (redo (undo s)) = redoStack s)
  /\ (historyStack s = [] -> undo s = s)
  /\ (redoStack s = [] -> redo s = s).
Proof.
  split; [|split; [apply undo_empty | apply redo_empty]].
  intros H.
  destruct (historyStack s) as [|h0 hs] eqn:Hh.
  - destruct H as [H|H]; [now elim H|].
    rewrite (undo_empty s Hh), (redo_empty s H). now rewrite Hh.
  - destruct (pop_nonempty (h0 :: hs)) as [front [top [Hft _]]]; [discriminate|].
    rewrite <- Hh in Hft.
    rewrite (undo_nonempty s front top Hft).
    erewrite redo_nonempty by reflexivity.
    cbn. rewrite <- Hh, Hft. auto.
Qed.

Lemma undo_then_redo_witness :
  document (redo (undo drawnApp)) = document drawnApp
  /\ historyStack (redo (undo drawnApp)) = historyStack drawnApp
  /\ redoStack (redo (undo drawnApp)) = redoStack drawnApp.
Proof.
  apply (undo_then_redo drawnApp). left. simpl. discriminate.
Defined.

(** ** The bound on the undo stack *)

Lemma saveSnapshot_redoStack s : redoStack (saveSnapshot s) = [].
Proof. reflexivity. Qed.

Lemma saveSnapshot_document s : document (saveSnapshot s) = document s.
Proof. reflexivity. Qed.

(** Below the cap the snapshot is appended; at the cap the oldest entry
    goes. *)
Lemma saveSnapshot_historyStack s :
  historyStack (saveSnapshot s) =
    if (length (historyStack s) <? MAX_HISTORY)%nat
    then historyStack s ++ [document s]
    else tl (historyStack s ++ [document s]).
Proof.
  unfold saveSnapshot, push, shift. cbn [historyStack with_redoStack with_historyStack].
  rewrite currentSnapshot_eq, length_app. simpl length.
  destruct (Nat.ltb_spec (length (historyStack s)) MAX_HISTORY);
    destruct (Nat.ltb_spec MAX_HISTORY (length (historyStack s) + 1)); try lia;
    reflexivity.
Qed.

Lemma saveSnapshot_length s :
  (length (historyStack s) <= MAX_HISTORY)%nat ->
  length (historyStack (saveSnapshot s))
  = Nat.min MAX_HISTORY (S (length (historyStack s))).
Proof.
  intros Hle. rewrite saveSnapshot_historyStack.
  destruct (Nat.ltb_spec (length (historyStack s)) MAX_HISTORY) as [Hlt|Hge];
    unfold MAX_HISTORY in *.
  - rewrite length_app. cbn [length]. lia.
  - destruct (historyStack s) as [|h t] eqn:Hh; cbn [length app tl] in *.
    + lia.
    + rewrite length_app. cbn [length]. lia.
Qed.

Lemma snapshotRun_length ds : forall s,
  (length (historyStack s) <= MAX_HISTORY)%nat ->
  length (historyStack (snapshotRun ds s))
  = Nat.min MAX_HISTORY (length (historyStack s) + length ds).
Proof.
  induction ds as [|d ds IH]; intros s Hle; cbn [snapshotRun fold_left length].
  - unfold MAX_HISTORY in *. lia.
  - assert (Hstep : length (historyStack (snapshotThen d s))
                    = Nat.min MAX_HISTORY (S (length (historyStack s))))
      by (apply saveSnapshot_length; assumption).
    unfold snapshotRun in IH. rewrite IH; rewrite Hstep; unfold MAX_HISTORY in *; lia.
Qed.

Lemma snapshotRun_redoStack ds : forall s,
  ds <> [] -> redoStack (snapshotRun ds s) = [].
Proof.
  induction ds as [|d ds IH]; intros s Hne; [now elim Hne|].
  destruct ds as [|d' ds'].
  - reflexivity.
  - simpl in *. apply IH. discriminate.
Qed.

(** C3: along every sequence of snapshots (each followed by an arbitrary
    change of the document) that starts with at most 100 entries on the undo
    stack, the stack never holds more than 100 entries; a snapshot pushed on
    a stack of 100 discards the oldest entry and appends the new one; and
    every snapshot leaves the redo stack empty. *)
Theorem snapshot_history_bounded (ds : list HistorySnapshot) (s : CanvasApp) :
  (length (historyStack s) <= 100)%nat ->
  (length (historyStack (snapshotRun ds s)) <= 100)%nat
  /\ length (historyStack (snapshotRun ds s))
     = Nat.min 100 (length (historyStack s) + length ds)
  /\ (ds <> [] -> redoStack (snapshotRun ds s) = [])
  /\ redoStack (saveSnapshot s) = []
  /\ (forall oldest rest,
        historyStack s = oldest :: rest -> length (historyStack s) = 100%nat ->
        historyStack (saveSnapshot s) = rest ++ [document s])
  /\ ((length (historyStack s) < 100)%nat ->
        historyStack (saveSnapshot s) = historyStack s ++ [document s]).
Proof.
  intros Hle. pose proof (snapshotRun_length ds s Hle) as Hlen.
  change MAX_HISTORY with 100%nat in Hlen.
  split; [lia|]. split; [exact Hlen|].
  split; [apply snapshotRun_redoStack|].
  split; [reflexivity|]. split.
  - intros oldest rest Hh H100. rewrite saveSnapshot_historyStack.
    rewrite H100. change (100 <? MAX_HISTORY)%nat with false.
    now rewrite Hh.
  - intros Hlt. rewrite saveSnapshot_historyStack.
    destruct (Nat.ltb_spec (length (historyStack s)) MAX_HISTORY) as [_|Hge];
      [reflexivity|]. unfold MAX_HISTORY in Hge. lia.
Qed.

(** A run of 101 gestures from the initial state: the stack holds 100
    entries and the redo stack is empty. *)
Lemma snapshot_history_bounded_witness :
  (length (historyStack (snapshotRun (repeat oneRectDocument 101) (initialApp 80 24)))
   <= 100)%nat
  /\ length (historyStack (snapshotRun (repeat oneRectDocument 101) (initialApp 80 24)))
     = Nat.min 100 (0 + 101)
  /\ redoStack (snapshotRun (repeat oneRectDocument 101) (initialApp 80 24)) = [].
Proof.
  destruct (snapshot_history_bounded (repeat oneRectDocument 101) (initialApp 80 24))
    as [H1 [H2 [H3 _]]].
  - simpl. lia.
  - split; [exact H1|]. split.
    + rewrite H2. rewrite repeat_length. reflexivity.
    + apply H3. discriminate.
Defined.

(** ** The bound on the undo stack, across all history operations *)

(** [redo] pushes without looking at [MAX_HISTORY], but it only gives back
    what [undo] took: the two stacks together never hold more than 100
    snapshots, from the initial state on. *)
Lemma historyWithinBound_preserved s :
  historyWithinBound (initialApp (gridWidth s) (gridHeight s))
  /\ (historyWithinBound s ->
      historyWithinBound (saveSnapshot s)
      /\ historyWithinBound (undo s)
      /\ historyWithinBound (redo s)
      /\ forall data, historyWithinBound (loadFromFileData data s)).
Proof.
  unfold historyWithinBound, MAX_HISTORY. split; [simpl; lia|].
  intros Hs. repeat split.
  - pose proof (saveSnapshot_length s) as Hlen. unfold MAX_HISTORY in Hlen.
    rewrite saveSnapshot_redoStack, Hlen by lia. simpl length. lia.
  - destruct (historyStack s) as [|h0 hs] eqn:Hh.
    + rewrite (undo_empty s Hh), Hh. exact Hs.
    + destruct (pop_nonempty (h0 :: hs)) as [front [top [Hft _]]]; [discriminate|].
      rewrite <- Hh in Hft. rewrite (undo_nonempty s front top Hft). cbn.
      rewrite Hh in Hft. rewrite Hft in Hs. unfold push in *.
      rewrite !length_app in *. simpl length in *. lia.
  - destruct (redoStack s) as [|r0 rs] eqn:Hr.
    + rewrite (redo_empty s Hr), Hr. exact Hs.
    + destruct (pop_nonempty (r0 :: rs)) as [front [top [Hft _]]]; [discriminate|].
      rewrite <- Hr in Hft. rewrite (redo_nonempty s front top Hft). cbn.
      rewrite Hr in Hft. rewrite Hft in Hs. unfold push in *.
      rewrite !length_app in *. simpl length in *. lia.
  - intros data. simpl. lia.
Qed.

(** ** The codec *)

Lemma deserializeColor_serializeColor c : deserializeColor (serializeColor c) = c.
Proof. destruct c as [[]|]; reflexivity. Qed.

Lemma deserializeTextBox_serializeTextBox box :
  deserializeTextBox (serializeTextBox box) = box.
Proof.
  destruct box as [i x0 y0 cs z sc fc]. unfold deserializeTextBox, serializeTextBox.
  simpl. rewrite !deserializeColor_serializeColor, map_map.
  f_equal. apply map_fixpoint. intros [ch bo co]; simpl.
  now rewrite deserializeColor_serializeColor.
Qed.

Lemma deserializeRectangle_serializeRectangle rect :
  deserializeRectangle (serializeRectangle rect) = rect.
Proof.
  destruct rect. unfold deserializeRectangle, serializeRectangle; simpl.
  now rewrite !deserializeColor_serializeColor.
Qed.

Lemma deserializeLine_serializeLine line :
  deserializeLine (serializeLine line) = line.
Proof.
  destruct line. unfold deserializeLine, serializeLine; simpl.
  now rewrite !deserializeColor_serializeColor.
Qed.

(** C2: loading the serialized form of a document, into any state of the
    application, yields a document equal to the original: the same text
    runs, rectangles and lines, field by field, and the same four
    counters. *)
Theorem loadFromFileData_toFileData (s s' : CanvasApp) :
  document (loadFromFileData (toFileData s) s') = document s.
Proof.
  unfold loadFromFileData, toFileData. cbn.
  rewrite !map_map.
  rewrite (map_fixpoint _ _ deserializeTextBox_serializeTextBox).
  rewrite (map_fixpoint _ _ deserializeRectangle_serializeRectangle).
  rewrite (map_fixpoint _ _ deserializeLine_serializeLine).
  now destruct (document s).
Qed.

(** The round trip on [mixedDocument], by evaluation. *)
Example roundtrip_mixedDocument :
  document (loadFromFileData
              (toFileData (with_document mixedDocument (initialApp 80 24)))
              (initialApp 80 24))
  = mixedDocument.
Proof. reflexivity. Qed.

(** ** Loading *)

Lemma versionIsOne_spec v : versionIsOne v = true <-> v = VNumber 1.
Proof.
  destruct v as [n| |]; simpl; split; intros H; try discriminate.
  - apply Z.eqb_eq in H. now subst.
  - injection H as ->. reflexivity.
Qed.

Lemma serializeColor_deserializeColor c : serializeColor (deserializeColor c) = c.
Proof. destruct c as [[]|]; reflexivity. Qed.

Lemma serializeTextBox_deserializeTextBox box :
  serializeTextBox (deserializeTextBox box) = box.
Proof.
  destruct box as [i x0 y0 cs z sc fc]. unfold deserializeTextBox, serializeTextBox.
  simpl. rewrite !serializeColor_deserializeColor, map_map.
  f_equal. apply map_fixpoint. intros [ch bo co]; simpl.
  now rewrite serializeColor_deserializeColor.
Qed.

Lemma serializeRectangle_deserializeRectangle rect :
  serializeRectangle (deserializeRectangle rect) = rect.
Proof.
  destruct rect. unfold deserializeRectangle, serializeRectangle; simpl.
  now rewrite !serializeColor_deserializeColor.
Qed.

Lemma serializeLine_deserializeLine line :
  serializeLine (deserializeLine line) = line.
Proof.
  destruct line. unfold deserializeLine, serializeLine; simpl.
  now rewrite !serializeColor_deserializeColor.
Qed.

(** Saving what was loaded from a version-1 record gives the record
    back. *)
Lemma toFileData_loadFromFileData data s :
  TigmaFile.version data = VNumber 1 ->
  toFileData (loadFromFileData data s) = data.
Proof.
  intros Hv. destruct data as [v bs rs ls n1 n2 n3 n4]. simpl in Hv. subst v.
  unfold toFileData, loadFromFileData. cbn. rewrite !map_map.
  rewrite (map_fixpoint _ _ serializeTextBox_deserializeTextBox).
  rewrite (map_fixpoint _ _ serializeRectangle_deserializeRectangle).
  rewrite (map_fixpoint _ _ serializeLine_deserializeLine).
  reflexivity.
Qed.

Lemma Forall2_map_right {A B : Type} (R : A -> B -> Prop) (f : A -> B) (l : list A) :
  (forall a, R a (f a)) -> Forall2 R l (map f l).
Proof. intros H. induction l; simpl; constructor; auto. Qed.

Lemma sameColor_deserializeColor c : sameColor c (deserializeColor c).
Proof. destruct c as [[]|]; simpl; auto. Qed.

(** The document that a record describes. *)
Lemma loadFromFileData_describes data s :
  describes data (document (loadFromFileData data s)).
Proof.
  unfold describes, loadFromFileData. cbn.
  split; [|split; [|split; [|repeat split]]]; apply Forall2_map_right.
  - intros box. unfold sameTextBox, deserializeTextBox. cbn.
    repeat split; try apply sameColor_deserializeColor.
    apply Forall2_map_right. intros c. unfold sameChar. cbn.
    repeat split. apply sameColor_deserializeColor.
  - intros rect. unfold sameRectangle, deserializeRectangle. cbn.
    repeat split; apply sameColor_deserializeColor.
  - intros line. unfold sameLine, deserializeLine. cbn.
    repeat split; apply sameColor_deserializeColor.
Qed.

(** [.map] returns exactly when no deserializer throws. *)
Lemma mapElements_Some {A B : Type} (f : A -> B) elements result :
  ParsedFile.mapElements f elements = Some result ->
  exists l, elements = map Some l /\ result = map f l.
Proof.
  revert result. induction elements as [|[e|] rest IH]; simpl; intros result H.
  - injection H as <-. now exists [].
  - destruct (ParsedFile.mapElements f rest) as [rest'|]; [|discriminate].
    injection H as <-. destruct (IH _ eq_refl) as (l & -> & ->).
    now exists (e :: l).
  - discriminate.
Qed.

Lemma mapElements_conforming {A B : Type} (f : A -> B) l :
  ParsedFile.mapElements f (map Some l) = Some (map f l).
Proof. induction l as [|e l IH]; simpl; [reflexivity|]. now rewrite IH. Qed.

(** On a value that conforms to the interface the call returns, and does
    what [loadFromFileData] does on the typed value. *)
Lemma loadFromFileData_conforming data s :
  ParsedFile.loadFromFileData (ParsedFile.conforming data) s
  = ParsedFile.Normal (loadFromFileData data s).
Proof.
  unfold ParsedFile.loadFromFileData, ParsedFile.conforming, ParsedFile.mapOrThrow.
  cbn. now rewrite !mapElements_conforming.
Qed.

(** The call returns only on a value that conforms to the interface. *)
Lemma loadFromFileData_returns parsed s s' :
  ParsedFile.loadFromFileData parsed s = ParsedFile.Normal s' ->
  exists data, parsed = ParsedFile.conforming data.
Proof.
  unfold ParsedFile.loadFromFileData, ParsedFile.mapOrThrow.
  destruct parsed as [v [bs|] [rs|] [ls|] n1 n2 n3 n4]; cbn; try discriminate;
    try (destruct (ParsedFile.mapElements deserializeTextBox bs); discriminate).
  - destruct (ParsedFile.mapElements deserializeTextBox bs) as [bs'|] eqn:Eb;
      [|discriminate].
    destruct (ParsedFile.mapElements deserializeRectangle rs) as [rs'|] eqn:Er;
      [|discriminate].
    destruct (ParsedFile.mapElements deserializeLine ls) as [ls'|] eqn:El;
      [|discriminate].
    intros _.
    destruct (mapElements_Some _ _ _ Eb) as (lb & -> & _).
    destruct (mapElements_Some _ _ _ Er) as (lr & -> & _).
    destruct (mapElements_Some _ _ _ El) as (ll & -> & _).
    now exists (TigmaFile.mk v lb lr ll n1 n2 n3 n4).
  - destruct (ParsedFile.mapElements deserializeTextBox bs); [|discriminate].
    destruct (ParsedFile.mapElements deserializeRectangle rs); discriminate.
Qed.

(** The [catch] clause: a version-1 file without the key [rectangles]
    makes [loadFile] return [false] after the text runs of the document
    were replaced; the rectangles, the counters, the history and the file
    path are those of before the call. *)
Lemma loadFile_caught :
  fst (loadFile "torn.tigma" (Some tornFile) drawnApp) = false
  /\ textBoxes (document (snd (loadFile "torn.tigma" (Some tornFile) drawnApp)))
     = [TextBox.mk 7 2 2 [] 9 None None]
  /\ textBoxes (document drawnApp) = []
  /\ rectangles (document (snd (loadFile "torn.tigma" (Some tornFile) drawnApp)))
     = rectangles (document drawnApp)
  /\ nextZIndex (document (snd (loadFile "torn.tigma" (Some tornFile) drawnApp)))
     = nextZIndex (document drawnApp)
  /\ historyStack (snd (loadFile "torn.tigma" (Some tornFile) drawnApp))
     = historyStack drawnApp.
Proof. repeat split. Qed.

(** C7: a parsed file whose version tag is not the number 1 makes
    [loadFile] return [false] and leave the whole state as it was.
    Whenever [loadFile] returns [true], the parsed value is a version-1
    record that conforms to the interface, the document is that record,
    field by field (entities and the four counters), so that saving it
    gives the record back, both history stacks are empty and the file path
    is the one loaded.  Every version-1 record that conforms to the
    interface is loaded with success. *)
Theorem loadFile_version (path : string) (parsed : option ParsedFile.t) (s : CanvasApp) :
  (forall data, parsed = Some data -> ParsedFile.version data <> VNumber 1 ->
     loadFile path parsed s = (false, s))
  /\ (forall s', loadFile path parsed s = (true, s') ->
        exists data,
          parsed = Some (ParsedFile.conforming data)
          /\ TigmaFile.version data = VNumber 1
          /\ describes data (document s')
          /\ toFileData s' = data
          /\ historyStack s' = [] /\ redoStack s' = []
          /\ currentFilePath s' = Some path)
  /\ (forall data, TigmaFile.version data = VNumber 1 ->
        fst (loadFile path (Some (ParsedFile.conforming data)) s) = true).
Proof.
  split; [|split].
  - intros data -> Hv. unfold loadFile.
    destruct (versionIsOne (ParsedFile.version data)) eqn:E; [|reflexivity].
    apply versionIsOne_spec in E. contradiction.
  - intros s' Hload. unfold loadFile in Hload.
    destruct parsed as [raw|]; [|discriminate].
    destruct (versionIsOne (ParsedFile.version raw)) eqn:E; simpl in Hload;
      [|discriminate].
    destruct (ParsedFile.loadFromFileData raw s) as [t|t] eqn:Erun; [|discriminate].
    injection Hload as <-.
    destruct (loadFromFileData_returns raw s t Erun) as [data ->].
    rewrite loadFromFileData_conforming in Erun. injection Erun as <-.
    apply versionIsOne_spec in E. cbn in E.
    exists data. split; [reflexivity|]. split; [exact E|].
    split; [apply loadFromFileData_describes|].
    split; [apply (toFileData_loadFromFileData data s E)|].
    repeat split.
  - intros data Hv. unfold loadFile.
    rewrite loadFromFileData_conforming. cbn [ParsedFile.conforming ParsedFile.version].
    apply versionIsOne_spec in Hv. now rewrite Hv.
Qed.

Lemma loadFile_version_witness :
  loadFile "future.tigma" (Some futureFile) drawnApp = (false, drawnApp)
  /\ fst (loadFile "bright.tigma" (Some brightFile) drawnApp) = true.
Proof.
  split.
  - apply (loadFile_version "future.tigma" (Some futureFile) drawnApp) with futureFile.
    + reflexivity.
    + discriminate.
  - apply (loadFile_version "bright.tigma" (Some brightFile) drawnApp). reflexivity.
Defined.

(** ** Serialized colours *)

Lemma serializedColorInRange_serializeColor c :
  serializedColorInRange (serializeColor c) = colorInRange c.
Proof. destruct c as [[]|]; reflexivity. Qed.

Lemma flat_map_map_commute {A B C D : Type}
    (g : A -> B) (f : B -> list D) (k : A -> list C) (h : C -> D) (l : list A) :
  (forall x, f (g x) = map h (k x)) ->
  flat_map f (map g l) = map h (flat_map k l).
Proof.
  intros H. induction l as [|x l IH]; simpl; [reflexivity|].
  now rewrite map_app, H, IH.
Qed.

Lemma fileColors_toFileData s :
  fileColors (toFileData s) = map serializeColor (documentColors (document s)).
Proof.
  unfold fileColors, documentColors, toFileData.
  cbn [TigmaFile.textBoxes TigmaFile.rectangles TigmaFile.lines].
  rewrite !map_app. f_equal; [|f_equal]; apply flat_map_map_commute.
  - intros box. cbn. now rewrite !map_map.
  - reflexivity.
  - reflexivity.
Qed.

(** C9, as stated, fails for a document that was loaded from a file: the
    loader accepts any channel value, and the serializer writes it back
    unchanged. *)
Lemma serialized_channel_out_of_range :
  fst (loadFile "bright.tigma" (Some brightFile) (initialApp 80 24)) = true
  /\ TigmaFile.rectangles (toFileData brightApp)
     = [SerializedRectangle.mk 1 1 1 4 3 false 1
          (Some (SerializedColor.mk 300 0 0 255)) None]
  /\ In (Some (SerializedColor.mk 300 0 0 255)) (fileColors (toFileData brightApp))
  /\ serializedColorInRange (Some (SerializedColor.mk 300 0 0 255)) = false
  /\ ~ (0 <= 300 <= 255).
Proof.
  repeat split; try reflexivity.
  - left; reflexivity.
  - lia.
Qed.

(** C9 (amended): a transparent colour is serialized as [null] and any
    other colour as the record of its own four channels, unchanged; hence
    the colour fields of a serialized document are in [0,255] exactly when
    the colours of the document are.  Every colour of the two palettes, from
    which the editor takes the colours it assigns, is in that range. *)
Theorem serialized_channels (s : CanvasApp) :
  serializeColor None = None
  /\ (forall c, serializeColor (Some c)
                = Some (SerializedColor.mk (RGBA.r c) (RGBA.g c) (RGBA.b c) (RGBA.a c)))
  /\ (forallb serializedColorInRange (fileColors (toFileData s))
      = forallb colorInRange (documentColors (document s)))
  /\ (forall c, In c (STROKE_PALETTE ++ FILL_PALETTE) ->
        serializedColorInRange (serializeColor c) = true)
  /\ ((forall c, In c (documentColors (document s)) ->
         In c (STROKE_PALETTE ++ FILL_PALETTE)) ->
      forall c, In c (fileColors (toFileData s)) -> serializedColorInRange c = true).
Proof.
  assert (Hpal : forall c, In c (STROKE_PALETTE ++ FILL_PALETTE) ->
                           serializedColorInRange (serializeColor c) = true).
  { intros c Hin. simpl in Hin.
    repeat (destruct Hin as [<-|Hin]; [reflexivity|]). contradiction. }
  split; [reflexivity|]. split; [reflexivity|]. split; [|split].
  - rewrite fileColors_toFileData.
    induction (documentColors (document s)) as [|c cs IH]; simpl; [reflexivity|].
    now rewrite serializedColorInRange_serializeColor, IH.
  - exact Hpal.
  - intros Hdoc c Hin. rewrite fileColors_toFileData in Hin.
    apply in_map_iff in Hin. destruct Hin as [c0 [<- Hc0]].
    apply Hpal, Hdoc, Hc0.
Qed.

Lemma serialized_channels_witness :
  serializedColorInRange (Some (SerializedColor.mk 255 255 255 255)) = true.
Proof.
  apply (serialized_channels drawnApp).
  - intros c Hin. simpl in Hin.
    destruct Hin as [<-|[<-|[]]]; simpl; tauto.
  - left. reflexivity.
Defined.

(** ** Moving the selection *)

Lemma find_updateFound {A : Type} (p : A -> bool) (f : A -> A) (l : list A) (o : A) :
  find p l = Some o -> p (f o) = true -> find p (updateFound p f l) = Some (f o).
Proof.
  intros Hfind Hp. induction l as [|h t IH]; simpl in *; [discriminate|].
  destruct (p h) eqn:E.
  - injection Hfind as ->. simpl. now rewrite Hp.
  - simpl. rewrite E. now apply IH.
Qed.

(** The translation that [moveSelection] applies to a selected rectangle
    is the raw delta: nothing compares it with the grid size. *)
Lemma moveSelection_rect dx dy s id rect :
  selectedRectIds (selection s) = [id] ->
  find (fun r => Rectangle.id r =? id) (rectangles (document s)) = Some rect ->
  find (fun r => Rectangle.id r =? id)
       (rectangles (document (moveSelection dx dy s)))
  = Some (shiftRect dx dy rect).
Proof.
  intros Hsel Hfind. unfold moveSelection. cbn. rewrite Hsel. cbn.
  apply find_updateFound; [assumption|].
  apply find_some in Hfind. apply Hfind.
Qed.

(** C4, at the failing input: dragging the selected rectangle from (2,0) to
    (0,0) stores it at x1 = -2, outside the canvas on which it lay. *)
Lemma drag_moves_rectangle_off_canvas :
  rectInCanvas 80 24 cornerRect = true
  /\ rectangles (document (handleMouseDrag 0 0 draggingApp))
     = [Rectangle.mk 1 (-2) 0 1 2 false 1 white None]
  /\ rectInCanvas 80 24 (Rectangle.mk 1 (-2) 0 1 2 false 1 white None) = false.
Proof. repeat split. Qed.

(** The single-entity move [moveRect] does clamp: a rectangle that fits on
    the canvas lies on it after the move, wherever it is sent. *)
Lemma moveRect_stays_on_canvas id newX newY s rect :
  find (fun r => Rectangle.id r =? id) (rectangles (document s)) = Some rect ->
  Z.abs (Rectangle.x2 rect - Rectangle.x1 rect) <= gridWidth s - 1 ->
  Z.abs (Rectangle.y2 rect - Rectangle.y1 rect) <= gridHeight s - 1 ->
  exists rect',
    find (fun r => Rectangle.id r =? id)
         (rectangles (document (moveRect id newX newY s))) = Some rect'
    /\ rectInCanvas (gridWidth s) (gridHeight s) rect' = true.
Proof.
  intros Hfind Hw Hh. unfold moveRect. rewrite Hfind. cbn.
  eexists. split.
  - apply find_updateFound; [exact Hfind|].
    apply find_some in Hfind. apply Hfind.
  - unfold rectInCanvas, boxInCanvas, normalizeRect. cbn.
    rewrite !andb_true_iff, !Z.leb_le. lia.
Qed.

(** ** Creating and resizing rectangles *)

Lemma commitActiveTextBox_rectangles s :
  rectangles (document (commitActiveTextBox s)) = rectangles (document s).
Proof. unfold commitActiveTextBox. now destruct (activeTextBoxId s). Qed.

Lemma setTool_rectangles tool s :
  rectangles (document (setTool tool s)) = rectangles (document s).
Proof.
  unfold setTool.
  assert (H : rectangles (document match activeTextBoxId s with
                                   | Some _ => commitActiveTextBox s
                                   | None => s
                                   end) = rectangles (document s)).
  { destruct (activeTextBoxId s); [apply commitActiveTextBox_rectangles|reflexivity]. }
  destruct tool; cbn; exact H.
Qed.

(** C8, as stated, fails at creation: a drag from the lower-right anchor
    (5,5) to the upper-left release point (2,2) stores the corners reordered,
    (2,2)-(5,5), and not in the order of the gesture. *)
Lemma created_rectangle_is_reordered :
  rectangles (document (commitRectangle (drawingApp 5 5 2 2)))
  = [Rectangle.mk 1 2 2 5 5 false 1 white None]
  /\ rectangles (document (commitRectangle (drawingApp 5 5 2 2)))
     <> [Rectangle.mk 1 5 5 2 2 false 1 white None].
Proof. split; [reflexivity|discriminate]. Qed.

(** C8 (amended): a rectangle created by a draw gesture of non-zero extent
    is appended with its corners reordered, x1 <= x2 and y1 <= y2, whatever
    the direction of the drag.  A resize, on the other hand, never reorders:
    for each of the eight handles it writes the clamped pointer column or
    row into the coordinates of the side or corner of the handle and leaves
    the other coordinates, and the rest of the rectangle, alone; so a
    pointer dragged beyond the opposite side stores the corners out of
    order (x1 > x2 or y1 > y2). *)
Theorem rectangle_corner_order (s : CanvasApp) :
  (isDrawingRect (gesture s) = true ->
   drawStartX (gesture s) <> drawCursorX (gesture s)
   \/ drawStartY (gesture s) <> drawCursorY (gesture s) ->
   exists rect,
     rectangles (document (commitRectangle s)) = rectangles (document s) ++ [rect]
     /\ Rectangle.x1 rect = Z.min (drawStartX (gesture s)) (drawCursorX (gesture s))
     /\ Rectangle.y1 rect = Z.min (drawStartY (gesture s)) (drawCursorY (gesture s))
     /\ Rectangle.x2 rect = Z.max (drawStartX (gesture s)) (drawCursorX (gesture s))
     /\ Rectangle.y2 rect = Z.max (drawStartY (gesture s)) (drawCursorY (gesture s))
     /\ Rectangle.x1 rect <= Rectangle.x2 rect
     /\ Rectangle.y1 rect <= Rectangle.y2 rect)
  /\ (forall id rect handle mouseX mouseY,
        find (fun r => Rectangle.id r =? id) (rectangles (document s)) = Some rect ->
        resizeHandle (gesture s) = Some handle ->
        exists rect',
          find (fun r => Rectangle.id r =? id)
               (rectangles (document (resizeRect id mouseX mouseY s))) = Some rect'
          /\ Rectangle.x1 rect'
             = (if writesX1 handle then clampX s mouseX else Rectangle.x1 rect)
          /\ Rectangle.y1 rect'
             = (if writesY1 handle then clampY s mouseY else Rectangle.y1 rect)
          /\ Rectangle.x2 rect'
             = (if writesX2 handle then clampX s mouseX else Rectangle.x2 rect)
          /\ Rectangle.y2 rect'
             = (if writesY2 handle then clampY s mouseY else Rectangle.y2 rect)
          /\ setCorners 0 0 0 0 rect' = setCorners 0 0 0 0 rect
          /\ (writesX1 handle = true -> Rectangle.x2 rect < clampX s mouseX ->
              Rectangle.x2 rect' < Rectangle.x1 rect')
          /\ (writesX2 handle = true -> clampX s mouseX < Rectangle.x1 rect ->
              Rectangle.x2 rect' < Rectangle.x1 rect')
          /\ (writesY1 handle = true -> Rectangle.y2 rect < clampY s mouseY ->
              Rectangle.y2 rect' < Rectangle.y1 rect')
          /\ (writesY2 handle = true -> clampY s mouseY < Rectangle.y1 rect ->
              Rectangle.y2 rect' < Rectangle.y1 rect')).
Proof.
  split.
  - intros Hdraw Hext. unfold commitRectangle. rewrite Hdraw. cbn [negb].
    set (ax := drawStartX (gesture s)) in *. set (cx := drawCursorX (gesture s)) in *.
    set (ay := drawStartY (gesture s)) in *. set (cy := drawCursorY (gesture s)) in *.
    assert (Hb : (Z.min ax cx <? Z.max ax cx) || (Z.min ay cy <? Z.max ay cy) = true).
    { apply orb_true_iff. rewrite !Z.ltb_lt. lia. }
    rewrite Hb. rewrite setTool_rectangles. cbn.
    eexists. split; [reflexivity|]. cbn. repeat split; lia.
  - intros id rect handle mouseX mouseY Hfind Hhandle.
    unfold resizeRect. rewrite Hfind, Hhandle. cbn.
    exists (resizeBy handle (clampX s mouseX) (clampY s mouseY) rect). split.
    + apply find_updateFound; [exact Hfind|].
      apply find_some in Hfind. destruct handle; apply Hfind.
    + destruct handle; cbn;
        (split; [reflexivity|]); (split; [reflexivity|]);
        (split; [reflexivity|]); (split; [reflexivity|]);
        (split; [reflexivity|]);
        (split; [intros; (discriminate || lia)|]);
        (split; [intros; (discriminate || lia)|]);
        (split; intros; (discriminate || lia)).
Qed.

Lemma rectangle_corner_order_witness :
  (exists rect,
     rectangles (document (commitRectangle (drawingApp 5 5 2 2))) = [] ++ [rect]
     /\ Rectangle.x1 rect = 2 /\ Rectangle.x2 rect = 5)
  /\ (exists rect',
        find (fun r => Rectangle.id r =? 1)
             (rectangles (document (resizeRect 1 9 1 resizingApp))) = Some rect'
        /\ Rectangle.x1 rect' = 9 /\ Rectangle.x2 rect' = 4).
Proof.
  split.
  - destruct (rectangle_corner_order (drawingApp 5 5 2 2)) as [H _].
    destruct H as [rect [Hr [H1 [_ [H2 _]]]]].
    + reflexivity.
    + left. cbn. lia.
    + exists rect. repeat split; assumption.
  - destruct (rectangle_corner_order resizingApp) as [_ H].
    destruct (H 1 (Rectangle.mk 1 1 1 4 3 false 1 white None) H_nw 9 1)
      as [rect' [Hf [H1 [_ [H2 _]]]]].
    + reflexivity.
    + reflexivity.
    + exists rect'. repeat split; assumption.
Defined.

(** ** Line rasterization *)

Section BresenhamLoop.
Variables dx dy sx sy x2 y2 : Z.
Hypothesis Hdx : 0 <= dx.
Hypothesis Hdy : 0 <= dy.
Hypothesis Hsx : sx = 1 \/ sx = -1.
Hypothesis Hsy : sy = 1 \/ sy = -1.









End BresenhamLoop.






(** *** The loop on doubles *)

Section ExactRun.
Variables dx dy sx sy x2 y2 : Z.
Hypothesis Hdx : 0 <= dx.
Hypothesis Hdy : 0 <= dy.
Hypothesis Hsx : sx = 1 \/ sx = -1.
Hypothesis Hsy : sy = 1 \/ sy = -1.
Hypothesis Hex : 3 * dx <= 2 ^ 53.
Hypothesis Hey : 3 * dy <= 2 ^ 53.
Hypothesis Hcx : forall t, 0 <= t <= dx -> exactInteger (x2 - sx * t).
Hypothesis Hcy : forall t, 0 <= t <= dy -> exactInteger (y2 - sy * t).

End ExactRun.




(** Every line between two cells of a canvas of at most 2^50 columns and
    rows is exact. *)
Lemma exactLine_on_canvas w h x1 y1 x2 y2 :
  w <= 2 ^ 50 -> h <= 2 ^ 50 ->
  0 <= x1 < w -> 0 <= x2 < w -> 0 <= y1 < h -> 0 <= y2 < h ->
  exactLine x1 y1 x2 y2.
Proof.
  intros Hw Hh Hx1 Hx2 Hy1 Hy2. unfold exactLine, exactInteger.
  change (2 ^ 53) with (8 * 2 ^ 50). lia.
Qed.

(** Beyond 2^53 the loop goes wrong.  From (2^53, 0) to (2^53 + 2, 0) the
    step [x += 1] leaves [x] at 2^53: no iteration changes the state, and
    the [break] is never reached. *)
Lemma linePointsLoop_stalls fuel :
  linePointsLoop fuel 2 0 1 (-1) (2 ^ 53 + 2) 0 (2 ^ 53) 0 2 = None.
Proof.
  induction fuel as [|fuel IH]; [reflexivity|].
  cbn [linePointsLoop].
  replace ((2 ^ 53 =? 2 ^ 53 + 2) && (0 =? 0)) with false by reflexivity.
  replace (Float64.mul 2 2) with 4 by reflexivity.
  replace (- 0 <? 4) with true by reflexivity.
  replace (4 <? 2) with false by reflexivity.
  cbv beta iota zeta.
  replace (Float64.sub 2 0) with 2 by reflexivity.
  replace (Float64.add (2 ^ 53) 1) with (2 ^ 53) by reflexivity.
  now rewrite IH.
Qed.

(** From (2^53 + 4, 0) back to (2^53 + 2, 0) the step [x -= 1] leaves [x]
    at 2^53 + 4 in the same way. *)
Lemma linePointsLoop_stalls_back fuel :
  linePointsLoop fuel 2 0 (-1) (-1) (2 ^ 53 + 2) 0 (2 ^ 53 + 4) 0 2 = None.
Proof.
  induction fuel as [|fuel IH]; [reflexivity|].
  cbn [linePointsLoop].
  replace ((2 ^ 53 + 4 =? 2 ^ 53 + 2) && (0 =? 0)) with false by reflexivity.
  replace (Float64.mul 2 2) with 4 by reflexivity.
  replace (- 0 <? 4) with true by reflexivity.
  replace (4 <? 2) with false by reflexivity.
  cbv beta iota zeta.
  replace (Float64.sub 2 0) with 2 by reflexivity.
  replace (Float64.add (2 ^ 53 + 4) (-1)) with (2 ^ 53 + 4) by reflexivity.
  now rewrite IH.
Qed.

(** What [getLinePoints] does on the three lines: it never returns on the
    first; on the second it returns two cells and leaves out the one in
    between; on the third, the second reversed, it never returns. *)
Lemma getLinePoints_beyond_2_53 :
  neverReturns (2 ^ 53) 0 (2 ^ 53 + 2) 0
  /\ getLinePointsFuel 2 (2 ^ 53 + 2) 0 (2 ^ 53 + 4) 0
     = Some [(2 ^ 53 + 2, 0); (2 ^ 53 + 4, 0)]
  /\ neverReturns (2 ^ 53 + 4) 0 (2 ^ 53 + 2) 0.
Proof.
  split; [|split].
  - intros fuel. exact (linePointsLoop_stalls fuel).
  - reflexivity.
  - intros fuel. exact (linePointsLoop_stalls_back fuel).
Qed.





(** *** Straight lines *)

Lemma walk_length n ux uy x y : length (walk n ux uy x y) = S n.
Proof.
  revert x y. induction n as [|n IH]; intros x y; simpl; [reflexivity|].
  now rewrite IH.
Qed.



Section StraightLoop.
Variables dx dy sx sy x2 y2 : Z.
Hypothesis Hdx : 0 <= dx.
Hypothesis Hdy : 0 <= dy.
Hypothesis Hsx : sx = 1 \/ sx = -1.
Hypothesis Hsy : sy = 1 \/ sy = -1.

End StraightLoop.







(** ** Layer reordering *)

(** *** Sorting *)

Lemma insertAscending_perm z l : Permutation (z :: l) (insertAscending z l).
Proof.
  induction l as [|h t IH]; simpl; [reflexivity|].
  destruct (z <=? h); [reflexivity|].
  rewrite perm_swap. now apply perm_skip.
Qed.

Lemma sortAscending_perm l : Permutation l (sortAscending l).
Proof.
  induction l as [|h t IH]; simpl; [constructor|].
  rewrite <- insertAscending_perm. now apply perm_skip.
Qed.

Lemma insertAscending_sorted z l :
  StronglySorted Z.le l -> StronglySorted Z.le (insertAscending z l).
Proof.
  induction 1 as [|h t Hs IH Hall]; simpl.
  - repeat constructor.
  - destruct (Z.leb_spec z h) as [Hle|Hgt].
    + constructor; [now constructor|].
      constructor; [exact Hle|].
      eapply Forall_impl; [|exact Hall]. intros; simpl in *; lia.
    + constructor; [exact IH|].
      apply (Permutation_Forall (insertAscending_perm z t)).
      constructor; [lia|exact Hall].
Qed.

Lemma sortAscending_sorted l : StronglySorted Z.le (sortAscending l).
Proof.
  induction l as [|h t IH]; simpl; [constructor|].
  now apply insertAscending_sorted.
Qed.

(** *** Searching *)

Lemma indexOfFrom_split a l : forall i,
  In a l ->
  exists before after,
    l = before ++ a :: after /\ ~ In a before
    /\ indexOfFrom i a l = i + Z.of_nat (length before).
Proof.
  induction l as [|h t IH]; intros i Hin; [contradiction|].
  simpl. destruct (Z.eqb_spec h a) as [->|Hne].
  - exists [], t. repeat split; [intros []|simpl; lia].
  - destruct Hin as [Hha|Hin]; [contradiction|].
    destruct (IH (i + 1) Hin) as (before & after & -> & Hnot & Hidx).
    exists (h :: before), after. repeat split.
    + intros [H|H]; [contradiction|now apply Hnot].
    + rewrite Hidx. simpl length. lia.
Qed.

Lemma at_middle before a after : at_ (before ++ a :: after) (Z.of_nat (length before)) = a.
Proof. unfold at_. rewrite Nat2Z.id. apply nth_middle. Qed.

(** A strictly sorted list around one of its members. *)
Lemma sorted_around before a after :
  StronglySorted Z.le (before ++ a :: after) -> NoDup (before ++ a :: after) ->
  (forall z, In z before -> z < a) /\ (forall z, In z after -> a < z).
Proof.
  intros Hs Hnd. split; intros z Hz.
  - assert (z <= a).
    { clear Hnd. induction before as [|h t IH]; [contradiction|].
      simpl in Hs. apply StronglySorted_inv in Hs. destruct Hs as [Hs Hall].
      destruct Hz as [->|Hz]; [|now apply IH].
      rewrite Forall_forall in Hall. apply Hall.
      apply in_or_app. right. left. reflexivity. }
    assert (z <> a); [|lia].
    intros ->. apply NoDup_remove_2 in Hnd. apply Hnd.
    apply in_or_app. now left.
  - assert (a <= z).
    { clear Hnd. induction before as [|h t IH].
      - simpl in Hs. apply StronglySorted_inv in Hs. destruct Hs as [_ Hall].
        rewrite Forall_forall in Hall. now apply Hall.
      - simpl in Hs. apply StronglySorted_inv in Hs. now apply IH. }
    assert (z <> a); [|lia].
    intros ->. apply NoDup_remove_2 in Hnd. apply Hnd.
    apply in_or_app. now right.
Qed.

(** *** The neighbour in ascending order *)

Lemma sorted_members zs z : In z (sortAscending zs) <-> In z zs.
Proof.
  split; apply Permutation_in;
    [symmetry|]; apply sortAscending_perm.
Qed.

Lemma neighbour_up zs a :
  NoDup zs -> In a zs ->
  let sorted := sortAscending zs in
  let currentIndex := indexOf a sorted in
  ((forall z, In z zs -> z <= a) -> Z.of_nat (length sorted) - 1 <= currentIndex)
  /\ ((exists z, In z zs /\ a < z) ->
      currentIndex < Z.of_nat (length sorted) - 1
      /\ neighbourAbove zs a (at_ sorted (currentIndex + 1))).
Proof.
  intros Hnd Hin sorted currentIndex.
  assert (Hnds : NoDup sorted)
    by (eapply Permutation_NoDup; [apply sortAscending_perm|exact Hnd]).
  assert (Hss : StronglySorted Z.le sorted) by apply sortAscending_sorted.
  assert (Hins : In a sorted) by (now apply sorted_members).
  destruct (indexOfFrom_split a sorted 0 Hins) as (before & after & Heq & _ & Hidx).
  fold (indexOf a sorted) in Hidx. fold currentIndex in Hidx.
  rewrite Heq in Hnds, Hss.
  destruct (sorted_around before a after Hss Hnds) as [Hlt Hgt].
  assert (Hmem : forall z, In z zs <-> In z before \/ z = a \/ In z after).
  { intros z. rewrite <- sorted_members. fold sorted. rewrite Heq, in_app_iff.
    simpl. intuition congruence. }
  destruct after as [|b rest].
  - split.
    + intros _. rewrite Heq, length_app. simpl length. lia.
    + intros [z [Hz Haz]]. apply Hmem in Hz.
      destruct Hz as [Hz|[Hz|[]]]; [apply Hlt in Hz|]; lia.
  - assert (Hab : a < b) by (apply Hgt; now left).
    split.
    + intros Htop. assert (b <= a); [|lia].
      apply Htop, Hmem. right. right. now left.
    + intros _. split.
      * rewrite Heq, length_app. simpl length. lia.
      * replace (currentIndex + 1) with (Z.of_nat (length (before ++ [a])))
          by (rewrite length_app; simpl length; lia).
        rewrite Heq.
        replace (before ++ a :: b :: rest) with ((before ++ [a]) ++ b :: rest)
          by (now rewrite <- app_assoc).
        rewrite at_middle.
        replace (before ++ a :: b :: rest) with ((before ++ [a]) ++ b :: rest)
          in Hss, Hnds by (now rewrite <- app_assoc).
        destruct (sorted_around _ b rest Hss Hnds) as [_ Hrest].
        split; [apply Hmem; right; right; now left|].
        split; [exact Hab|].
        intros z Hz. apply Hmem in Hz.
        destruct Hz as [Hz|[->|[->|Hz]]].
        -- left. apply Hlt in Hz. lia.
        -- left. lia.
        -- right. lia.
        -- right. apply Hrest in Hz. lia.
Qed.

Lemma neighbour_down zs a :
  NoDup zs -> In a zs ->
  let sorted := sortAscending zs in
  let currentIndex := indexOf a sorted in
  ((forall z, In z zs -> a <= z) -> currentIndex <= 0)
  /\ ((exists z, In z zs /\ z < a) ->
      0 < currentIndex /\ neighbourBelow zs a (at_ sorted (currentIndex - 1))).
Proof.
  intros Hnd Hin sorted currentIndex.
  assert (Hnds : NoDup sorted)
    by (eapply Permutation_NoDup; [apply sortAscending_perm|exact Hnd]).
  assert (Hss : StronglySorted Z.le sorted) by apply sortAscending_sorted.
  assert (Hins : In a sorted) by (now apply sorted_members).
  destruct (indexOfFrom_split a sorted 0 Hins) as (before & after & Heq & _ & Hidx).
  fold (indexOf a sorted) in Hidx. fold currentIndex in Hidx.
  rewrite Heq in Hnds, Hss.
  destruct (sorted_around before a after Hss Hnds) as [Hlt Hgt].
  assert (Hmem : forall z, In z zs <-> In z before \/ z = a \/ In z after).
  { intros z. rewrite <- sorted_members. fold sorted. rewrite Heq, in_app_iff.
    simpl. intuition congruence. }
  destruct before as [|h t].
  - split.
    + intros _. simpl in Hidx. lia.
    + intros [z [Hz Hza]]. apply Hmem in Hz.
      destruct Hz as [[]|[Hz|Hz]]; [|apply Hgt in Hz]; lia.
  - destruct (@exists_last _ (h :: t)) as (front & c & Hlast); [discriminate|].
    rewrite Hlast in *. clear h t Hlast.
    assert (Hca : c < a) by (apply Hlt, in_or_app; right; now left).
    split.
    + intros Hbot. assert (a <= c); [|lia].
      apply Hbot, Hmem. left. apply in_or_app. right. now left.
    + intros _. rewrite length_app in Hidx. simpl length in Hidx.
      split; [lia|].
      replace (currentIndex - 1) with (Z.of_nat (length front)) by lia.
      rewrite Heq.
      replace ((front ++ [c]) ++ a :: after) with (front ++ c :: a :: after)
        by (now rewrite <- app_assoc).
      rewrite at_middle.
      replace ((front ++ [c]) ++ a :: after) with (front ++ c :: a :: after)
        in Hss, Hnds by (now rewrite <- app_assoc).
      destruct (sorted_around front c _ Hss Hnds) as [Hfront _].
      split; [apply Hmem; left; apply in_or_app; right; now left|].
      split; [exact Hca|].
      intros z Hz. apply Hmem in Hz.
      destruct Hz as [Hz|[->|Hz]].
      * apply in_app_or in Hz. destruct Hz as [Hz|[->|[]]].
        -- left. apply Hfront in Hz. lia.
        -- left. lia.
      * right. lia.
      * right. apply Hgt in Hz. lia.
Qed.

(** *** The two updates of one collection *)

Lemma swapZ_left a b : swapZ a b a = b.
Proof. unfold swapZ. now rewrite Z.eqb_refl. Qed.

Lemma swapZ_right a b : swapZ a b b = a.
Proof.
  unfold swapZ. rewrite Z.eqb_refl.
  destruct (Z.eqb_spec b a); congruence.
Qed.

Lemma swapZ_other a b z : z <> a -> z <> b -> swapZ a b z = z.
Proof.
  intros Ha Hb. unfold swapZ.
  destruct (Z.eqb_spec z a); [contradiction|].
  destruct (Z.eqb_spec z b); [contradiction|reflexivity].
Qed.

Section Exchange.
(** A kind of entity, with its id, its z-index and the assignment to its
    z-index. *)
Variable T : Type.
Variables getId getZ : T -> Z.
Variable setZ : Z -> T -> T.
Hypothesis getZ_setZ : forall z e, getZ (setZ z e) = z.
Hypothesis getId_setZ : forall z e, getId (setZ z e) = getId e.
Hypothesis setZ_getZ : forall e, setZ (getZ e) e = e.

Lemma exchange_absent a b l :
  ~ In a (map getZ l) -> ~ In b (map getZ l) -> exchange getZ setZ a b l = l.
Proof using setZ_getZ.
  intros Ha Hb. unfold exchange. apply map_fixpoint_in.
  intros e He. rewrite swapZ_other; [apply setZ_getZ| |];
    intros <-; [apply Ha|apply Hb]; now apply in_map.
Qed.

(** The loop with [break] that hands the selected z-index [a] to the
    holder of [b], on a collection that does not hold [a]. *)
Lemma handOver_exchange a b l :
  NoDup (map getZ l) -> ~ In a (map getZ l) ->
  updateFound (fun e => getZ e =? b) (setZ a) l = exchange getZ setZ a b l.
Proof using setZ_getZ.
  induction l as [|x l IH]; intros Hnd Ha; [reflexivity|].
  simpl in *. apply NoDup_cons_iff in Hnd. destruct Hnd as [Hx Hnd].
  destruct (Z.eqb_spec (getZ x) b) as [Hxb|Hxb].
  - rewrite Hxb, swapZ_right. f_equal.
    symmetry. apply exchange_absent; [tauto|now rewrite <- Hxb].
  - rewrite swapZ_other by tauto. rewrite setZ_getZ. f_equal.
    apply IH; tauto.
Qed.

(** The same loop followed by the assignment of [b] to the selected
    entity, found by its id, on the collection that holds it. *)
Lemma handOver_take_exchange a b i e l :
  NoDup (map getZ l) -> a <> b ->
  find (fun o => getId o =? i) l = Some e -> getZ e = a ->
  updateFound (fun o => getId o =? i) (setZ b)
    (updateFound (fun o => getZ o =? b) (setZ a) l)
  = exchange getZ setZ a b l.
Proof using getId_setZ setZ_getZ.
  induction l as [|x l IH]; intros Hnd Hab Hfind Hza; [discriminate|].
  simpl in *. apply NoDup_cons_iff in Hnd. destruct Hnd as [Hx Hnd].
  destruct (Z.eqb_spec (getId x) i) as [Hxi|Hxi].
  - (* the selected entity comes first *)
    injection Hfind as ->.
    destruct (Z.eqb_spec (getZ e) b) as [Heb|_]; [congruence|].
    simpl. rewrite Hxi, Z.eqb_refl, Hza, swapZ_left. f_equal.
    rewrite <- Hza. apply handOver_exchange; [exact Hnd|exact Hx].
  - assert (Hin : In a (map getZ l)).
    { rewrite <- Hza. apply in_map. apply find_some in Hfind. apply Hfind. }
    assert (Hxa : getZ x <> a) by (intros Heq; apply Hx; now rewrite Heq).
    destruct (Z.eqb_spec (getZ x) b) as [Hxb|Hxb].
    + (* the holder of [b] comes first *)
      simpl. rewrite getId_setZ.
      destruct (Z.eqb_spec (getId x) i) as [|_]; [contradiction|].
      rewrite Hxb, swapZ_right. f_equal.
      rewrite <- (IH Hnd Hab Hfind Hza). f_equal.
      symmetry. apply updateFound_none.
      intros o Ho. apply Z.eqb_neq. intros Hob. apply Hx.
      rewrite Hxb, <- Hob. now apply in_map.
    + simpl. destruct (Z.eqb_spec (getId x) i) as [|_]; [contradiction|].
      rewrite swapZ_other by assumption. rewrite setZ_getZ. f_equal.
      now apply IH.
Qed.

(** The exchange does not move an entity nor change its id, so a search by
    id finds the same entity, with its new z-index. *)
Lemma find_exchange a b i l :
  find (fun o => getId o =? i) (exchange getZ setZ a b l)
  = option_map (fun e => setZ (swapZ a b (getZ e)) e)
               (find (fun o => getId o =? i) l).
Proof using getId_setZ.
  induction l as [|x l IH]; simpl; [reflexivity|].
  rewrite getId_setZ. destruct (getId x =? i); [reflexivity|exact IH].
Qed.

Lemma exchange_zIndices a b l :
  map getZ (exchange getZ setZ a b l) = map (swapZ a b) (map getZ l).
Proof using getZ_setZ.
  unfold exchange. rewrite !map_map. apply map_ext.
  intros e. apply getZ_setZ.
Qed.
End Exchange.

(** *** The multiset of z-indices *)

Lemma swapZ_involutive a b z : swapZ a b (swapZ a b z) = z.
Proof.
  unfold swapZ.
  destruct (Z.eqb_spec z a) as [->|Hza].
  - rewrite Z.eqb_refl. destruct (Z.eqb_spec b a); congruence.
  - destruct (Z.eqb_spec z b) as [->|Hzb].
    + now rewrite Z.eqb_refl.
    + destruct (Z.eqb_spec z a); [contradiction|].
      destruct (Z.eqb_spec z b); [contradiction|reflexivity].
Qed.

Lemma swapZ_members a b zs z :
  In a zs -> In b zs -> In z zs -> In (swapZ a b z) zs.
Proof.
  intros Ha Hb Hz. unfold swapZ.
  destruct (z =? a); [exact Hb|]. destruct (z =? b); assumption.
Qed.

Lemma NoDup_map_swapZ a b zs : NoDup zs -> NoDup (map (swapZ a b) zs).
Proof.
  induction 1 as [|x l Hx Hnd IH]; simpl; constructor; [|exact IH].
  intros Hin. apply in_map_iff in Hin. destruct Hin as [y [Hy Hyl]].
  apply (f_equal (swapZ a b)) in Hy. rewrite !swapZ_involutive in Hy.
  now subst.
Qed.

(** Exchanging two z-indices that both occur leaves the multiset alone. *)
Lemma swapZ_permutation a b zs :
  NoDup zs -> In a zs -> In b zs -> Permutation (map (swapZ a b) zs) zs.
Proof.
  intros Hnd Ha Hb.
  apply NoDup_Permutation; [now apply NoDup_map_swapZ|exact Hnd|].
  intros z. split.
  - intros Hin. apply in_map_iff in Hin. destruct Hin as [y [<- Hy]].
    now apply swapZ_members.
  - intros Hz. rewrite <- (swapZ_involutive a b z).
    apply in_map. now apply swapZ_members.
Qed.

Lemma differingPositions_map f l :
  differingPositions l (map f l) = length (filter (fun z => negb (z =? f z)) l).
Proof.
  unfold differingPositions.
  induction l as [|x l IH]; simpl; [reflexivity|].
  destruct (x =? f x); simpl; now rewrite IH.
Qed.

Lemma count_either a b l :
  a <> b ->
  length (filter (fun z => negb (z =? swapZ a b z)) l)
  = (count_occ Z.eq_dec l a + count_occ Z.eq_dec l b)%nat.
Proof.
  intros Hab. induction l as [|x l IH]; simpl; [reflexivity|].
  destruct (Z.eq_dec x a) as [->|Hxa].
  - rewrite swapZ_left. destruct (Z.eqb_spec a b); [contradiction|].
    destruct (Z.eq_dec a b); [contradiction|]. simpl. now rewrite IH.
  - destruct (Z.eq_dec x b) as [->|Hxb].
    + rewrite swapZ_right. destruct (Z.eqb_spec b a); [congruence|].
      simpl. rewrite IH. lia.
    + rewrite swapZ_other by assumption. rewrite Z.eqb_refl. simpl. exact IH.
Qed.

(** Exactly two positions change. *)
Lemma swapZ_two_positions a b zs :
  NoDup zs -> In a zs -> In b zs -> a <> b ->
  differingPositions zs (map (swapZ a b) zs) = 2%nat.
Proof.
  intros Hnd Ha Hb Hab.
  rewrite differingPositions_map, count_either by assumption.
  pose proof (proj1 (NoDup_count_occ' Z.eq_dec zs) Hnd) as Hone.
  now rewrite (Hone a Ha), (Hone b Hb).
Qed.

(** *** The selected object *)

Lemma NoDup_app_disjoint {A : Type} (l l' : list A) (x : A) :
  NoDup (l ++ l') -> In x l -> ~ In x l'.
Proof.
  induction l as [|h t IH]; intros Hnd Hin Hin'; [contradiction|].
  simpl in Hnd. apply NoDup_cons_iff in Hnd. destruct Hnd as [Hh Hnd].
  destruct Hin as [->|Hin].
  - apply Hh. apply in_or_app. now right.
  - now apply (IH Hnd Hin).
Qed.

Lemma find_by_id {A : Type} (getId : A -> Z) (i : Z) (l : list A) (o : A) :
  find (fun e => getId e =? i) l = Some o ->
  getId o = i /\ In o l /\ find (fun e => getId e =? getId o) l = Some o.
Proof.
  intros Hfind. pose proof (find_some _ _ Hfind) as [Hin Hid].
  apply Z.eqb_eq in Hid. rewrite Hid. auto.
Qed.

(** The object that [getSelectedObject] returns is the first entity of its
    kind with the selected id, and carries that entity's z-index. *)
Lemma getSelectedObject_found s selected :
  getSelectedObject s = Some selected ->
  let i := SelectedObject.id selected in
  let z := SelectedObject.zIndex selected in
  match SelectedObject.type selected with
  | TypeText =>
      exists box, find (fun e => TextBox.id e =? i) (textBoxes (document s)) = Some box
                  /\ TextBox.zIndex box = z
  | TypeRect =>
      exists rect, find (fun e => Rectangle.id e =? i) (rectangles (document s)) = Some rect
                   /\ Rectangle.zIndex rect = z
  | TypeLine =>
      exists line, find (fun e => Line.id e =? i) (lines (document s)) = Some line
                   /\ Line.zIndex line = z
  end.
Proof.
  unfold getSelectedObject. intros H.
  repeat match type of H with
         | match ?l with [] => _ | _ :: _ => _ end = _ =>
             destruct l as [|? [|? ?]]
         | match find ?p ?l with Some _ => _ | None => _ end = _ =>
             let E := fresh "E" in destruct (find p l) eqn:E
         | Some _ = Some _ => injection H as <-; cbn
         | None = Some _ => discriminate
         end;
    match goal with
    | E : find _ _ = Some ?o |- exists _, find _ ?l = Some _ /\ _ =>
        exists o; split; [apply (find_by_id _ _ _ _ E)|reflexivity]
    end.
Qed.

Lemma getSelectedObject_member s selected :
  getSelectedObject s = Some selected ->
  In (SelectedObject.zIndex selected) (zIndicesOf (document s)).
Proof.
  intros H. apply getSelectedObject_found in H. unfold zIndicesOf.
  destruct (SelectedObject.type selected); destruct H as [o [Hf <-]];
    apply find_some in Hf; destruct Hf as [Hin _];
    rewrite !in_app_iff; [left|right; left|right; right]; now apply in_map.
Qed.

Lemma zIndices_split (A B C : list Z) :
  NoDup (A ++ B ++ C) ->
  NoDup A /\ NoDup B /\ NoDup C
  /\ (forall z, In z A -> ~ In z B /\ ~ In z C)
  /\ (forall z, In z B -> ~ In z A /\ ~ In z C)
  /\ (forall z, In z C -> ~ In z A /\ ~ In z B).
Proof.
  intros Hnd.
  pose proof (NoDup_app_remove_r _ _ Hnd) as HA.
  pose proof (NoDup_app_remove_l _ _ Hnd) as HBC.
  pose proof (NoDup_app_remove_r _ _ HBC) as HB.
  pose proof (NoDup_app_remove_l _ _ HBC) as HC.
  pose proof (fun z => NoDup_app_disjoint A (B ++ C) z Hnd) as HdA.
  pose proof (fun z => NoDup_app_disjoint B C z HBC) as HdB.
  repeat split; try assumption; intros Hz';
    try (eapply HdA; [eassumption|apply in_or_app; eauto]; fail);
    try (eapply HdB; eassumption).
Qed.

Lemma exchanged_zIndices a b d d' :
  exchanged a b d d' -> zIndicesOf d' = map (swapZ a b) (zIndicesOf d).
Proof.
  intros (Ht & Hr & Hl & _). unfold zIndicesOf.
  rewrite Ht, Hr, Hl, !map_app.
  rewrite !exchange_zIndices; reflexivity.
Qed.

(** The effect of the swap on the document, for any other z-index [b]. *)
Lemma swapZIndex_exchanged s selected b :
  NoDup (zIndicesOf (document s)) ->
  getSelectedObject s = Some selected ->
  b <> SelectedObject.zIndex selected ->
  exchanged (SelectedObject.zIndex selected) b
            (document s) (document (swapZIndex selected b s)).
Proof.
  intros Hnd Hsel Hb.
  pose proof (getSelectedObject_found s selected Hsel) as Hfound. cbn zeta in Hfound.
  destruct (zIndices_split _ _ _ Hnd) as (HA & HB & HC & HdA & HdB & HdC).
  assert (Hne : SelectedObject.zIndex selected <> b) by congruence.
  unfold swapZIndex, exchanged.
  change (document (saveSnapshot s)) with (document s).
  destruct (SelectedObject.type selected);
    destruct Hfound as [o [Hfind Hz]];
    pose proof (find_some _ _ Hfind) as [Hin _];
    cbn [document with_document textBoxes rectangles lines
         nextTextBoxId nextRectId nextLineId nextZIndex].
  - assert (Hmem : In (SelectedObject.zIndex selected)
                      (map TextBox.zIndex (textBoxes (document s))))
      by (rewrite <- Hz; now apply in_map).
    repeat split.
    + apply handOver_take_exchange with (getZ := TextBox.zIndex) (e := o);
        auto; now intros [].
    + apply handOver_exchange with (getZ := Rectangle.zIndex);
        [now intros []|exact HB|apply (HdA _ Hmem)].
    + apply handOver_exchange with (getZ := Line.zIndex);
        [now intros []|exact HC|apply (HdA _ Hmem)].
  - assert (Hmem : In (SelectedObject.zIndex selected)
                      (map Rectangle.zIndex (rectangles (document s))))
      by (rewrite <- Hz; now apply in_map).
    repeat split.
    + apply handOver_exchange with (getZ := TextBox.zIndex);
        [now intros []|exact HA|apply (HdB _ Hmem)].
    + apply handOver_take_exchange with (getZ := Rectangle.zIndex) (e := o);
        auto; now intros [].
    + apply handOver_exchange with (getZ := Line.zIndex);
        [now intros []|exact HC|apply (HdB _ Hmem)].
  - assert (Hmem : In (SelectedObject.zIndex selected)
                      (map Line.zIndex (lines (document s))))
      by (rewrite <- Hz; now apply in_map).
    repeat split.
    + apply handOver_exchange with (getZ := TextBox.zIndex);
        [now intros []|exact HA|apply (HdC _ Hmem)].
    + apply handOver_exchange with (getZ := Rectangle.zIndex);
        [now intros []|exact HB|apply (HdC _ Hmem)].
    + apply handOver_take_exchange with (getZ := Line.zIndex) (e := o);
        auto; now intros [].
Qed.

(** After an exchange the selection designates the same entity, whose
    z-index went through the transposition. *)
Lemma getSelectedObject_exchanged a b s s' :
  selection s' = selection s ->
  exchanged a b (document s) (document s') ->
  getSelectedObject s'
  = option_map (fun o => SelectedObject.mk (SelectedObject.type o)
                           (swapZ a b (SelectedObject.zIndex o))
                           (SelectedObject.id o))
               (getSelectedObject s).
Proof.
  intros Hsel (Ht & Hr & Hl & _). unfold getSelectedObject.
  rewrite Hsel, Ht, Hr, Hl.
  destruct (selectedTextBoxIds (selection s)) as [|it [|? ?]];
    destruct (selectedRectIds (selection s)) as [|ir [|? ?]];
    destruct (selectedLineIds (selection s)) as [|il [|? ?]];
    rewrite ?(find_exchange _ TextBox.id TextBox.zIndex setTextBoxZ),
            ?(find_exchange _ Rectangle.id Rectangle.zIndex setRectZ),
            ?(find_exchange _ Line.id Line.zIndex setLineZ) by reflexivity;
    repeat match goal with
           | |- context [find ?p ?l] => destruct (find p l)
           end;
    reflexivity.
Qed.

(** What a swap with a z-index that occurs in the document amounts to. *)
Lemma swapZIndex_summary s selected b :
  NoDup (zIndicesOf (document s)) ->
  getSelectedObject s = Some selected ->
  In b (zIndicesOf (document s)) ->
  b <> SelectedObject.zIndex selected ->
  let s' := swapZIndex selected b s in
  exchanged (SelectedObject.zIndex selected) b (document s) (document s')
  /\ getSelectedObject s'
     = Some (SelectedObject.mk (SelectedObject.type selected) b
                               (SelectedObject.id selected))
  /\ Permutation (zIndicesOf (document s')) (zIndicesOf (document s))
  /\ differingPositions (zIndicesOf (document s)) (zIndicesOf (document s')) = 2%nat.
Proof.
  intros Hnd Hsel Hin Hb s'.
  pose proof (swapZIndex_exchanged s selected b Hnd Hsel Hb) as Hex.
  pose proof (getSelectedObject_member s selected Hsel) as Ha.
  fold s' in Hex. split; [exact Hex|]. split.
  - rewrite (getSelectedObject_exchanged _ _ s s' eq_refl Hex), Hsel.
    cbn. now rewrite swapZ_left.
  - rewrite (exchanged_zIndices _ _ _ _ Hex). split.
    + now apply swapZ_permutation.
    + apply swapZ_two_positions; auto.
Qed.

(** C5: in a document whose z-indices are pairwise distinct, with exactly
    one selected entity, of z-index [a]: [moveLayerUp] changes nothing when
    [a] is the highest z-index; otherwise it exchanges [a] with the next
    z-index [b] above it, every entity keeping its place and its other
    fields: the selected entity now has [b] and the former holder of [b] has
    [a], the multiset of z-indices is unchanged and exactly two entities
    change their z-index.  [moveLayerDown] does the same with the lowest
    z-index and the next z-index below. *)
Theorem layer_swap (s : CanvasApp) (selected : SelectedObject.t) :
  NoDup (zIndicesOf (document s)) ->
  getTotalSelectionCount s = 1%nat ->
  getSelectedObject s = Some selected ->
  let zs := zIndicesOf (document s) in
  let a := SelectedObject.zIndex selected in
  ((forall z, In z zs -> z <= a) -> moveLayerUp s = s)
  /\ ((exists z, In z zs /\ a < z) ->
      exists b,
        neighbourAbove zs a b
        /\ exchanged a b (document s) (document (moveLayerUp s))
        /\ getSelectedObject (moveLayerUp s)
           = Some (SelectedObject.mk (SelectedObject.type selected) b
                                     (SelectedObject.id selected))
        /\ Permutation (zIndicesOf (document (moveLayerUp s))) zs
        /\ differingPositions zs (zIndicesOf (document (moveLayerUp s))) = 2%nat)
  /\ ((forall z, In z zs -> a <= z) -> moveLayerDown s = s)
  /\ ((exists z, In z zs /\ z < a) ->
      exists b,
        neighbourBelow zs a b
        /\ exchanged a b (document s) (document (moveLayerDown s))
        /\ getSelectedObject (moveLayerDown s)
           = Some (SelectedObject.mk (SelectedObject.type selected) b
                                     (SelectedObject.id selected))
        /\ Permutation (zIndicesOf (document (moveLayerDown s))) zs
        /\ differingPositions zs (zIndicesOf (document (moveLayerDown s))) = 2%nat).
Proof.
  intros Hnd _ Hsel zs a.
  pose proof (getSelectedObject_member s selected Hsel) as Ha.
  destruct (neighbour_up zs a Hnd Ha) as [Htop Hup].
  destruct (neighbour_down zs a Hnd Ha) as [Hbottom Hdown].
  cbn zeta in Htop, Hup, Hbottom, Hdown.
  repeat split.
  - intros Hmax. unfold moveLayerUp. rewrite Hsel.
    unfold getAllZIndices. fold zs. fold a.
    apply Htop in Hmax. apply Z.leb_le in Hmax. now rewrite Hmax.
  - intros Hex. destruct (Hup Hex) as [Hidx Hnb].
    exists (at_ (sortAscending zs) (indexOf a (sortAscending zs) + 1)).
    split; [exact Hnb|].
    unfold moveLayerUp. rewrite Hsel. unfold getAllZIndices. fold zs. fold a.
    destruct (Z.leb_spec (Z.of_nat (length (sortAscending zs)) - 1)
                (indexOf a (sortAscending zs))) as [Hle|_]; [lia|].
    destruct Hnb as (Hin & Hlt & _).
    apply swapZIndex_summary; auto. fold a. lia.
  - intros Hmin. unfold moveLayerDown. rewrite Hsel.
    unfold getAllZIndices. fold zs. fold a.
    apply Hbottom in Hmin. apply Z.leb_le in Hmin. now rewrite Hmin.
  - intros Hex. destruct (Hdown Hex) as [Hidx Hnb].
    exists (at_ (sortAscending zs) (indexOf a (sortAscending zs) - 1)).
    split; [exact Hnb|].
    unfold moveLayerDown. rewrite Hsel. unfold getAllZIndices. fold zs. fold a.
    destruct (Z.leb_spec (indexOf a (sortAscending zs)) 0) as [Hle|_]; [lia|].
    destruct Hnb as (Hin & Hlt & _).
    apply swapZIndex_summary; auto. fold a. lia.
Qed.

(** The rectangle of [layeredApp] (z 2) between the text run (z 1) and the
    line (z 5). *)
Lemma layer_swap_witness :
  (exists b,
     neighbourAbove [1; 2; 5] 2 b
     /\ exchanged 2 b layeredDocument (document (moveLayerUp layeredApp))
     /\ getSelectedObject (moveLayerUp layeredApp) = Some (SelectedObject.mk TypeRect b 1)
     /\ Permutation (zIndicesOf (document (moveLayerUp layeredApp))) [1; 2; 5]
     /\ differingPositions [1; 2; 5] (zIndicesOf (document (moveLayerUp layeredApp)))
        = 2%nat)
  /\ (exists b,
        neighbourBelow [1; 2; 5] 2 b
        /\ exchanged 2 b layeredDocument (document (moveLayerDown layeredApp))
        /\ getSelectedObject (moveLayerDown layeredApp) = Some (SelectedObject.mk TypeRect b 1)
        /\ Permutation (zIndicesOf (document (moveLayerDown layeredApp))) [1; 2; 5]
        /\ differingPositions [1; 2; 5]
             (zIndicesOf (document (moveLayerDown layeredApp))) = 2%nat).
Proof.
  destruct (layer_swap layeredApp (SelectedObject.mk TypeRect 2 1))
    as (_ & Hup & _ & Hdown).
  - cbn. repeat constructor; cbn; intuition discriminate.
  - reflexivity.
  - reflexivity.
  - split.
    + apply Hup. exists 5. cbn. split; [tauto|lia].
    + apply Hdown. exists 1. cbn. split; [tauto|lia].
Defined.

(** ** Hit testing *)

Lemma isOnRectBorder_iff x y rect :
  isOnRectBorder x y rect = true <-> onOutline (normalizeRect rect) x y.
Proof.
  unfold isOnRectBorder, onOutline, inBox, normalizeRect. cbn [bx1 bx2 by1 by2].
  rewrite !orb_true_iff, !andb_true_iff, !orb_true_iff, !Z.leb_le, !Z.eqb_eq.
  lia.
Qed.

(** X1: a cell hits a rectangle exactly when it lies on the outline of the
    normalized rectangle; so a cell strictly inside never hits, every cell
    of the four sides does, and the answer does not depend on the order in
    which the two corners are stored. *)
Theorem isOnRectBorder_outline (x y : Z) (rect : Rectangle.t) :
  (isOnRectBorder x y rect = true <-> onOutline (normalizeRect rect) x y)
  /\ (bx1 (normalizeRect rect) < x < bx2 (normalizeRect rect) ->
      by1 (normalizeRect rect) < y < by2 (normalizeRect rect) ->
      isOnRectBorder x y rect = false)
  /\ isOnRectBorder x y
       (setCorners (Rectangle.x2 rect) (Rectangle.y2 rect)
                   (Rectangle.x1 rect) (Rectangle.y1 rect) rect)
     = isOnRectBorder x y rect
  /\ isOnRectBorder x y
       (setCorners (Rectangle.x2 rect) (Rectangle.y1 rect)
                   (Rectangle.x1 rect) (Rectangle.y2 rect) rect)
     = isOnRectBorder x y rect.
Proof.
  split; [apply isOnRectBorder_iff|]. split.
  - intros Hx Hy. destruct (isOnRectBorder x y rect) eqn:E; [|reflexivity].
    apply isOnRectBorder_iff in E. unfold onOutline in E. lia.
  - split; unfold isOnRectBorder, normalizeRect; cbn;
      rewrite ?(Z.min_comm (Rectangle.x2 rect)), ?(Z.max_comm (Rectangle.x2 rect)),
              ?(Z.min_comm (Rectangle.y2 rect)), ?(Z.max_comm (Rectangle.y2 rect));
      reflexivity.
Qed.

Lemma isOnRectBorder_outline_witness :
  isOnRectBorder 2 2 (Rectangle.mk 1 4 3 1 1 false 1 white None) = false.
Proof.
  apply (isOnRectBorder_outline 2 2 (Rectangle.mk 1 4 3 1 1 false 1 white None));
    cbn; lia.
Defined.

(** The loop that keeps the best hit so far. *)
Lemma topmostFrom_spec {A : Type} (hit : A -> bool) (zIndex : A -> Z) (l : list A) :
  forall found,
    match topmostFrom hit zIndex found l with
    | Some o =>
        (found = Some o \/ (In o l /\ hit o = true))
        /\ (forall f, found = Some f -> zIndex f <= zIndex o)
        /\ forall o', In o' l -> hit o' = true -> zIndex o' <= zIndex o
    | None => found = None /\ forall o', In o' l -> hit o' = false
    end.
Proof.
  induction l as [|h t IH]; intros found.
  - cbn. destruct found as [f|].
    + split; [now left|]. split; [|intros ? []].
      intros f' [= ->]. lia.
    + split; [reflexivity|intros ? []].
  - cbn [topmostFrom fold_left].
    set (found' := if hit h then match found with
                                 | None => Some h
                                 | Some f => if zIndex f <? zIndex h then Some h
                                             else found
                                 end else found).
    specialize (IH found'). unfold topmostFrom in IH.
    destruct (fold_left _ t found') as [o|] eqn:E.
    + destruct IH as (Hfrom & Hbest & Hall).
      assert (Hh : hit h = true -> zIndex h <= zIndex o).
      { intros Hhit. subst found'. rewrite Hhit in Hbest.
        destruct found as [f|]; [|now apply Hbest].
        destruct (Z.ltb_spec (zIndex f) (zIndex h)); [now apply Hbest|].
        specialize (Hbest f eq_refl). lia. }
      assert (Hf : forall f, found = Some f -> zIndex f <= zIndex o).
      { intros f ->. subst found'. destruct (hit h); [|now apply Hbest].
        destruct (Z.ltb_spec (zIndex f) (zIndex h)); [|now apply Hbest].
        specialize (Hbest h eq_refl). lia. }
      split; [|split; [exact Hf|]].
      * destruct Hfrom as [Hfrom|[Hin Hhit]]; [|right; split; [now right|exact Hhit]].
        subst found'. destruct (hit h) eqn:Hhit; [|now left].
        destruct found as [f|].
        -- destruct (zIndex f <? zIndex h); [|now left].
           injection Hfrom as <-. right. split; [now left|exact Hhit].
        -- injection Hfrom as <-. right. split; [now left|exact Hhit].
      * intros o' [<-|Hin] Hhit; [now apply Hh|now apply Hall].
    + destruct IH as (Hnone & Hall). subst found'.
      destruct (hit h) eqn:Hhit.
      * destruct found as [f|]; [destruct (zIndex f <? zIndex h)|]; discriminate.
      * split; [exact Hnone|]. intros o' [<-|Hin]; [exact Hhit|now apply Hall].
Qed.

Lemma topmost_spec {A : Type} (hit : A -> bool) (zIndex : A -> Z) (l : list A) :
  match topmost hit zIndex l with
  | Some o => isTopmost hit zIndex l o
  | None => forall o', In o' l -> hit o' = false
  end.
Proof.
  unfold topmost, isTopmost.
  pose proof (topmostFrom_spec hit zIndex l None) as H.
  destruct (topmostFrom hit zIndex None l) as [o|].
  - destruct H as ([Hf|[Hin Hhit]] & _ & Hall); [discriminate|]. auto.
  - apply H.
Qed.

(** X2: each of the three hit tests returns an entity of its collection
    that is hit and has the greatest z-index among those hit, and returns
    nothing only when no entity of the collection is hit. *)
Theorem hit_tests_return_topmost (x y : Z) (s : CanvasApp) :
  match getTextBoxAt x y s with
  | Some box => isTopmost (isOnTextBox x y) TextBox.zIndex (textBoxes (document s)) box
  | None => forall box, In box (textBoxes (document s)) -> isOnTextBox x y box = false
  end
  /\ match getRectangleAt x y s with
     | Some rect =>
         isTopmost (isOnRectBorder x y) Rectangle.zIndex (rectangles (document s)) rect
     | None =>
         forall rect, In rect (rectangles (document s)) -> isOnRectBorder x y rect = false
     end
  /\ match getLineAt x y s with
     | Some line => isTopmost (isOnLine x y) Line.zIndex (lines (document s)) line
     | None => forall line, In line (lines (document s)) -> isOnLine x y line = false
     end.
Proof. repeat split; apply topmost_spec. Qed.

(** ** Line rasterization: the cells visited *)

Section BresenhamCells.
Variables dx dy sx sy x2 y2 : Z.
Hypothesis Hdx : 0 <= dx.
Hypothesis Hdy : 0 <= dy.
Hypothesis Hsx : sx = 1 \/ sx = -1.
Hypothesis Hsy : sy = 1 \/ sy = -1.



End BresenhamCells.











(** ** Resize handles *)

Lemma midpoint_between a b : a <= b -> a <= midpoint a b <= b.
Proof.
  intros Hab. unfold midpoint. split.
  - apply Z.div_le_lower_bound; lia.
  - apply Z.div_le_upper_bound; lia.
Qed.

(** X6: a resize handle is only ever found on the outline of the rectangle
    with the given id; the upper-left corner of the normalized rectangle is
    always its north-west handle and every corner carries some handle; and
    no handle is found for an id that no rectangle has. *)
Theorem getResizeHandleAt_outline (rectId x y : Z) (s : CanvasApp) :
  (forall handle, getResizeHandleAt rectId x y s = Some handle ->
     exists rect,
       find (fun r => Rectangle.id r =? rectId) (rectangles (document s)) = Some rect
       /\ isOnRectBorder x y rect = true)
  /\ (forall rect,
        find (fun r => Rectangle.id r =? rectId) (rectangles (document s)) = Some rect ->
        let n := normalizeRect rect in
        getResizeHandleAt rectId (bx1 n) (by1 n) s = Some H_nw
        /\ getResizeHandleAt rectId (bx2 n) (by1 n) s <> None
        /\ getResizeHandleAt rectId (bx1 n) (by2 n) s <> None
        /\ getResizeHandleAt rectId (bx2 n) (by2 n) s <> None)
  /\ (find (fun r => Rectangle.id r =? rectId) (rectangles (document s)) = None ->
      getResizeHandleAt rectId x y s = None).
Proof.
  unfold getResizeHandleAt. split; [|split].
  - intros handle H.
    destruct (find _ (rectangles (document s))) as [rect|]; [|discriminate].
    exists rect. split; [reflexivity|]. apply isOnRectBorder_iff.
    cbv zeta in H. set (n := normalizeRect rect) in *.
    assert (Hn : bx1 n <= bx2 n /\ by1 n <= by2 n)
      by (subst n; unfold normalizeRect; cbn; lia).
    pose proof (midpoint_between _ _ (proj1 Hn)) as Hmx.
    pose proof (midpoint_between _ _ (proj2 Hn)) as Hmy.
    unfold onOutline, inBox.
    repeat match type of H with
           | (if ?c then _ else _) = _ =>
               let E := fresh "E" in
               destruct c eqn:E;
               [apply andb_true_iff in E; rewrite !Z.eqb_eq in E;
                destruct E as [-> ->]; clear H; lia|]
           end.
    discriminate.
  - intros rect H. cbv zeta. rewrite H.
    set (n := normalizeRect rect).
    split; [now rewrite !Z.eqb_refl|].
    repeat split;
      repeat match goal with
             | |- (if ?c then _ else _) <> None => destruct c eqn:?; [discriminate|]
             end;
      rewrite ?Z.eqb_refl in *; discriminate.
  - intros ->. reflexivity.
Qed.

Lemma getResizeHandleAt_outline_witness :
  exists rect,
    find (fun r => Rectangle.id r =? 1) (rectangles (document resizingApp)) = Some rect
    /\ isOnRectBorder 2 3 rect = true.
Proof.
  apply (getResizeHandleAt_outline 1 2 3 resizingApp) with H_s. reflexivity.
Defined.

(** ** The single-entity moves *)



(** ** Moving the selection: composition *)

Section UpdateById.
Variable T : Type.
Variable getId : T -> Z.

Lemma updateFound_ext (p : T -> bool) (f g : T -> T) (l : list T) :
  (forall o, f o = g o) -> updateFound p f l = updateFound p g l.
Proof.
  intros H. induction l as [|h t IH]; simpl; [reflexivity|].
  now rewrite H, IH.
Qed.

Lemma updateFound_identity (p : T -> bool) (f : T -> T) (l : list T) :
  (forall o, f o = o) -> updateFound p f l = l.
Proof.
  intros H. induction l as [|h t IH]; simpl; [reflexivity|].
  rewrite H, IH. now destruct (p h).
Qed.

(** Two updates of the entity with one id amount to one. *)
Lemma updateFound_twice (i : Z) (f g : T -> T) (l : list T) :
  (forall o, getId (f o) = getId o) ->
  updateFound (fun o => getId o =? i) g (updateFound (fun o => getId o =? i) f l)
  = updateFound (fun o => getId o =? i) (fun o => g (f o)) l.
Proof.
  intros Hf. induction l as [|h t IH]; simpl; [reflexivity|].
  destruct (getId h =? i) eqn:E; simpl.
  - now rewrite Hf, E.
  - now rewrite E, IH.
Qed.

(** Updates by id commute when the two functions do and keep the ids. *)
Lemma updateFound_commute (i j : Z) (f g : T -> T) (l : list T) :
  (forall o, getId (f o) = getId o) -> (forall o, getId (g o) = getId o) ->
  (forall o, f (g o) = g (f o)) ->
  updateFound (fun o => getId o =? i) f (updateFound (fun o => getId o =? j) g l)
  = updateFound (fun o => getId o =? j) g (updateFound (fun o => getId o =? i) f l).
Proof.
  intros Hf Hg Hfg. induction l as [|h t IH]; simpl; [reflexivity|].
  destruct (getId h =? j) eqn:Ej; destruct (getId h =? i) eqn:Ei; simpl;
    rewrite ?Hf, ?Hg, ?Ei, ?Ej; try reflexivity.
  - now rewrite Hfg.
  - now rewrite IH.
Qed.

(** The loop over the selected ids. *)
Lemma updateAll_commute (i : Z) (f g : T -> T) (ids : list Z) : forall l,
  (forall o, getId (f o) = getId o) -> (forall o, getId (g o) = getId o) ->
  (forall o, f (g o) = g (f o)) ->
  updateFound (fun o => getId o =? i) g
    (fold_left (fun l id => updateFound (fun o => getId o =? id) f l) ids l)
  = fold_left (fun l id => updateFound (fun o => getId o =? id) f l) ids
      (updateFound (fun o => getId o =? i) g l).
Proof.
  induction ids as [|j ids IH]; intros l Hf Hg Hfg; simpl; [reflexivity|].
  rewrite IH by assumption. f_equal.
  symmetry. now apply updateFound_commute.
Qed.

Lemma updateAll_twice (f g : T -> T) (ids : list Z) : forall l,
  (forall o, getId (f o) = getId o) -> (forall o, getId (g o) = getId o) ->
  (forall o, f (g o) = g (f o)) ->
  fold_left (fun l id => updateFound (fun o => getId o =? id) g l) ids
    (fold_left (fun l id => updateFound (fun o => getId o =? id) f l) ids l)
  = fold_left (fun l id => updateFound (fun o => getId o =? id) (fun o => g (f o)) l)
      ids l.
Proof.
  induction ids as [|i ids IH]; intros l Hf Hg Hfg; simpl; [reflexivity|].
  rewrite updateAll_commute by assumption.
  rewrite IH by assumption.
  now rewrite updateFound_twice by assumption.
Qed.

Lemma updateAll_ext (f g : T -> T) (ids : list Z) : forall l,
  (forall o, f o = g o) ->
  fold_left (fun l id => updateFound (fun o => getId o =? id) f l) ids l
  = fold_left (fun l id => updateFound (fun o => getId o =? id) g l) ids l.
Proof.
  induction ids as [|i ids IH]; intros l H; simpl; [reflexivity|].
  rewrite IH by assumption. f_equal. now apply updateFound_ext.
Qed.

Lemma updateAll_identity (f : T -> T) (ids : list Z) : forall l,
  (forall o, f o = o) ->
  fold_left (fun l id => updateFound (fun o => getId o =? id) f l) ids l = l.
Proof.
  induction ids as [|i ids IH]; intros l H; simpl; [reflexivity|].
  rewrite updateFound_identity by assumption. now apply IH.
Qed.
End UpdateById.

Section UpdateOn.
Variable T : Type.
Variable getId : T -> Z.

Lemma In_updateFound (p : T -> bool) (f : T -> T) (l : list T) (o : T) :
  In o (updateFound p f l) ->
  In o l \/ exists o0, In o0 l /\ p o0 = true /\ o = f o0.
Proof.
  induction l as [|h t IH]; simpl; [tauto|].
  destruct (p h) eqn:E; simpl.
  - intros [<-|H]; [right; exists h; auto|left; auto].
  - intros [<-|H]; [left; auto|].
    destruct (IH H) as [H'|(o0 & H0 & Hp & ->)]; [left; auto|].
    right. exists o0. auto.
Qed.

Variables f g : T -> T.
Hypothesis Hg : forall o, getId (g o) = getId o.

(** Two updates agree when the two functions agree on the entity with the
    given id. *)
Lemma updateFound_ext_on (i : Z) (l : list T) :
  (forall o, In o l -> getId o = i -> f o = g o) ->
  updateFound (fun o => getId o =? i) f l = updateFound (fun o => getId o =? i) g l.
Proof.
  induction l as [|h t IH]; intros H; simpl; [reflexivity|].
  destruct (getId h =? i) eqn:E.
  - rewrite (H h) by (simpl; auto; now apply Z.eqb_eq). reflexivity.
  - rewrite IH; [reflexivity|]. intros o Ho. apply H. now right.
Qed.

(** The loop over a set of ids: each entity is updated at most once, so the
    two loops agree when the two functions agree on the entities that the
    list holds at the start. *)
Lemma updateAll_ext_on (ids : list Z) : NoDup ids -> forall l,
  (forall o, In o l -> In (getId o) ids -> f o = g o) ->
  fold_left (fun l id => updateFound (fun o => getId o =? id) f l) ids l
  = fold_left (fun l id => updateFound (fun o => getId o =? id) g l) ids l.
Proof using Hg.
  induction 1 as [|i ids Hi Hnd IH]; intros l H; simpl; [reflexivity|].
  rewrite (updateFound_ext_on i l)
    by (intros o Ho Hid; apply H; [exact Ho|left; now symmetry]).
  apply IH. intros o Ho Hid.
  destruct (In_updateFound _ _ _ _ Ho) as [Hl|(o0 & H0 & Hp & ->)].
  - apply H; [exact Hl|now right].
  - exfalso. apply Hi. rewrite Hg in Hid. apply Z.eqb_eq in Hp. now rewrite <- Hp.
Qed.

(** After the loop every entity is one of the list at the start, or the
    update of one. *)
Lemma updateAll_In (ids : list Z) : NoDup ids -> forall l o,
  In o (fold_left (fun l id => updateFound (fun o => getId o =? id) g l) ids l) ->
  In o l \/ exists o0, In o0 l /\ In (getId o0) ids /\ o = g o0.
Proof using Hg.
  induction 1 as [|i ids Hi Hnd IH]; intros l o H; simpl in H; [now left|].
  destruct (IH _ _ H) as [Hl|(o1 & H1 & Hid & ->)].
  - destruct (In_updateFound _ _ _ _ Hl) as [Hl'|(o0 & H0 & Hp & ->)]; [now left|].
    right. exists o0. apply Z.eqb_eq in Hp. repeat split; [exact H0|now left].
  - destruct (In_updateFound _ _ _ _ H1) as [Hl'|(o0 & H0 & Hp & ->)].
    + right. exists o1. repeat split; [exact Hl'|now right].
    + exfalso. apply Hi. rewrite Hg in Hid. apply Z.eqb_eq in Hp. now rewrite <- Hp.
Qed.
End UpdateOn.

(** Two moves of a collection, one after the other, when the moves are
    exact on the entities at the start and the second is exact on the
    entities that the first has moved. *)
Lemma updateAll_moves (T : Type) (getId : T -> Z) (f1 f2 f3 g1 g2 g3 : T -> T)
    (ids : list Z) (l : list T) :
  (forall o, getId (g1 o) = getId o) -> (forall o, getId (g2 o) = getId o) ->
  (forall o, getId (g3 o) = getId o) ->
  (forall o, g2 (g1 o) = g3 o) -> (forall o, g1 (g2 o) = g2 (g1 o)) ->
  NoDup ids ->
  (forall o, In o l ->
     f1 o = g1 o /\ f2 o = g2 o /\ f3 o = g3 o /\ f2 (g1 o) = g2 (g1 o)) ->
  fold_left (fun l id => updateFound (fun o => getId o =? id) f2 l) ids
    (fold_left (fun l id => updateFound (fun o => getId o =? id) f1 l) ids l)
  = fold_left (fun l id => updateFound (fun o => getId o =? id) f3 l) ids l.
Proof.
  intros H1 H2 H3 H21 Hcomm Hnd Hl.
  rewrite (updateAll_ext_on T getId f1 g1 H1 ids Hnd l)
    by (intros o Ho _; apply (Hl o Ho)).
  rewrite (updateAll_ext_on T getId f2 g2 H2 ids Hnd).
  - rewrite (updateAll_ext_on T getId f3 g3 H3 ids Hnd l)
      by (intros o Ho _; apply (Hl o Ho)).
    rewrite (updateAll_twice T getId g1 g2 ids l H1 H2 Hcomm).
    now apply updateAll_ext.
  - intros o Ho _.
    destruct (updateAll_In T getId g1 H1 ids Hnd l o Ho) as [Hin|(o0 & H0 & _ & ->)];
      apply (Hl _ ltac:(eassumption)).
Qed.

Lemma translateTextBox_add dx dy dx' dy' box :
  translateTextBox dx' dy' (translateTextBox dx dy box)
  = translateTextBox (dx + dx') (dy + dy') box.
Proof. unfold translateTextBox. cbn. f_equal; lia. Qed.

Lemma translateRect_add dx dy dx' dy' rect :
  translateRect dx' dy' (translateRect dx dy rect)
  = translateRect (dx + dx') (dy + dy') rect.
Proof. unfold translateRect. cbn. f_equal; lia. Qed.

Lemma translateLine_add dx dy dx' dy' line :
  translateLine dx' dy' (translateLine dx dy line)
  = translateLine (dx + dx') (dy + dy') line.
Proof. unfold translateLine. cbn. f_equal; lia. Qed.

(** A sum of [moveSelection] is exact when its exact value is an exact
    integer. *)
Lemma shiftTextBox_exact dx dy box :
  exactInteger (TextBox.x box + dx) -> exactInteger (TextBox.y box + dy) ->
  shiftTextBox dx dy box = translateTextBox dx dy box.
Proof.
  intros Hx Hy. unfold shiftTextBox, translateTextBox.
  now rewrite !add_exact by assumption.
Qed.

Lemma shiftRect_exact dx dy rect :
  exactInteger (Rectangle.x1 rect + dx) -> exactInteger (Rectangle.y1 rect + dy) ->
  exactInteger (Rectangle.x2 rect + dx) -> exactInteger (Rectangle.y2 rect + dy) ->
  shiftRect dx dy rect = translateRect dx dy rect.
Proof.
  intros Hx1 Hy1 Hx2 Hy2. unfold shiftRect, translateRect.
  now rewrite !add_exact by assumption.
Qed.

Lemma shiftLine_exact dx dy line :
  exactInteger (Line.x1 line + dx) -> exactInteger (Line.y1 line + dy) ->
  exactInteger (Line.x2 line + dx) -> exactInteger (Line.y2 line + dy) ->
  shiftLine dx dy line = translateLine dx dy line.
Proof.
  intros Hx1 Hy1 Hx2 Hy2. unfold shiftLine, translateLine.
  now rewrite !add_exact by assumption.
Qed.

Lemma moveSelection_compose m dx dy dx' dy' s :
  coordinatesWithin m (document s) -> selectionIsSet s ->
  m + Z.abs dx <= 2 ^ 53 -> m + Z.abs dx' <= 2 ^ 53 ->
  m + Z.abs (dx + dx') <= 2 ^ 53 ->
  m + Z.abs dy <= 2 ^ 53 -> m + Z.abs dy' <= 2 ^ 53 ->
  m + Z.abs (dy + dy') <= 2 ^ 53 ->
  document (moveSelection dx' dy' (moveSelection dx dy s))
  = document (moveSelection (dx + dx') (dy + dy') s).
Proof.
  intros (Hboxes & Hrects & Hlines) (Nb & Nr & Nl) Hx Hx' Hxx Hy Hy' Hyy.
  unfold moveSelection, with_lines, with_rectangles, with_textBoxes. cbn.
  rewrite (updateAll_moves TextBox.t TextBox.id
             (shiftTextBox dx dy) (shiftTextBox dx' dy')
             (shiftTextBox (dx + dx') (dy + dy'))
             (translateTextBox dx dy) (translateTextBox dx' dy')
             (translateTextBox (dx + dx') (dy + dy'))); try reflexivity;
    try assumption.
  rewrite (updateAll_moves Rectangle.t Rectangle.id
             (shiftRect dx dy) (shiftRect dx' dy')
             (shiftRect (dx + dx') (dy + dy'))
             (translateRect dx dy) (translateRect dx' dy')
             (translateRect (dx + dx') (dy + dy'))); try reflexivity;
    try assumption.
  rewrite (updateAll_moves Line.t Line.id
             (shiftLine dx dy) (shiftLine dx' dy')
             (shiftLine (dx + dx') (dy + dy'))
             (translateLine dx dy) (translateLine dx' dy')
             (translateLine (dx + dx') (dy + dy'))); try reflexivity;
    try assumption.
  - intros o. apply translateLine_add.
  - intros o. rewrite !translateLine_add. f_equal; lia.
  - intros o Ho. destruct (Hlines o Ho) as (B1 & B2 & B3 & B4).
    repeat split; apply shiftLine_exact; unfold exactInteger; cbn; lia.
  - intros o. apply translateRect_add.
  - intros o. rewrite !translateRect_add. f_equal; lia.
  - intros o Ho. destruct (Hrects o Ho) as (B1 & B2 & B3 & B4).
    repeat split; apply shiftRect_exact; unfold exactInteger; cbn; lia.
  - intros o. apply translateTextBox_add.
  - intros o. rewrite !translateTextBox_add. f_equal; lia.
  - intros o Ho. destruct (Hboxes o Ho) as (B1 & B2).
    repeat split; apply shiftTextBox_exact; unfold exactInteger; cbn; lia.
Qed.

Lemma moveSelection_zero m s :
  coordinatesWithin m (document s) -> selectionIsSet s -> m <= 2 ^ 53 ->
  document (moveSelection 0 0 s) = document s.
Proof.
  intros (Hboxes & Hrects & Hlines) (Nb & Nr & Nl) Hm.
  unfold moveSelection, with_lines, with_rectangles, with_textBoxes. cbn.
  rewrite (updateAll_ext_on TextBox.t TextBox.id (shiftTextBox 0 0) (fun o => o)),
    (updateAll_ext_on Rectangle.t Rectangle.id (shiftRect 0 0) (fun o => o)),
    (updateAll_ext_on Line.t Line.id (shiftLine 0 0) (fun o => o));
    try reflexivity; try assumption.
  - rewrite (updateAll_identity TextBox.t TextBox.id),
      (updateAll_identity Rectangle.t Rectangle.id),
      (updateAll_identity Line.t Line.id) by reflexivity.
    now destruct (document s).
  - intros o Ho _. destruct (Hlines o Ho) as (B1 & B2 & B3 & B4).
    rewrite shiftLine_exact by (unfold exactInteger; lia).
    destruct o. unfold translateLine. cbn. f_equal; lia.
  - intros o Ho _. destruct (Hrects o Ho) as (B1 & B2 & B3 & B4).
    rewrite shiftRect_exact by (unfold exactInteger; lia).
    destruct o. unfold translateRect. cbn. f_equal; lia.
  - intros o Ho _. destruct (Hboxes o Ho) as (B1 & B2).
    rewrite shiftTextBox_exact by (unfold exactInteger; lia).
    destruct o. unfold translateTextBox. cbn. f_equal; lia.
Qed.

(** Beyond 2^53 the moves do not compose: one column to the right and one
    back leaves [farRect] one column narrower than it was. *)
Lemma moveSelection_rounds :
  rectangles (document (moveSelection 1 0 farApp))
  = [Rectangle.mk 1 (2 ^ 53) 0 (2 ^ 53) 2 false 1 white None]
  /\ rectangles (document (moveSelection (-1) 0 (moveSelection 1 0 farApp)))
     = [Rectangle.mk 1 (2 ^ 53 - 1) 0 (2 ^ 53 - 1) 2 false 1 white None]
  /\ document (moveSelection (-1) 0 (moveSelection 1 0 farApp)) <> document farApp.
Proof.
  split; [reflexivity|]. split; [reflexivity|].
  intros H. apply (f_equal rectangles) in H. vm_compute in H. discriminate.
Qed.

(** X8: the moves of a drag compose exactly as long as no sum rounds: when
    the selections hold no id twice, every coordinate of the document is at
    most [m] in absolute value and [m] plus the size of each delta and of
    the sum of the deltas is at most 2^53, moving the selection by (dx,dy)
    and then by (dx',dy') leaves the document that one move by the sum
    leaves, and a move followed by the opposite move restores the
    document. *)
Theorem moveSelection_additive (m dx dy dx' dy' : Z) (s : CanvasApp) :
  coordinatesWithin m (document s) -> selectionIsSet s ->
  m + Z.abs dx <= 2 ^ 53 -> m + Z.abs dx' <= 2 ^ 53 ->
  m + Z.abs (dx + dx') <= 2 ^ 53 ->
  m + Z.abs dy <= 2 ^ 53 -> m + Z.abs dy' <= 2 ^ 53 ->
  m + Z.abs (dy + dy') <= 2 ^ 53 ->
  document (moveSelection dx' dy' (moveSelection dx dy s))
  = document (moveSelection (dx + dx') (dy + dy') s)
  /\ document (moveSelection (- dx) (- dy) (moveSelection dx dy s)) = document s.
Proof.
  intros Hm Hset Hx Hx' Hxx Hy Hy' Hyy.
  split; [now apply (moveSelection_compose m)|].
  rewrite (moveSelection_compose m) by (try assumption; lia).
  rewrite !Z.add_opp_diag_r. apply (moveSelection_zero m); try assumption. lia.
Qed.

Lemma moveSelection_additive_witness :
  document (moveSelection 3 (-1) (moveSelection (-2) 4 draggingApp))
  = document (moveSelection (-2 + 3) (4 + -1) draggingApp)
  /\ document (moveSelection (- -2) (- 4) (moveSelection (-2) 4 draggingApp))
     = document draggingApp.
Proof.
  apply (moveSelection_additive 3 (-2) 4 3 (-1) draggingApp).
  - split; [|split].
    + intros o [].
    + intros o [<-|[]]. cbn. lia.
    + intros o [].
  - split; [|split]; repeat constructor. simpl. tauto.
  - cbn. lia.
  - cbn. lia.
  - cbn. lia.
  - cbn. lia.
  - cbn. lia.
  - cbn. lia.
Defined.

(** ** Unwinding the history *)

Lemma snapshotRun_snoc ds d s :
  snapshotRun (ds ++ [d]) s = snapshotThen d (snapshotRun ds s).
Proof. unfold snapshotRun. now rewrite fold_left_app. Qed.

(** What [undo] reads: the document and the two stacks. *)
Lemma undo_reads t front top :
  historyStack t = front ++ [top] ->
  document (undo t) = top
  /\ historyStack (undo t) = front
  /\ redoStack (undo t) = redoStack t ++ [document t].
Proof.
  intros H. rewrite (undo_nonempty t front top) by exact H.
  repeat split.
Qed.

Lemma undo_unwinds ds s :
  (length (historyStack s) + length ds <= MAX_HISTORY)%nat ->
  forall t,
    document t = document (snapshotRun ds s) ->
    historyStack t = historyStack (snapshotRun ds s) ->
    document (Nat.iter (length ds) undo t) = document s
    /\ historyStack (Nat.iter (length ds) undo t) = historyStack s
    /\ redoStack (Nat.iter (length ds) undo t) = redoStack t ++ rev ds.
Proof.
  induction ds as [|d ds IH] using rev_ind; intros Hlen t Hdoc Hhist.
  - cbn in *. now rewrite app_nil_r.
  - rewrite length_app in *. cbn [length] in *.
    rewrite Nat.add_1_r, Nat.iter_succ_r.
    rewrite snapshotRun_snoc in Hdoc, Hhist.
    unfold snapshotThen in Hdoc, Hhist. cbn [document historyStack with_document] in Hdoc, Hhist.
    rewrite saveSnapshot_historyStack in Hhist.
    assert (Hlt : (length (historyStack (snapshotRun ds s)) <? MAX_HISTORY)%nat = true).
    { apply Nat.ltb_lt. rewrite snapshotRun_length; unfold MAX_HISTORY in *; lia. }
    rewrite Hlt in Hhist.
    destruct (undo_reads t _ _ Hhist) as (Hd & Hh & Hr).
    destruct (IH ltac:(lia) (undo t) Hd Hh) as (IHd & IHh & IHr).
    repeat split; try assumption.
    rewrite IHr, Hr, Hdoc, rev_app_distr, <- app_assoc. reflexivity.
Qed.

(** X9: as long as the undo stack does not overflow, as many undos as
    there were snapshotted gestures bring back the document and the undo
    stack from before the first of them, and the redo stack then holds the
    documents the gestures produced, the last gesture's at the bottom. *)
Theorem undo_unwinds_gestures (ds : list HistorySnapshot) (s : CanvasApp) :
  (length (historyStack s) + length ds <= MAX_HISTORY)%nat ->
  document (Nat.iter (length ds) undo (snapshotRun ds s)) = document s
  /\ historyStack (Nat.iter (length ds) undo (snapshotRun ds s)) = historyStack s
  /\ (ds <> [] -> redoStack (Nat.iter (length ds) undo (snapshotRun ds s)) = rev ds).
Proof.
  intros Hlen.
  destruct (undo_unwinds ds s Hlen (snapshotRun ds s) eq_refl eq_refl) as (Hd & Hh & Hr).
  repeat split; try assumption.
  intros Hne. rewrite Hr.
  destruct (exists_last Hne) as (front & d & ->).
  now rewrite snapshotRun_snoc.
Qed.

Lemma undo_unwinds_gestures_witness :
  document (Nat.iter 2 undo (snapshotRun [oneRectDocument; mixedDocument] (initialApp 80 24)))
  = emptyDocument
  /\ historyStack
       (Nat.iter 2 undo (snapshotRun [oneRectDocument; mixedDocument] (initialApp 80 24)))
     = [].
Proof.
  destruct (undo_unwinds_gestures [oneRectDocument; mixedDocument] (initialApp 80 24))
    as (Hd & Hh & _).
  - unfold MAX_HISTORY. simpl. lia.
  - split; assumption.
Defined.

(** X10: [redo] followed by [undo] restores the document and both stacks,
    with no condition on the depth of the undo stack: [redo] pushes the
    current document without applying the cap, and [undo] pops it again. *)
Theorem redo_then_undo (s : CanvasApp) :
  redoStack s <> [] ->
  document (undo (redo s)) = document s
  /\ historyStack (undo (redo s)) = historyStack s
  /\ redoStack (undo (redo s)) = redoStack s
  /\ document (redo s) = last (redoStack s) (document s).
Proof.
  intros Hne.
  destruct (pop_nonempty (redoStack s) Hne) as (front & top & Hr & _).
  rewrite (redo_nonempty s front top Hr).
  set (s1 := install top _).
  assert (Hh : historyStack s1 = historyStack s ++ [document s]) by reflexivity.
  destruct (undo_reads s1 _ _ Hh) as (Hd' & Hh' & Hr').
  repeat split; try assumption.
  - rewrite Hr'. subst s1. cbn. now rewrite Hr.
  - subst s1. cbn. rewrite Hr. unfold push. now rewrite last_last.
Qed.

Lemma redo_then_undo_witness :
  document (undo (redo undoneApp)) = document undoneApp
  /\ historyStack (undo (redo undoneApp)) = historyStack undoneApp
  /\ redoStack (undo (redo undoneApp)) = redoStack undoneApp
  /\ document (redo undoneApp) = last (redoStack undoneApp) (document undoneApp).
Proof.
  apply (redo_then_undo undoneApp). discriminate.
Defined.

(** ** Up and down again *)

Lemma exchange_back {T : Type} (getZ : T -> Z) (setZ : Z -> T -> T) a b l :
  (forall z e, getZ (setZ z e) = z) ->
  (forall z z' e, setZ z (setZ z' e) = setZ z e) ->
  (forall e, setZ (getZ e) e = e) ->
  exchange getZ setZ b a (exchange getZ setZ a b l) = l.
Proof.
  intros Hgs Hss Hsg. unfold exchange. rewrite map_map.
  apply map_fixpoint. intros e. rewrite Hgs, Hss.
  replace (swapZ b a (swapZ a b (getZ e))) with (getZ e); [apply Hsg|].
  unfold swapZ.
  destruct (Z.eqb_spec (getZ e) a) as [->|Ha].
  - rewrite Z.eqb_refl. now destruct (Z.eqb_spec b b).
  - destruct (Z.eqb_spec (getZ e) b) as [->|Hb].
    + destruct (Z.eqb_spec a b); [congruence|]. now rewrite Z.eqb_refl.
    + destruct (Z.eqb_spec (getZ e) b); [contradiction|].
      now destruct (Z.eqb_spec (getZ e) a).
Qed.

Lemma exchanged_back a b d d' d'' :
  exchanged a b d d' -> exchanged b a d' d'' -> d'' = d.
Proof.
  intros (Ht & Hr & Hl & H1 & H2 & H3 & H4) (Ht' & Hr' & Hl' & H1' & H2' & H3' & H4').
  rewrite Ht in Ht'. rewrite Hr in Hr'. rewrite Hl in Hl'.
  rewrite exchange_back in Ht'; [|reflexivity|reflexivity|now intros []].
  rewrite exchange_back in Hr'; [|reflexivity|reflexivity|now intros []].
  rewrite exchange_back in Hl'; [|reflexivity|reflexivity|now intros []].
  destruct d, d''. cbn in *. congruence.
Qed.

(** The swaps that [moveLayerUp] and [moveLayerDown] make away from the
    ends of the order. *)
Lemma moveLayerUp_swaps s selected :
  NoDup (zIndicesOf (document s)) ->
  getSelectedObject s = Some selected ->
  (exists z, In z (zIndicesOf (document s)) /\ SelectedObject.zIndex selected < z) ->
  exists b,
    neighbourAbove (zIndicesOf (document s)) (SelectedObject.zIndex selected) b
    /\ moveLayerUp s = swapZIndex selected b s.
Proof.
  intros Hnd Hsel Hex.
  pose proof (getSelectedObject_member s selected Hsel) as Ha.
  destruct (neighbour_up _ _ Hnd Ha) as [_ Hup]. cbn zeta in Hup.
  destruct (Hup Hex) as [Hidx Hnb].
  eexists. split; [exact Hnb|].
  unfold moveLayerUp. rewrite Hsel. unfold getAllZIndices.
  destruct (Z.leb_spec
              (Z.of_nat (length (sortAscending (zIndicesOf (document s)))) - 1)
              (indexOf (SelectedObject.zIndex selected)
                       (sortAscending (zIndicesOf (document s))))); [lia|reflexivity].
Qed.

Lemma moveLayerDown_swaps s selected :
  NoDup (zIndicesOf (document s)) ->
  getSelectedObject s = Some selected ->
  (exists z, In z (zIndicesOf (document s)) /\ z < SelectedObject.zIndex selected) ->
  exists b,
    neighbourBelow (zIndicesOf (document s)) (SelectedObject.zIndex selected) b
    /\ moveLayerDown s = swapZIndex selected b s.
Proof.
  intros Hnd Hsel Hex.
  pose proof (getSelectedObject_member s selected Hsel) as Ha.
  destruct (neighbour_down _ _ Hnd Ha) as [_ Hdown]. cbn zeta in Hdown.
  destruct (Hdown Hex) as [Hidx Hnb].
  eexists. split; [exact Hnb|].
  unfold moveLayerDown. rewrite Hsel. unfold getAllZIndices.
  destruct (Z.leb_spec
              (indexOf (SelectedObject.zIndex selected)
                       (sortAscending (zIndicesOf (document s)))) 0); [lia|reflexivity].
Qed.

(** X11: with pairwise distinct z-indices and one entity selected,
    [moveLayerDown] undoes [moveLayerUp] and [moveLayerUp] undoes
    [moveLayerDown]: when the selected entity is not already at the top
    (resp. the bottom), going up and down again (resp. down and up again)
    gives back the very document, and the selection is kept. *)
Theorem layer_up_then_down (s : CanvasApp) (selected : SelectedObject.t) :
  NoDup (zIndicesOf (document s)) ->
  getSelectedObject s = Some selected ->
  ((exists z, In z (zIndicesOf (document s)) /\ SelectedObject.zIndex selected < z) ->
   document (moveLayerDown (moveLayerUp s)) = document s
   /\ getSelectedObject (moveLayerDown (moveLayerUp s)) = Some selected)
  /\ ((exists z, In z (zIndicesOf (document s)) /\ z < SelectedObject.zIndex selected) ->
      document (moveLayerUp (moveLayerDown s)) = document s
      /\ getSelectedObject (moveLayerUp (moveLayerDown s)) = Some selected).
Proof.
  intros Hnd Hsel.
  pose proof (getSelectedObject_member s selected Hsel) as Ha.
  split; intros Hex.
  - destruct (moveLayerUp_swaps s selected Hnd Hsel Hex) as (b & (Hb & Hab & Hgap) & ->).
    destruct (swapZIndex_summary s selected b Hnd Hsel Hb ltac:(lia))
      as (Hx & Hsel' & Hperm & _).
    set (s' := swapZIndex selected b s) in *.
    assert (Hnd' : NoDup (zIndicesOf (document s')))
      by (eapply Permutation_NoDup; [symmetry; exact Hperm|exact Hnd]).
    assert (Hmem : forall z, In z (zIndicesOf (document s'))
                             <-> In z (zIndicesOf (document s)))
      by (intros z; split; apply Permutation_in; [|symmetry]; exact Hperm).
    destruct (moveLayerDown_swaps s' _ Hnd' Hsel') as (b' & (Hb' & Hlt & Hgap') & Heq).
    { exists (SelectedObject.zIndex selected). cbn. split; [now apply Hmem|lia]. }
    cbn [SelectedObject.zIndex] in *.
    assert (b' = SelectedObject.zIndex selected) as ->.
    { destruct (Hgap' _ (proj2 (Hmem _) Ha)); destruct (Hgap _ (proj1 (Hmem _) Hb')); lia. }
    rewrite Heq.
    destruct (swapZIndex_summary s' _ (SelectedObject.zIndex selected) Hnd' Hsel'
                (proj2 (Hmem _) Ha) ltac:(cbn; lia)) as (Hx' & Hsel'' & _).
    cbn [SelectedObject.zIndex SelectedObject.type SelectedObject.id] in *.
    split.
    + exact (exchanged_back _ _ _ _ _ Hx Hx').
    + rewrite Hsel''. now destruct selected.
  - destruct (moveLayerDown_swaps s selected Hnd Hsel Hex) as (b & (Hb & Hab & Hgap) & ->).
    destruct (swapZIndex_summary s selected b Hnd Hsel Hb ltac:(lia))
      as (Hx & Hsel' & Hperm & _).
    set (s' := swapZIndex selected b s) in *.
    assert (Hnd' : NoDup (zIndicesOf (document s')))
      by (eapply Permutation_NoDup; [symmetry; exact Hperm|exact Hnd]).
    assert (Hmem : forall z, In z (zIndicesOf (document s'))
                             <-> In z (zIndicesOf (document s)))
      by (intros z; split; apply Permutation_in; [|symmetry]; exact Hperm).
    destruct (moveLayerUp_swaps s' _ Hnd' Hsel') as (b' & (Hb' & Hlt & Hgap') & Heq).
    { exists (SelectedObject.zIndex selected). cbn. split; [now apply Hmem|lia]. }
    cbn [SelectedObject.zIndex] in *.
    assert (b' = SelectedObject.zIndex selected) as ->.
    { destruct (Hgap' _ (proj2 (Hmem _) Ha)); destruct (Hgap _ (proj1 (Hmem _) Hb')); lia. }
    rewrite Heq.
    destruct (swapZIndex_summary s' _ (SelectedObject.zIndex selected) Hnd' Hsel'
                (proj2 (Hmem _) Ha) ltac:(cbn; lia)) as (Hx' & Hsel'' & _).
    cbn [SelectedObject.zIndex SelectedObject.type SelectedObject.id] in *.
    split.
    + exact (exchanged_back _ _ _ _ _ Hx Hx').
    + rewrite Hsel''. now destruct selected.
Qed.

Lemma layer_up_then_down_witness :
  (document (moveLayerDown (moveLayerUp layeredApp)) = layeredDocument
   /\ getSelectedObject (moveLayerDown (moveLayerUp layeredApp))
      = Some (SelectedObject.mk TypeRect 2 1))
  /\ (document (moveLayerUp (moveLayerDown layeredApp)) = layeredDocument
      /\ getSelectedObject (moveLayerUp (moveLayerDown layeredApp))
         = Some (SelectedObject.mk TypeRect 2 1)).
Proof.
  destruct (layer_up_then_down layeredApp (SelectedObject.mk TypeRect 2 1))
    as (Hup & Hdown).
  - cbn. repeat constructor; cbn; intuition discriminate.
  - reflexivity.
  - split.
    + apply Hup. exists 5. cbn. split; [tauto|lia].
    + apply Hdown. exists 1. cbn. split; [tauto|lia].
Defined.

(** ** Text editing *)

Lemma spliceStart_inside len pos :
  0 <= pos <= len -> spliceStart len pos = Z.to_nat pos.
Proof.
  intros H. unfold spliceStart.
  destruct (Z.ltb_spec pos 0); [lia|]. f_equal. lia.
Qed.

Lemma splice_insert {A : Type} (l : list A) (pos : Z) (c : A) :
  0 <= pos <= Z.of_nat (length l) ->
  splice l pos 0 [c] = firstn (Z.to_nat pos) l ++ c :: skipn (Z.to_nat pos) l.
Proof.
  intros H. unfold splice. rewrite spliceStart_inside by exact H.
  now rewrite Nat.add_0_r.
Qed.

Lemma splice_delete {A : Type} (l : list A) (pos : Z) :
  0 <= pos <= Z.of_nat (length l) ->
  splice l pos 1 [] = firstn (Z.to_nat pos) l ++ skipn (S (Z.to_nat pos)) l.
Proof.
  intros H. unfold splice. rewrite spliceStart_inside by exact H.
  now rewrite Nat.add_1_r.
Qed.

Lemma splice_insert_length {A : Type} (l : list A) (pos : Z) (c : A) :
  0 <= pos <= Z.of_nat (length l) ->
  length (splice l pos 0 [c]) = S (length l).
Proof.
  intros H. rewrite splice_insert by exact H.
  rewrite length_app. cbn [length]. rewrite length_firstn, length_skipn. lia.
Qed.

Lemma splice_delete_length {A : Type} (l : list A) (pos : Z) :
  0 <= pos < Z.of_nat (length l) ->
  S (length (splice l pos 1 [])) = length l.
Proof.
  intros H. rewrite splice_delete by lia.
  rewrite length_app, length_firstn, length_skipn. lia.
Qed.

(** Deleting the character that was just inserted. *)
Lemma splice_insert_delete {A : Type} (l : list A) (pos : Z) (c : A) :
  0 <= pos <= Z.of_nat (length l) ->
  splice (splice l pos 0 [c]) pos 1 [] = l.
Proof.
  intros H.
  rewrite splice_delete by (rewrite splice_insert_length by exact H; lia).
  rewrite splice_insert by exact H.
  assert (Hn : length (firstn (Z.to_nat pos) l) = Z.to_nat pos)
    by (rewrite length_firstn; lia).
  rewrite firstn_app, Hn, Nat.sub_diag, firstn_O, app_nil_r.
  rewrite firstn_all2 by lia.
  rewrite skipn_app, Hn.
  rewrite (skipn_all2 (n := S (Z.to_nat pos))) by lia.
  replace (S (Z.to_nat pos) - Z.to_nat pos)%nat with 1%nat by lia.
  cbn [skipn app]. apply firstn_skipn.
Qed.

Lemma find_updateFound_other {A : Type} (p q : A -> bool) (f : A -> A) (l : list A) :
  (forall o, q (f o) = q o) -> (forall o, p o = true -> q o = false) ->
  find q (updateFound p f l) = find q l.
Proof.
  intros Hq Hpq. induction l as [|h t IH]; simpl; [reflexivity|].
  destruct (p h) eqn:E; simpl.
  - now rewrite Hq, (Hpq h E).
  - now rewrite IH.
Qed.

(** The splice on the run being edited, seen from [find]. *)
Lemma spliceActive_editing start n items s box :
  editing s box ->
  editing (spliceActive start n items s)
          (setChars (splice (TextBox.chars box) start n items) box)
  /\ rectangles (document (spliceActive start n items s)) = rectangles (document s)
  /\ lines (document (spliceActive start n items s)) = lines (document s)
  /\ forall i, i <> TextBox.id box ->
       find (fun b => TextBox.id b =? i) (textBoxes (document (spliceActive start n items s)))
       = find (fun b => TextBox.id b =? i) (textBoxes (document s)).
Proof.
  unfold editing. intros H.
  pose proof (find_some _ _ H) as [_ Hact].
  unfold spliceActive. cbn [document with_document textBoxes with_textBoxes rectangles lines].
  repeat split.
  - unfold isActiveBox at 1. cbn [activeTextBoxId with_document].
    fold (isActiveBox s).
    apply (find_updateFound (isActiveBox s)
             (fun b => setChars (splice (TextBox.chars b) start n items) b));
      [exact H|exact Hact].
  - intros i Hi. apply find_updateFound_other; [reflexivity|].
    intros o Ho. unfold isActiveBox in *.
    destruct (activeTextBoxId s) as [a|]; [|discriminate].
    apply Z.eqb_eq in Ho, Hact. apply Z.eqb_neq. congruence.
Qed.

(** X12: while a text run is edited with the caret at one of its
    positions, whatever key [handleTextInput] receives, the same run is
    still the one being edited, its length has changed by at most one
    character, the caret is again at one of its positions, and nothing
    else of the document has changed: the rectangles, the lines and every
    text run with another id are as before. *)
Theorem handleTextInput_caret (key : KeyEvent.t) (s : CanvasApp) (box : TextBox.t) :
  editing s box -> caretInRange s box ->
  exists box',
    editing (handleTextInput key s) box'
    /\ caretInRange (handleTextInput key s) box'
    /\ TextBox.id box' = TextBox.id box
    /\ Z.abs (getTextLength box' - getTextLength box) <= 1
    /\ rectangles (document (handleTextInput key s)) = rectangles (document s)
    /\ lines (document (handleTextInput key s)) = lines (document s)
    /\ forall i, i <> TextBox.id box ->
         find (fun b => TextBox.id b =? i) (textBoxes (document (handleTextInput key s)))
         = find (fun b => TextBox.id b =? i) (textBoxes (document s)).
Proof.
  intros Hed Hcaret. unfold caretInRange, getTextLength in *.
  assert (Hkeep : forall s', document s' = document s ->
                             activeTextBoxId s' = activeTextBoxId s ->
                             0 <= textCursorPos s' <= Z.of_nat (length (TextBox.chars box)) ->
            exists box', editing s' box'
              /\ 0 <= textCursorPos s' <= Z.of_nat (length (TextBox.chars box'))
              /\ TextBox.id box' = TextBox.id box
              /\ Z.abs (Z.of_nat (length (TextBox.chars box'))
                        - Z.of_nat (length (TextBox.chars box))) <= 1
              /\ rectangles (document s') = rectangles (document s)
              /\ lines (document s') = lines (document s)
              /\ forall i, i <> TextBox.id box ->
                   find (fun b => TextBox.id b =? i) (textBoxes (document s'))
                   = find (fun b => TextBox.id b =? i) (textBoxes (document s))).
  { intros s' Hd Ha Hc. exists box. unfold editing, isActiveBox in *.
    rewrite Hd, Ha. repeat split; try assumption; try lia. }
  unfold handleTextInput.
  destruct (_ && _ && _); [now apply Hkeep|].
  rewrite Hed. cbv zeta.
  destruct (String.eqb _ "left").
  { destruct (Z.ltb_spec 0 (textCursorPos s)); apply Hkeep; cbn; try reflexivity; lia. }
  destruct (String.eqb _ "right").
  { destruct (Z.ltb_spec (textCursorPos s) (Z.of_nat (length (TextBox.chars box))));
      apply Hkeep; cbn; try reflexivity; lia. }
  destruct (String.eqb _ "home"); [apply Hkeep; cbn; try reflexivity; lia|].
  destruct (String.eqb _ "end"); [apply Hkeep; cbn; try reflexivity; lia|].
  destruct (String.eqb _ "backspace").
  { destruct (Z.ltb_spec 0 (textCursorPos s)); [|apply Hkeep; cbn; try reflexivity; lia].
    destruct (spliceActive_editing (textCursorPos s - 1) 1 [] (saveSnapshot s) box Hed)
      as (He & Hr & Hl & Ho).
    eexists. split; [exact He|].
    pose proof (splice_delete_length (TextBox.chars box) (textCursorPos s - 1) ltac:(lia)).
    cbn [textCursorPos with_textCursorPos document TextBox.chars TextBox.id setChars].
    repeat split; try assumption; lia. }
  destruct (String.eqb _ "delete").
  { destruct (Z.ltb_spec (textCursorPos s) (Z.of_nat (length (TextBox.chars box))));
      [|apply Hkeep; cbn; try reflexivity; lia].
    destruct (spliceActive_editing (textCursorPos s) 1 [] (saveSnapshot s) box Hed)
      as (He & Hr & Hl & Ho).
    eexists. split; [exact He|].
    pose proof (splice_delete_length (TextBox.chars box) (textCursorPos s) ltac:(lia)).
    cbn [textCursorPos with_textCursorPos document TextBox.chars TextBox.id setChars].
    change (textCursorPos (spliceActive (textCursorPos s) 1 [] (saveSnapshot s)))
      with (textCursorPos s).
    repeat split; try assumption; lia. }
  destruct (_ && _ && _); [|apply Hkeep; cbn; try reflexivity; lia].
  match goal with
  | |- context [spliceActive ?p 0 [?c] _] =>
      destruct (spliceActive_editing p 0 [c] (saveSnapshot s) box Hed)
        as (He & Hr & Hl & Ho);
      pose proof (splice_insert_length (TextBox.chars box) p c ltac:(lia))
  end.
  eexists. split; [exact He|].
  cbn [textCursorPos with_textCursorPos document TextBox.chars TextBox.id setChars].
  repeat split; try assumption; lia.
Qed.

Lemma handleTextInput_caret_witness :
  exists box',
    editing (handleTextInput (letterKey "x") editingApp) box'
    /\ caretInRange (handleTextInput (letterKey "x") editingApp) box'
    /\ TextBox.id box' = 1
    /\ Z.abs (getTextLength box' - 2) <= 1.
Proof.
  destruct (handleTextInput_caret (letterKey "x") editingApp
              (TextBox.mk 1 2 2 [TextChar.mk "a" false white; TextChar.mk "b" false white]
                          1 white None))
    as (box' & H1 & H2 & H3 & H4 & _).
  - reflexivity.
  - unfold caretInRange. cbn. lia.
  - exists box'. exact (conj H1 (conj H2 (conj H3 H4))).
Defined.

Lemma updateFound_back_found {A : Type} (p : A -> bool) (f g : A -> A) (l : list A) o :
  find p l = Some o -> p (f o) = true -> g (f o) = o ->
  updateFound p g (updateFound p f l) = l.
Proof.
  intros Hfind Hp Hgf. induction l as [|h t IH]; simpl in *; [discriminate|].
  destruct (p h) eqn:E; simpl.
  - injection Hfind as ->. now rewrite Hp, Hgf.
  - rewrite E. f_equal. now apply IH.
Qed.

(** X13: a typed character is inserted at the caret, in the current bold
    mode and stroke colour, and the caret moves behind it; [backspace]
    right after it leaves the document and the caret as they were before
    the character was typed, wherever in the run the caret stood. *)
Theorem type_then_backspace (key back : KeyEvent.t) (s : CanvasApp) (box : TextBox.t) :
  editing s box -> caretInRange s box ->
  typesCharacter key = true ->
  KeyEvent.name back = "backspace"%string ->
  editing (handleTextInput key s)
    (setChars (firstn (Z.to_nat (textCursorPos s)) (TextBox.chars box)
               ++ TextChar.mk (KeyEvent.sequence key) (boldMode (style s))
                              (currentStrokeColor (style s))
                  :: skipn (Z.to_nat (textCursorPos s)) (TextBox.chars box))
              box)
  /\ textCursorPos (handleTextInput key s) = textCursorPos s + 1
  /\ document (handleTextInput back (handleTextInput key s)) = document s
  /\ textCursorPos (handleTextInput back (handleTextInput key s)) = textCursorPos s.
Proof.
  intros Hed Hcaret Hkey Hback. unfold caretInRange, getTextLength in Hcaret.
  unfold typesCharacter in Hkey.
  apply andb_true_iff in Hkey. destruct Hkey as [Hkey Hmeta].
  apply andb_true_iff in Hkey. destruct Hkey as [Hkey Hctrl].
  apply andb_true_iff in Hkey. destruct Hkey as [Hname Hprint].
  apply negb_true_iff in Hname, Hctrl, Hmeta.
  cbn [existsb] in Hname.
  repeat (apply orb_false_iff in Hname; destruct Hname as [? Hname]).
  set (newChar := TextChar.mk (KeyEvent.sequence key) (boldMode (style s))
                              (currentStrokeColor (style s))).
  assert (Htyped : handleTextInput key s
                   = with_textCursorPos (textCursorPos s + 1)
                       (spliceActive (textCursorPos s) 0 [newChar] (saveSnapshot s))).
  { unfold handleTextInput. rewrite Hctrl, andb_false_r. cbn [andb].
    rewrite Hed. cbv zeta.
    repeat match goal with
           | H : String.eqb _ _ = false |- _ => rewrite H; clear H
           end.
    now rewrite Hprint, Hmeta. }
  destruct (spliceActive_editing (textCursorPos s) 0 [newChar] (saveSnapshot s) box Hed)
    as (He & _).
  rewrite splice_insert in He by exact Hcaret.
  rewrite Htyped.
  set (typed := with_textCursorPos _ _) in *.
  assert (He' : editing typed
                  (setChars (firstn (Z.to_nat (textCursorPos s)) (TextBox.chars box)
                             ++ newChar :: skipn (Z.to_nat (textCursorPos s))
                                                 (TextBox.chars box)) box))
    by exact He.
  split; [exact He'|]. split; [reflexivity|].
  assert (Hb : handleTextInput back typed
               = with_textCursorPos (textCursorPos typed - 1)
                   (spliceActive (textCursorPos typed - 1) 1 [] (saveSnapshot typed))).
  { unfold handleTextInput. rewrite Hback. cbn [String.eqb Ascii.eqb Bool.eqb andb].
    rewrite He'. cbv zeta.
    destruct (Z.ltb_spec 0 (textCursorPos typed)); [reflexivity|].
    subst typed. cbn in *. lia. }
  rewrite Hb. split.
  - subst typed. unfold spliceActive.
    cbn [document with_document with_textCursorPos textCursorPos saveSnapshot
         with_redoStack with_historyStack textBoxes with_textBoxes rectangles lines
         nextTextBoxId nextRectId nextLineId nextZIndex activeTextBoxId].
    unfold isActiveBox at 1.
    cbn [activeTextBoxId with_document with_textCursorPos saveSnapshot
         with_redoStack with_historyStack].
    fold (isActiveBox s).
    rewrite (updateFound_back_found (isActiveBox s) _ _ _ box Hed).
    + now destruct (document s).
    + apply find_some in Hed. apply Hed.
    + cbn [TextBox.chars setChars].
      replace (textCursorPos s + 1 - 1) with (textCursorPos s) by lia.
      rewrite splice_insert_delete by exact Hcaret. now destruct box.
  - subst typed. cbn. lia.
Qed.

Lemma type_then_backspace_witness :
  document (handleTextInput (namedKey "backspace")
              (handleTextInput (letterKey "x") editingApp))
  = document editingApp
  /\ textCursorPos (handleTextInput (namedKey "backspace")
                      (handleTextInput (letterKey "x") editingApp)) = 1.
Proof.
  destruct (type_then_backspace (letterKey "x") (namedKey "backspace") editingApp
              (TextBox.mk 1 2 2 [TextChar.mk "a" false white; TextChar.mk "b" false white]
                          1 white None))
    as (_ & _ & H3 & H4).
  - reflexivity.
  - unfold caretInRange. cbn. lia.
  - reflexivity.
  - reflexivity.
  - exact (conj H3 H4).
Defined.

(** ** Edits and undo steps *)

(** The snapshot that [saveSnapshot] pushes is on top also when the oldest
    entry is dropped. *)
Lemma saveSnapshot_top s :
  exists front, historyStack (saveSnapshot s) = front ++ [document s].
Proof.
  rewrite saveSnapshot_historyStack.
  destruct (Nat.ltb_spec (length (historyStack s)) MAX_HISTORY) as [Hlt|Hge].
  - now exists (historyStack s).
  - destruct (historyStack s) as [|h t]; [unfold MAX_HISTORY in Hge; simpl in Hge; lia|].
    now exists t.
Qed.

Lemma undo_after_snapshot s s' :
  oneSnapshot s s' -> document (undo s') = document s.
Proof.
  intros [Hh _]. destruct (saveSnapshot_top s) as [front Hf].
  rewrite Hf in Hh. now destruct (undo_reads s' front (document s) Hh).
Qed.

Lemma setTool_history tool s :
  historyStack (setTool tool s) = historyStack s
  /\ redoStack (setTool tool s) = redoStack s.
Proof.
  unfold setTool, commitActiveTextBox.
  destruct (activeTextBoxId s); destruct tool; split; reflexivity.
Qed.

Lemma commitRectangle_history s :
  (sameHistory s (commitRectangle s)
   /\ rectangles (document (commitRectangle s)) = rectangles (document s))
  \/ oneSnapshot s (commitRectangle s).
Proof.
  unfold commitRectangle, sameHistory, oneSnapshot.
  destruct (negb (isDrawingRect (gesture s))); [left; repeat split|].
  cbv zeta.
  destruct (_ || _);
    match goal with
    | |- context [setTool ToolMove ?x] =>
        destruct (setTool_history ToolMove x) as [-> ->]
    end.
  - right. split; reflexivity.
  - left. repeat split. now rewrite setTool_rectangles.
Qed.

Lemma commitLine_history s :
  (sameHistory s (commitLine s) /\ lines (document (commitLine s)) = lines (document s))
  \/ oneSnapshot s (commitLine s).
Proof.
  unfold commitLine, sameHistory, oneSnapshot.
  destruct (negb (isDrawingLine (gesture s))); [left; repeat split|].
  cbv zeta.
  destruct (_ || _);
    match goal with
    | |- context [setTool ToolMove ?x] =>
        destruct (setTool_history ToolMove x) as [-> ->]
    end.
  - right. split; reflexivity.
  - left. repeat split.
    unfold setTool, commitActiveTextBox. cbn.
    destruct (activeTextBoxId s); reflexivity.
Qed.

Lemma handleTextInput_history key s :
  (sameHistory s (handleTextInput key s)
   /\ document (handleTextInput key s) = document s)
  \/ oneSnapshot s (handleTextInput key s).
Proof.
  unfold handleTextInput, sameHistory, oneSnapshot.
  destruct (_ && _ && _); [left; repeat split|].
  destruct (find _ _); [|left; repeat split].
  cbv zeta.
  repeat match goal with
         | |- context [if ?c then _ else _] => destruct c
         end;
    try (left; repeat split; fail); right; split; reflexivity.
Qed.

Lemma handleDeleteKey_history s :
  (sameHistory s (handleDeleteKey s) /\ document (handleDeleteKey s) = document s)
  \/ oneSnapshot s (handleDeleteKey s).
Proof.
  unfold handleDeleteKey, sameHistory, oneSnapshot.
  destruct (hasSelection s); [right; split; reflexivity|].
  destruct (hoveredTextBoxId (hover s)); [right; split; reflexivity|].
  destruct (hoveredRectId (hover s)); [right; split; reflexivity|].
  destruct (hoveredLineId (hover s)); [right; split; reflexivity|].
  left. repeat split.
Qed.

Lemma moveLayer_history s :
  ((sameHistory s (moveLayerUp s) /\ document (moveLayerUp s) = document s)
   \/ oneSnapshot s (moveLayerUp s))
  /\ ((sameHistory s (moveLayerDown s) /\ document (moveLayerDown s) = document s)
      \/ oneSnapshot s (moveLayerDown s)).
Proof.
  unfold moveLayerUp, moveLayerDown, sameHistory, oneSnapshot.
  destruct (getSelectedObject s); [|split; left; repeat split].
  cbv zeta. split.
  - destruct (_ <=? _); [left; repeat split|right; split; reflexivity].
  - destruct (_ <=? _); [left; repeat split|right; split; reflexivity].
Qed.

Lemma applyColor_history s :
  ((sameHistory s (applyStrokeColorToSelection s)
    /\ document (applyStrokeColorToSelection s) = document s)
   \/ oneSnapshot s (applyStrokeColorToSelection s))
  /\ ((sameHistory s (applyFillColorToSelection s)
       /\ document (applyFillColorToSelection s) = document s)
      \/ oneSnapshot s (applyFillColorToSelection s)).
Proof.
  unfold applyStrokeColorToSelection, applyFillColorToSelection, sameHistory, oneSnapshot.
  destruct (negb (hasSelection s)); split;
    try (left; repeat split; fail); right; split; reflexivity.
Qed.

(** Leaving an active text run drops it when it is empty, and changes
    nothing else of the document. *)
Lemma commitActiveTextBox_document s :
  document (commitActiveTextBox s) = document s
  \/ droppedEmptyRun s (document (commitActiveTextBox s)).
Proof.
  unfold droppedEmptyRun, commitActiveTextBox.
  destruct (activeTextBoxId s) as [active|] eqn:Ha; [|now left].
  destruct (find _ (textBoxes (document s))) as [box|] eqn:Hf.
  - destruct (getTextLength box =? 0) eqn:Hl.
    + right. exists active, box.
      split; [reflexivity|]. split; [exact Hf|]. split; [|reflexivity].
      apply Z.eqb_eq in Hl. unfold getTextLength in Hl.
      destruct (TextBox.chars box); [reflexivity|discriminate].
    + left. cbn. now destruct (document s).
  - left. cbn. now destruct (document s).
Qed.

Lemma setTool_document tool s :
  document (setTool tool s) = document (commitActiveTextBox s).
Proof.
  unfold setTool, commitActiveTextBox.
  destruct (activeTextBoxId s); destruct tool; reflexivity.
Qed.

(** The end of a draw gesture that created nothing. *)
Lemma setTool_after_draw (g : Gesture) s :
  document (setTool ToolMove (with_gesture g s)) = document s
  \/ droppedEmptyRun s (document (setTool ToolMove (with_gesture g s))).
Proof.
  rewrite setTool_document.
  exact (commitActiveTextBox_document (with_gesture g s)).
Qed.

Lemma commitRectangle_course s :
  (sameHistory s (commitRectangle s)
   /\ (document (commitRectangle s) = document s
       \/ droppedEmptyRun s (document (commitRectangle s))))
  \/ oneSnapshot s (commitRectangle s).
Proof.
  unfold commitRectangle.
  destruct (negb (isDrawingRect (gesture s)));
    [left; split; [split; reflexivity|now left]|].
  cbv zeta.
  destruct (_ || _).
  - right. unfold oneSnapshot.
    match goal with
    | |- context [setTool ToolMove ?x] =>
        destruct (setTool_history ToolMove x) as [-> ->]
    end.
    split; reflexivity.
  - left. split; [|apply setTool_after_draw].
    unfold sameHistory.
    match goal with
    | |- context [setTool ToolMove ?x] =>
        destruct (setTool_history ToolMove x) as [-> ->]
    end.
    split; reflexivity.
Qed.

Lemma commitLine_course s :
  (sameHistory s (commitLine s)
   /\ (document (commitLine s) = document s
       \/ droppedEmptyRun s (document (commitLine s))))
  \/ oneSnapshot s (commitLine s).
Proof.
  unfold commitLine.
  destruct (negb (isDrawingLine (gesture s)));
    [left; split; [split; reflexivity|now left]|].
  cbv zeta.
  destruct (_ || _).
  - right. unfold oneSnapshot.
    match goal with
    | |- context [setTool ToolMove ?x] =>
        destruct (setTool_history ToolMove x) as [-> ->]
    end.
    split; reflexivity.
  - left. split; [|apply setTool_after_draw].
    unfold sameHistory.
    match goal with
    | |- context [setTool ToolMove ?x] =>
        destruct (setTool_history ToolMove x) as [-> ->]
    end.
    split; reflexivity.
Qed.

(** X14: every edit takes its snapshot before it changes anything: an edit
    either leaves both stacks and the document alone, or it has emptied the
    redo stack and one [undo] brings back the document from before the
    edit, at any depth of the undo stack, the capped one included.  This
    holds for each key of the text editor, for the deletion of the selected
    or hovered entities, for the commit of a drawn rectangle or line, for
    the two layer moves and for the two colour assignments.  The one change
    of the document that no snapshot precedes is made by the commit of a
    rectangle or a line without extent, which leaves the active text run
    and drops it when it is empty. *)
Theorem edits_are_undoable (e : Edit) (s : CanvasApp) :
  (sameHistory s (runEdit e s)
   /\ (document (runEdit e s) = document s
       \/ ((e = EditCommitRectangle \/ e = EditCommitLine)
           /\ droppedEmptyRun s (document (runEdit e s)))))
  \/ (oneSnapshot s (runEdit e s) /\ document (undo (runEdit e s)) = document s).
Proof.
  assert (Hright : forall s', oneSnapshot s s' ->
                     oneSnapshot s s' /\ document (undo s') = document s)
    by (intros s' H; split; [exact H|now apply undo_after_snapshot]).
  destruct e; cbn [runEdit].
  - destruct (handleTextInput_history key s) as [[H Hd]|H]; [left; auto|right; auto].
  - destruct (handleDeleteKey_history s) as [[H Hd]|H]; [left; auto|right; auto].
  - destruct (commitRectangle_course s) as [[H [Hd|Hd]]|H];
      [left; auto|left; split; [exact H|right; auto]|right; auto].
  - destruct (commitLine_course s) as [[H [Hd|Hd]]|H];
      [left; auto|left; split; [exact H|right; auto]|right; auto].
  - destruct (moveLayer_history s) as [[[H Hd]|H] _]; [left; auto|right; auto].
  - destruct (moveLayer_history s) as [_ [[H Hd]|H]]; [left; auto|right; auto].
  - destruct (applyColor_history s) as [[[H Hd]|H] _]; [left; auto|right; auto].
  - destruct (applyColor_history s) as [_ [[H Hd]|H]]; [left; auto|right; auto].
Qed.

(** ** Mouse gestures *)

Lemma oneSnapshot_after s t t' :
  sameHistory s t -> document t = document s -> oneSnapshot t t' -> oneSnapshot s t'.
Proof.
  intros [Hh _] Hd [Hh' Hr']. split; [|exact Hr'].
  rewrite Hh', !saveSnapshot_historyStack, Hh, Hd. reflexivity.
Qed.

Lemma handleColorPickerClick_course x y s :
  gesture (snd (handleColorPickerClick x y s)) = gesture s
  /\ activeTextBoxId (snd (handleColorPickerClick x y s)) = activeTextBoxId s
  /\ ((sameHistory s (snd (handleColorPickerClick x y s))
       /\ document (snd (handleColorPickerClick x y s)) = document s)
      \/ oneSnapshot s (snd (handleColorPickerClick x y s))).
Proof.
  unfold handleColorPickerClick. cbv zeta.
  destruct (_ || _); [cbn; repeat split; left; repeat split|].
  destruct (_ && _ && _ && _).
  - cbn [snd]. unfold applyStrokeColorToSelection, sameHistory, oneSnapshot.
    destruct (negb (hasSelection _)); cbn; repeat split;
      try (left; repeat split; fail); right; split; reflexivity.
  - destruct (_ && _ && _ && _); [|cbn; repeat split; left; repeat split].
    cbn [snd]. unfold applyFillColorToSelection, sameHistory, oneSnapshot.
    destruct (negb (hasSelection _)); cbn; repeat split;
      try (left; repeat split; fail); right; split; reflexivity.
Qed.

Lemma handleMouseDown_course x y shiftHeld s :
  idle s ->
  grabbed s (handleMouseDown x y shiftHeld s)
  \/ tracking s (handleMouseDown x y shiftHeld s).
Proof.
  intros (Hact & Hdr & Hdl & Hsel & Hpend & Hdrag & Hres).
  unfold handleMouseDown.
  destruct (gridHeight s <=? y).
  { right. unfold tracking, sameHistory. repeat split; auto. }
  pose proof (handleColorPickerClick_course x y s) as (Hg & Ha & Hc).
  destruct (handleColorPickerClick x y s) as [handled s1]. cbn [snd] in *.
  destruct handled.
  { destruct Hc as [[Hsame Hdoc]|Hone].
    - right. unfold tracking. rewrite Hg, Ha. repeat split; try apply Hsame; auto.
    - left. unfold grabbed. rewrite Hg. repeat split; try apply Hone; auto. }
  clear s1 Hg Ha Hc. rewrite Hact.
  destruct (isToolMove (currentTool (gesture s))) eqn:Htool.
  - unfold handleMouseDownMove. cbv zeta.
    match goal with
    | |- context [match ?h with Some _ => _ | None => _ end] =>
        destruct h as [handle|]
    end.
    { left. unfold grabbed, oneSnapshot. cbn. repeat split; assumption. }
    unfold beginDrag, clickSelect, selectTextBox, selectRect, selectLine.
    repeat match goal with
           | |- context [match ?o with Some _ => _ | None => _ end] => destruct o
           | |- context [if ?c then _ else _] => destruct c
           end;
      cbn;
      first [ left; unfold grabbed, oneSnapshot; cbn; repeat split; assumption
            | right; unfold tracking, sameHistory; cbn; repeat split; auto ].
  - unfold handleMouseDownDraw. cbv zeta.
    change (gesture (clearSelection s)) with (gesture s).
    destruct (currentTool (gesture s)); try discriminate.
    + destruct (getTextBoxAt x y (clearSelection s)).
      * right. unfold tracking, sameHistory. cbn. repeat split; auto.
      * left. unfold grabbed, oneSnapshot. cbn. repeat split; assumption.
    + right. unfold tracking, sameHistory. cbn. repeat split; auto.
    + right. unfold tracking, sameHistory. cbn. repeat split; auto.
Qed.

Lemma resizeRect_course id x y t :
  historyStack (resizeRect id x y t) = historyStack t
  /\ redoStack (resizeRect id x y t) = redoStack t
  /\ gesture (resizeRect id x y t) = gesture t.
Proof.
  unfold resizeRect.
  destruct (find _ _); [|repeat split].
  destruct (resizeHandle (gesture t)); repeat split.
Qed.

Lemma handleMouseDrag_course x y s t :
  (grabbed s t -> grabbed s (handleMouseDrag x y t))
  /\ (tracking s t -> tracking s (handleMouseDrag x y t)).
Proof.
  split.
  - intros ([Hh Hr] & Hdr & Hdl & Hsel & Hpend).
    unfold handleMouseDrag.
    destruct (gridHeight t <=? y); [repeat split; assumption|].
    cbv zeta.
    destruct (negb (x =? mouseDownX (gesture t)) || negb (y =? mouseDownY (gesture t)));
      cbn -[moveSelection resizeRect saveSnapshot];
      rewrite ?Hpend, ?Hdr, ?Hdl, ?Hsel; cbn -[moveSelection resizeRect saveSnapshot];
      rewrite ?Hpend, ?Hdr, ?Hdl, ?Hsel; cbn [orb];
      (destruct (isDraggingSelection (gesture t));
       [unfold grabbed, oneSnapshot; cbn -[saveSnapshot]; repeat split; assumption|]);
      (destruct (isResizingRect (gesture t)); [|repeat split; assumption]);
      (destruct (selectedRectIds _); [repeat split; assumption|]);
      match goal with
      | |- grabbed _ (resizeRect ?i ?a ?b ?u) =>
          destruct (resizeRect_course i a b u) as (H1 & H2 & H3)
      end;
      unfold grabbed, oneSnapshot; rewrite H1, H2, H3; repeat split; assumption.
  - intros ([Hh Hr] & Hd & Hdrag & Hres & Hact).
    unfold handleMouseDrag.
    destruct (gridHeight t <=? y); [repeat split; assumption|].
    cbv zeta.
    destruct (negb (x =? mouseDownX (gesture t)) || negb (y =? mouseDownY (gesture t)));
      cbn; rewrite ?Hdrag, ?Hres;
      repeat match goal with
             | |- context [if ?c then _ else _] => destruct c eqn:?
             end;
      try (cbn in *; congruence);
      unfold tracking, sameHistory; cbn; repeat split; assumption.
Qed.

Lemma handleMouseUp_course x y s t :
  (grabbed s t -> oneSnapshot s (handleMouseUp x y t))
  /\ (tracking s t ->
      (sameHistory s (handleMouseUp x y t) /\ document (handleMouseUp x y t) = document s)
      \/ oneSnapshot s (handleMouseUp x y t)).
Proof.
  split.
  - intros ([Hh Hr] & Hdr & Hdl & Hsel & Hpend).
    unfold handleMouseUp.
    destruct (gridHeight t <=? y); [split; assumption|].
    rewrite Hdr. cbv zeta. rewrite Hdl, Hsel.
    repeat match goal with
           | |- context [match ?o with Some _ => _ | None => _ end] => destruct o
           | |- context [match ?l with [] => _ | _ :: _ => _ end] => destruct l
           | |- context [if ?c then _ else _] => destruct c
           end;
      split; assumption.
  - intros (Hsame & Hd & Hdrag & Hres & Hact).
    unfold handleMouseUp.
    destruct (gridHeight t <=? y); [left; split; assumption|].
    cbv zeta.
    assert (Htail : forall u,
               (sameHistory s u /\ document u = document s) \/ oneSnapshot s u ->
               let u4 :=
                 if clickedOnSelectedTextBox (gesture u) && negb (hasDragged (gesture u))
                 then
                   match selectedTextBoxIds (selection u) with
                   | [textBoxId] =>
                       match find (fun b => TextBox.id b =? textBoxId)
                                  (textBoxes (document u)) with
                       | Some textBox =>
                           clearSelection
                             (with_textCursorPos
                                (Z.min (x - TextBox.x textBox) (getTextLength textBox))
                                (with_activeTextBoxId (Some (TextBox.id textBox)) u))
                       | None => u
                       end
                   | _ => u
                   end
                 else u in
               (sameHistory s (with_gesture (endGesture (gesture u4)) u4)
                /\ document (with_gesture (endGesture (gesture u4)) u4) = document s)
               \/ oneSnapshot s (with_gesture (endGesture (gesture u4)) u4)).
    { intros u Hu. cbv zeta.
      repeat match goal with
             | |- context [match ?o with Some _ => _ | None => _ end] => destruct o
             | |- context [match ?l with [] => _ | _ :: _ => _ end] => destruct l
             | |- context [if ?c then _ else _] => destruct c
             end;
        exact Hu. }
    destruct (isDrawingRect (gesture t)) eqn:Hdr.
    + (* a rectangle is committed; the tool change resets the other flags *)
      destruct Hact as [Hact|[? _]]; [|congruence].
      match goal with
      | |- context [commitRectangle ?u] => set (t1 := u)
      end.
      assert (H1 : isDrawingLine (gesture (commitRectangle t1)) = false
                   /\ isSelecting (gesture (commitRectangle t1)) = false
                   /\ ((sameHistory t (commitRectangle t1)
                        /\ document (commitRectangle t1) = document t)
                       \/ oneSnapshot t (commitRectangle t1))).
      { unfold commitRectangle, setTool, sameHistory, oneSnapshot.
        subst t1. cbn [gesture with_gesture isDrawingRect set_drawCursor].
        rewrite Hdr. cbn [negb]. cbv zeta.
        destruct (_ || _); cbn; rewrite Hact; cbn; repeat split;
          try (left; repeat split; fail); right; split; reflexivity. }
      destruct H1 as (Hl1 & Hs1 & H1).
      rewrite Hl1, Hs1. apply Htail.
      destruct H1 as [[Hsame1 Hd1]|Hone1].
      * left. destruct Hsame, Hsame1. unfold sameHistory. repeat split; congruence.
      * right. now apply (oneSnapshot_after s t).
    + destruct (isDrawingLine (gesture t)) eqn:Hdl.
      * destruct Hact as [Hact|[_ ?]]; [|congruence].
        match goal with
        | |- context [commitLine ?u] => set (t1 := u)
        end.
        assert (H1 : isSelecting (gesture (commitLine t1)) = false
                     /\ ((sameHistory t (commitLine t1)
                          /\ document (commitLine t1) = document t)
                         \/ oneSnapshot t (commitLine t1))).
        { unfold commitLine, setTool, sameHistory, oneSnapshot.
          subst t1. cbn [gesture with_gesture isDrawingLine set_drawCursor].
          rewrite Hdl. cbn [negb]. cbv zeta.
          destruct (_ || _); cbn; rewrite Hact; cbn; repeat split;
            try (left; repeat split; fail); right; split; reflexivity. }
        destruct H1 as (Hs1 & H1).
        rewrite Hs1. apply Htail.
        destruct H1 as [[Hsame1 Hd1]|Hone1].
        -- left. destruct Hsame, Hsame1. unfold sameHistory. repeat split; congruence.
        -- right. now apply (oneSnapshot_after s t).
      * destruct (isSelecting (gesture t)) eqn:Hsel; [|apply Htail; left; split; assumption].
        apply Htail. left.
        match goal with
        | |- context [commitSelection ?u] => set (t1 := u)
        end.
        assert (H1 : historyStack (commitSelection t1) = historyStack t
                     /\ redoStack (commitSelection t1) = redoStack t
                     /\ document (commitSelection t1) = document t).
        { unfold commitSelection. subst t1.
          cbn [gesture with_gesture isSelecting set_drawCursor].
          rewrite Hsel. cbn [negb]. cbv zeta.
          cbn [historyStack redoStack document with_gesture].
          set (P := fun u => historyStack u = historyStack t
                             /\ redoStack u = redoStack t /\ document u = document t).
          assert (Hfold : forall (A : Type) (f : CanvasApp -> A -> CanvasApp) l u,
                     (forall v a, P v -> P (f v a)) -> P u -> P (fold_left f l u)).
          { intros A f l. induction l as [|a l IH]; intros u Hf Hu; [exact Hu|].
            simpl. apply IH; [exact Hf|now apply Hf]. }
          apply Hfold; [|apply Hfold; [|apply Hfold; [|repeat split]]];
            intros v a Hv; cbv zeta;
            destruct (isIntersecting _ _ _ _ _ _ _ _); exact Hv. }
        destruct H1 as (Hh1 & Hr1 & Hd1). destruct Hsame.
        unfold sameHistory. repeat split; congruence.
Qed.

(** X15: a whole mouse gesture is at most one undo step.  From a state in
    which no gesture is under way and no text is being edited, a press
    anywhere, with or without shift, any path of drags and the release
    anywhere either leave the document and both stacks alone, or leave a
    state from which one [undo] brings back the document from before the
    press.  This covers moving and resizing (the snapshot is taken at the
    press, the document changes during the drags), drawing a rectangle or a
    line (the snapshot is taken at the release), the marquee, the colour
    picker and the creation of a text run. *)
Theorem mouse_gesture_one_undo (x y : Z) (shiftHeld : bool) (path : list (Z * Z))
    (ux uy : Z) (s : CanvasApp) :
  idle s ->
  (sameHistory s (mouseGesture x y shiftHeld path ux uy s)
   /\ document (mouseGesture x y shiftHeld path ux uy s) = document s)
  \/ (oneSnapshot s (mouseGesture x y shiftHeld path ux uy s)
      /\ document (undo (mouseGesture x y shiftHeld path ux uy s)) = document s).
Proof.
  intros Hidle. unfold mouseGesture.
  assert (Hpath : forall t,
             (grabbed s t ->
              grabbed s (fold_left (fun s p => handleMouseDrag (fst p) (snd p) s) path t))
             /\ (tracking s t ->
                 tracking s (fold_left (fun s p => handleMouseDrag (fst p) (snd p) s)
                                       path t))).
  { induction path as [|p path IH]; intros t; [split; trivial|].
    simpl. destruct (IH (handleMouseDrag (fst p) (snd p) t)) as [IHg IHt].
    destruct (handleMouseDrag_course (fst p) (snd p) s t) as [Hg Ht].
    split; auto. }
  destruct (handleMouseDown_course x y shiftHeld s Hidle) as [Hg|Ht].
  - right. apply Hpath in Hg.
    apply (proj1 (handleMouseUp_course ux uy s _)) in Hg.
    split; [exact Hg|now apply undo_after_snapshot].
  - apply Hpath in Ht.
    destruct (proj2 (handleMouseUp_course ux uy s _) Ht) as [H|H]; [now left|].
    right. split; [exact H|now apply undo_after_snapshot].
Qed.

Lemma mouse_gesture_one_undo_witness :
  oneSnapshot layeredApp (mouseGesture 1 1 false [(0, 0)] 0 0 layeredApp)
  /\ document (undo (mouseGesture 1 1 false [(0, 0)] 0 0 layeredApp)) = layeredDocument.
Proof.
  destruct (mouse_gesture_one_undo 1 1 false [(0, 0)] 0 0 layeredApp) as [[[H _] _]|H].
  - unfold idle. cbn. repeat split.
  - vm_compute in H. discriminate H.
  - exact H.
Defined.

(** ** Deleting *)

Lemma filterAll_spec {T : Type} (getId : T -> Z) (ids : list Z) : forall (l : list T),
  fold_left (fun l id => filter (fun o => negb (getId o =? id)) l) ids l
  = filter (fun o => negb (setHas (getId o) ids)) l.
Proof.
  induction ids as [|i ids IH]; intros l; simpl.
  - unfold setHas. simpl. induction l as [|h t IHl]; simpl; [reflexivity|].
    now rewrite <- IHl.
  - rewrite IH. clear IH. induction l as [|h t IHl]; simpl; [reflexivity|].
    unfold setHas in *. simpl.
    destruct (getId h =? i); simpl; [exact IHl|].
    destruct (existsb (Z.eqb (getId h)) ids); simpl; [exact IHl|].
    now rewrite IHl.
Qed.

(** X16: with a selection, the [delete] key removes exactly the selected
    entities: what is left of each collection is, in the same order, the
    entities whose id is not selected (so an entity of every kind survives
    exactly when its id is not selected, and no survivor is altered); the
    counters are kept, so that no id or z-index is handed out again; the
    selection is empty afterwards, and one [undo] brings the deleted
    entities back. *)
Theorem handleDeleteKey_selection (s : CanvasApp) :
  hasSelection s = true ->
  let sel := selection s in
  let d := document s in
  let d' := document (handleDeleteKey s) in
  textBoxes d'
  = filter (fun b => negb (setHas (TextBox.id b) (selectedTextBoxIds sel))) (textBoxes d)
  /\ rectangles d'
     = filter (fun r => negb (setHas (Rectangle.id r) (selectedRectIds sel))) (rectangles d)
  /\ lines d'
     = filter (fun l => negb (setHas (Line.id l) (selectedLineIds sel))) (lines d)
  /\ (nextTextBoxId d', nextRectId d', nextLineId d', nextZIndex d')
     = (nextTextBoxId d, nextRectId d, nextLineId d, nextZIndex d)
  /\ hasSelection (handleDeleteKey s) = false
  /\ document (undo (handleDeleteKey s)) = d.
Proof.
  intros Hsel sel d d'. subst d'. unfold handleDeleteKey. rewrite Hsel.
  cbn [document with_document clearSelection with_selection textBoxes rectangles lines
       with_lines with_rectangles with_textBoxes nextTextBoxId nextRectId nextLineId
       nextZIndex saveSnapshot with_redoStack with_historyStack selection].
  rewrite !filterAll_spec.
  repeat split.
  apply undo_after_snapshot. split; reflexivity.
Qed.

Lemma handleDeleteKey_selection_witness :
  rectangles (document (handleDeleteKey layeredApp)) = []
  /\ lines (document (handleDeleteKey layeredApp)) = lines layeredDocument
  /\ document (undo (handleDeleteKey layeredApp)) = layeredDocument.
Proof.
  destruct (handleDeleteKey_selection layeredApp) as (_ & H2 & H3 & _ & _ & H6).
  - reflexivity.
  - exact (conj H2 (conj H3 H6)).
Defined.

(** ** Numbering *)

Lemma map_updateFound {A B : Type} (g : A -> B) (p : A -> bool) (f : A -> A) l :
  (forall o, g (f o) = g o) -> map g (updateFound p f l) = map g l.
Proof.
  intros H. induction l as [|h t IH]; simpl; [reflexivity|].
  destruct (p h); simpl; [now rewrite H|now rewrite IH].
Qed.

Lemma map_updateAll {A B : Type} (g : A -> B) (p : Z -> A -> bool) (f : A -> A) ids :
  forall l, (forall o, g (f o) = g o) ->
  map g (fold_left (fun l id => updateFound (p id) f l) ids l) = map g l.
Proof.
  induction ids as [|i ids IH]; intros l H; simpl; [reflexivity|].
  rewrite IH by exact H. now apply map_updateFound.
Qed.

Lemma NoDup_map_filter {A : Type} (g : A -> Z) (p : A -> bool) l :
  NoDup (map g l) -> NoDup (map g (filter p l)).
Proof.
  induction l as [|h t IH]; simpl; intros Hnd; [constructor|].
  apply NoDup_cons_iff in Hnd. destruct Hnd as [Hh Hnd].
  destruct (p h); simpl; [|now apply IH].
  constructor; [|now apply IH].
  intros Hin. apply Hh. apply in_map_iff in Hin. destruct Hin as [o [Ho Hin]].
  apply filter_In in Hin. rewrite <- Ho. apply in_map. apply Hin.
Qed.

Lemma Forall_map_filter {A : Type} (g : A -> Z) (p : A -> bool) (P : Z -> Prop) l :
  Forall P (map g l) -> Forall P (map g (filter p l)).
Proof.
  induction l as [|h t IH]; simpl; intros H; [constructor|].
  apply Forall_cons_iff in H. destruct H as [Hh Ht].
  destruct (p h); simpl; [constructor|]; auto.
Qed.

(** Thinning the head of an append keeps it free of duplicates. *)
Lemma NoDup_filter_app {A : Type} (g : A -> Z) (p : A -> bool) l (Y Y' : list Z) :
  NoDup (map g l ++ Y) -> NoDup Y' -> (forall y, In y Y' -> In y Y) ->
  NoDup (map g (filter p l) ++ Y').
Proof.
  intros Hnd HY' Hsub. induction l as [|h t IH]; simpl in *; [exact HY'|].
  apply NoDup_cons_iff in Hnd. destruct Hnd as [Hh Hnd].
  destruct (p h); simpl; [|now apply IH].
  constructor; [|now apply IH].
  intros Hin. apply Hh. apply in_app_iff in Hin. apply in_app_iff.
  destruct Hin as [Hin|Hin]; [left|right; now apply Hsub].
  apply in_map_iff in Hin. destruct Hin as [o [Ho Hin]].
  apply filter_In in Hin. rewrite <- Ho. apply in_map. apply Hin.
Qed.

Lemma in_map_filter {A : Type} (g : A -> Z) (p : A -> bool) l z :
  In z (map g (filter p l)) -> In z (map g l).
Proof.
  intros Hin. apply in_map_iff in Hin. destruct Hin as [o [Ho Hin]].
  apply filter_In in Hin. rewrite <- Ho. apply in_map. apply Hin.
Qed.

(** The entities keep their ids, the z-indices are shuffled at most, the
    counters stay. *)
Lemma wellNumbered_relabel d d' :
  map TextBox.id (textBoxes d') = map TextBox.id (textBoxes d) ->
  map Rectangle.id (rectangles d') = map Rectangle.id (rectangles d) ->
  map Line.id (lines d') = map Line.id (lines d) ->
  Permutation (zIndicesOf d) (zIndicesOf d') ->
  nextTextBoxId d' = nextTextBoxId d -> nextRectId d' = nextRectId d ->
  nextLineId d' = nextLineId d -> nextZIndex d' = nextZIndex d ->
  wellNumbered d -> wellNumbered d'.
Proof.
  intros Ht Hr Hl Hz H1 H2 H3 H4 (W1 & W2 & W3 & W4 & W5 & W6 & W7 & W8).
  unfold wellNumbered. rewrite Ht, Hr, Hl, H1, H2, H3, H4.
  repeat split; try assumption.
  - now apply (Permutation_NoDup Hz).
  - now apply (Permutation_Forall Hz).
Qed.

(** Entities are removed, nothing else changes. *)
Lemma wellNumbered_thinned d kT kR kL :
  wellNumbered d ->
  wellNumbered
    (mkSnapshot (filter kT (textBoxes d)) (filter kR (rectangles d)) (filter kL (lines d))
                (nextTextBoxId d) (nextRectId d) (nextLineId d) (nextZIndex d)).
Proof.
  intros (W1 & W2 & W3 & W4 & W5 & W6 & W7 & W8).
  unfold wellNumbered, zIndicesOf in *.
  cbn [textBoxes rectangles lines nextTextBoxId nextRectId nextLineId nextZIndex].
  repeat split; try (now apply NoDup_map_filter); try (now apply Forall_map_filter).
  - apply NoDup_filter_app with (Y := map Rectangle.zIndex (rectangles d)
                                      ++ map Line.zIndex (lines d)); [exact W4| |].
    + apply NoDup_app_remove_l in W4.
      apply NoDup_filter_app with (Y := map Line.zIndex (lines d)); [exact W4| |].
      * apply NoDup_app_remove_l in W4. now apply NoDup_map_filter.
      * intros y. apply in_map_filter.
    + intros y Hy. apply in_app_iff in Hy. apply in_app_iff.
      destruct Hy as [Hy|Hy]; [left|right]; now apply in_map_filter in Hy.
  - rewrite !Forall_app in *. destruct W8 as (Wa & Wb & Wc).
    repeat split; now apply Forall_map_filter.
Qed.

Lemma Forall_below_succ (n : Z) l :
  Forall (fun i => i < n) l -> Forall (fun i => i < n + 1) l.
Proof. apply Forall_impl. intros; lia. Qed.

Lemma NoDup_snoc_fresh (n : Z) l :
  NoDup l -> Forall (fun i => i < n) l -> NoDup (l ++ [n]).
Proof.
  intros Hnd Hlt. apply (Permutation_NoDup (l := n :: l)).
  - apply Permutation_cons_append.
  - constructor; [|exact Hnd].
    intros Hin. rewrite Forall_forall in Hlt. specialize (Hlt n Hin). lia.
Qed.

Lemma Forall_snoc_fresh (n : Z) l :
  Forall (fun i => i < n) l -> Forall (fun i => i < n + 1) (l ++ [n]).
Proof.
  intros H. apply Forall_app. split; [now apply Forall_below_succ|].
  constructor; [lia|constructor].
Qed.

(** A new entity takes the next id of its kind and the next z-index. *)
Lemma wellNumbered_created d :
  wellNumbered d ->
  (forall box, TextBox.id box = nextTextBoxId d -> TextBox.zIndex box = nextZIndex d ->
     wellNumbered (mkSnapshot (push (textBoxes d) box) (rectangles d) (lines d)
                              (nextTextBoxId d + 1) (nextRectId d) (nextLineId d)
                              (nextZIndex d + 1)))
  /\ (forall rect, Rectangle.id rect = nextRectId d ->
        Rectangle.zIndex rect = nextZIndex d ->
        wellNumbered (mkSnapshot (textBoxes d) (push (rectangles d) rect) (lines d)
                                 (nextTextBoxId d) (nextRectId d + 1) (nextLineId d)
                                 (nextZIndex d + 1)))
  /\ (forall line, Line.id line = nextLineId d -> Line.zIndex line = nextZIndex d ->
        wellNumbered (mkSnapshot (textBoxes d) (rectangles d) (push (lines d) line)
                                 (nextTextBoxId d) (nextRectId d) (nextLineId d + 1)
                                 (nextZIndex d + 1))).
Proof.
  intros (W1 & W2 & W3 & W4 & W5 & W6 & W7 & W8).
  unfold wellNumbered, zIndicesOf, push in *.
  cbn [textBoxes rectangles lines nextTextBoxId nextRectId nextLineId nextZIndex].
  split; [|split]; intros o Hid Hz; rewrite !map_app; cbn [map]; rewrite Hid, Hz;
    repeat split; try assumption;
    try (now apply NoDup_snoc_fresh); try (now apply Forall_snoc_fresh).
  - apply (Permutation_NoDup
             (l := (map TextBox.zIndex (textBoxes d) ++ map Rectangle.zIndex (rectangles d)
                    ++ map Line.zIndex (lines d)) ++ [nextZIndex d]));
      [|now apply NoDup_snoc_fresh].
    rewrite <- !app_assoc. apply Permutation_app_head.
    rewrite app_assoc. apply Permutation_app_comm.
  - apply (Permutation_Forall
             (x := (map TextBox.zIndex (textBoxes d) ++ map Rectangle.zIndex (rectangles d)
                    ++ map Line.zIndex (lines d)) ++ [nextZIndex d]));
      [|now apply Forall_snoc_fresh].
    rewrite <- !app_assoc. apply Permutation_app_head.
    rewrite app_assoc. apply Permutation_app_comm.
  - apply (Permutation_NoDup
             (l := (map TextBox.zIndex (textBoxes d) ++ map Rectangle.zIndex (rectangles d)
                    ++ map Line.zIndex (lines d)) ++ [nextZIndex d]));
      [|now apply NoDup_snoc_fresh].
    rewrite <- !app_assoc. do 2 apply Permutation_app_head.
    apply Permutation_app_comm.
  - apply (Permutation_Forall
             (x := (map TextBox.zIndex (textBoxes d) ++ map Rectangle.zIndex (rectangles d)
                    ++ map Line.zIndex (lines d)) ++ [nextZIndex d]));
      [|now apply Forall_snoc_fresh].
    rewrite <- !app_assoc. do 2 apply Permutation_app_head.
    apply Permutation_app_comm.
  - rewrite !app_assoc. rewrite <- !app_assoc. rewrite !app_assoc.
    apply NoDup_snoc_fresh; rewrite <- ?app_assoc; assumption.
  - rewrite !app_assoc. apply Forall_snoc_fresh. rewrite <- ?app_assoc. assumption.
Qed.

Lemma filter_all {A : Type} (l : list A) : filter (fun _ => true) l = l.
Proof. induction l as [|h t IH]; simpl; [reflexivity|now rewrite IH]. Qed.

Lemma wellNumbered_thinned_one d :
  wellNumbered d ->
  (forall k, wellNumbered (with_textBoxes (filter k (textBoxes d)) d))
  /\ (forall k, wellNumbered (with_rectangles (filter k (rectangles d)) d))
  /\ (forall k, wellNumbered (with_lines (filter k (lines d)) d)).
Proof.
  intros W. split; [|split]; intros k.
  - pose proof (wellNumbered_thinned d k (fun _ => true) (fun _ => true) W) as H.
    now rewrite !filter_all in H.
  - pose proof (wellNumbered_thinned d (fun _ => true) k (fun _ => true) W) as H.
    now rewrite !filter_all in H.
  - pose proof (wellNumbered_thinned d (fun _ => true) (fun _ => true) k W) as H.
    now rewrite !filter_all in H.
Qed.

(** *** The stacks *)

Lemma Forall_tl {A : Type} (P : A -> Prop) l : Forall P l -> Forall P (tl l).
Proof. intros H. destruct H; [constructor|assumption]. Qed.

Lemma wellNumberedApp_same s s' :
  document s' = document s -> historyStack s' = historyStack s ->
  redoStack s' = redoStack s ->
  wellNumberedApp s -> wellNumberedApp s'.
Proof. unfold wellNumberedApp. now intros -> -> ->. Qed.

Lemma saveSnapshot_keeps s : wellNumberedApp s -> wellNumberedApp (saveSnapshot s).
Proof.
  intros (Hd & Hh & Hr). split; [exact Hd|]. split; [|constructor].
  rewrite saveSnapshot_historyStack.
  assert (Forall wellNumbered (historyStack s ++ [document s]))
    by (apply Forall_app; split; [exact Hh|now constructor]).
  destruct (_ <? _)%nat; [assumption|now apply Forall_tl].
Qed.

Lemma wellNumberedApp_via s s' :
  wellNumberedApp s -> wellNumbered (document s') ->
  sameHistory s s' \/ oneSnapshot s s' ->
  wellNumberedApp s'.
Proof.
  intros Hs Hd [[Hh Hr]|[Hh Hr]]; unfold wellNumberedApp; rewrite Hh, Hr.
  - destruct Hs as (_ & ? & ?). auto.
  - apply saveSnapshot_keeps in Hs. destruct Hs as (_ & ? & _).
    split; [assumption|split; [assumption|constructor]].
Qed.

Lemma undo_keeps s : wellNumberedApp s -> wellNumberedApp (undo s).
Proof.
  intros (Hd & Hh & Hr).
  destruct (historyStack s) as [|h0 hs] eqn:E.
  - rewrite undo_empty by exact E. split; [assumption|split; [now rewrite E|assumption]].
  - assert (Hne : historyStack s <> []) by (rewrite E; discriminate).
    destruct (pop_nonempty _ Hne) as (front & top & Hpush & _).
    rewrite (undo_nonempty s front top Hpush).
    rewrite <- E, Hpush in Hh. unfold push in Hh. apply Forall_app in Hh.
    destruct Hh as [Hfront Htop]. apply Forall_cons_iff in Htop.
    split; [apply Htop|split; [exact Hfront|]]. cbn.
    unfold push. apply Forall_app. split; [exact Hr|now constructor].
Qed.

Lemma redo_keeps s : wellNumberedApp s -> wellNumberedApp (redo s).
Proof.
  intros (Hd & Hh & Hr).
  destruct (redoStack s) as [|h0 hs] eqn:E.
  - rewrite redo_empty by exact E. split; [assumption|split; [assumption|now rewrite E]].
  - assert (Hne : redoStack s <> []) by (rewrite E; discriminate).
    destruct (pop_nonempty _ Hne) as (front & top & Hpush & _).
    rewrite (redo_nonempty s front top Hpush).
    rewrite <- E, Hpush in Hr. unfold push in Hr. apply Forall_app in Hr.
    destruct Hr as [Hfront Htop]. apply Forall_cons_iff in Htop.
    split; [apply Htop|split; [|exact Hfront]]. cbn.
    unfold push. apply Forall_app. split; [exact Hh|now constructor].
Qed.

(** *** The operations that keep every id and z-index *)

Lemma moveSelection_keeps dx dy s :
  wellNumberedApp s -> wellNumberedApp (moveSelection dx dy s).
Proof.
  intros Hs. apply (wellNumberedApp_via s _ Hs); [|left; split; reflexivity].
  destruct Hs as (Hd & _).
  apply (wellNumbered_relabel (document s)); try reflexivity; try exact Hd;
    unfold moveSelection, zIndicesOf; cbn;
    rewrite ?(map_updateAll _ (fun id o => _ o =? id)) by reflexivity; reflexivity.
Qed.

Lemma resizeRect_keeps id x y s :
  wellNumberedApp s -> wellNumberedApp (resizeRect id x y s).
Proof.
  intros Hs. unfold resizeRect.
  destruct (find _ _); [|exact Hs].
  destruct (resizeHandle (gesture s)) as [handle|]; [|exact Hs].
  apply (wellNumberedApp_via s _ Hs); [|left; split; reflexivity].
  destruct Hs as (Hd & _).
  apply (wellNumbered_relabel (document s)); try reflexivity; try exact Hd;
    unfold zIndicesOf; cbn;
    rewrite ?map_updateFound by (intros; destruct handle; reflexivity); reflexivity.
Qed.

Lemma applyColor_keeps s :
  wellNumberedApp s ->
  wellNumberedApp (applyStrokeColorToSelection s)
  /\ wellNumberedApp (applyFillColorToSelection s).
Proof.
  intros Hs. unfold applyStrokeColorToSelection, applyFillColorToSelection.
  destruct (negb (hasSelection s)); [split; exact Hs|].
  split; (apply (wellNumberedApp_via s _ Hs); [|right; split; reflexivity]);
    destruct Hs as (Hd & _);
    apply (wellNumbered_relabel (document s)); try reflexivity; try exact Hd;
    unfold zIndicesOf; cbn;
    rewrite ?(map_updateAll _ (fun id o => _ o =? id)) by reflexivity; reflexivity.
Qed.

Lemma spliceActive_numbering start n items s :
  wellNumbered (document s) -> wellNumbered (document (spliceActive start n items s)).
Proof.
  intros Hd.
  apply (wellNumbered_relabel (document s)); try reflexivity; try exact Hd;
    unfold spliceActive, zIndicesOf; cbn;
    rewrite ?map_updateFound by reflexivity; reflexivity.
Qed.

Lemma handleTextInput_keeps key s :
  wellNumberedApp s -> wellNumberedApp (handleTextInput key s).
Proof.
  intros Hs.
  pose proof (saveSnapshot_keeps s Hs) as Hsnap.
  assert (Hsplice : forall start n items p,
             wellNumberedApp
               (with_textCursorPos p (spliceActive start n items (saveSnapshot s)))
             /\ wellNumberedApp (spliceActive start n items (saveSnapshot s))).
  { intros start n items p.
    pose proof (spliceActive_numbering start n items (saveSnapshot s) (proj1 Hsnap)) as Hd.
    split; (apply (wellNumberedApp_via s _ Hs); [exact Hd|right; split; reflexivity]). }
  unfold handleTextInput.
  destruct (_ && _ && _); [exact Hs|].
  destruct (find _ _); [|exact Hs].
  cbv zeta.
  repeat match goal with
         | |- context [if ?c then _ else _] => destruct c
         end;
    first [ exact Hs
          | apply (proj1 (Hsplice _ _ _ _))
          | apply (proj2 (Hsplice _ _ _ 0))
          | now apply (wellNumberedApp_same s) ].
Qed.

(** *** Deleting *)

Lemma commitActiveTextBox_keeps s :
  wellNumberedApp s -> wellNumberedApp (commitActiveTextBox s).
Proof.
  intros Hs. unfold commitActiveTextBox.
  destruct (activeTextBoxId s) as [active|]; [|exact Hs].
  apply (wellNumberedApp_via s _ Hs); [|left; split; reflexivity].
  destruct Hs as (Hd & _). cbn.
  destruct (find _ _) as [box|]; [destruct (getTextLength box =? 0)|].
  - now apply wellNumbered_thinned_one.
  - now destruct (document s).
  - now destruct (document s).
Qed.

Lemma setTool_keeps tool s : wellNumberedApp s -> wellNumberedApp (setTool tool s).
Proof.
  intros Hs. unfold setTool.
  assert (H1 : wellNumberedApp match activeTextBoxId s with
                               | Some _ => commitActiveTextBox s
                               | None => s
                               end)
    by (destruct (activeTextBoxId s); [now apply commitActiveTextBox_keeps|exact Hs]).
  destruct tool; cbv zeta; exact H1.
Qed.

Lemma deleteEntity_keeps id s :
  wellNumberedApp s ->
  wellNumberedApp (deleteTextBox id s)
  /\ wellNumberedApp (deleteRect id s)
  /\ wellNumberedApp (deleteLine id s).
Proof.
  intros Hs. pose proof (proj1 Hs) as Hd.
  split; [|split]; (apply (wellNumberedApp_via s _ Hs); [|right; split; reflexivity]); cbn;
    now apply wellNumbered_thinned_one.
Qed.

Lemma handleDeleteKey_keeps s : wellNumberedApp s -> wellNumberedApp (handleDeleteKey s).
Proof.
  intros Hs. unfold handleDeleteKey.
  destruct (hasSelection s).
  - apply (wellNumberedApp_via s _ Hs); [|right; split; reflexivity].
    cbn. rewrite !filterAll_spec.
    apply (wellNumbered_thinned (document s)). apply Hs.
  - destruct (hoveredTextBoxId (hover s)); [now apply deleteEntity_keeps|].
    destruct (hoveredRectId (hover s)); [now apply deleteEntity_keeps|].
    destruct (hoveredLineId (hover s)); [now apply deleteEntity_keeps|exact Hs].
Qed.

(** *** Creating *)

Lemma commitRectangle_keeps s : wellNumberedApp s -> wellNumberedApp (commitRectangle s).
Proof.
  intros Hs. unfold commitRectangle.
  destruct (negb (isDrawingRect (gesture s))); [exact Hs|].
  cbv zeta. apply setTool_keeps.
  destruct (_ || _); [|exact Hs].
  apply (wellNumberedApp_via s _ Hs); [|right; split; reflexivity].
  cbn. now apply (wellNumbered_created (document s) (proj1 Hs)).
Qed.

Lemma commitLine_keeps s : wellNumberedApp s -> wellNumberedApp (commitLine s).
Proof.
  intros Hs. unfold commitLine.
  destruct (negb (isDrawingLine (gesture s))); [exact Hs|].
  cbv zeta. apply setTool_keeps.
  destruct (_ || _); [|exact Hs].
  apply (wellNumberedApp_via s _ Hs); [|right; split; reflexivity].
  cbn. now apply (wellNumbered_created (document s) (proj1 Hs)).
Qed.

(** *** Layer moves *)

(** Past the guards of [moveLayerUp] and [moveLayerDown], the entry next to
    the selected z-index is another z-index of the document. *)
Lemma sorted_neighbour_member zs a :
  NoDup zs -> In a zs ->
  let sorted := sortAscending zs in
  let currentIndex := indexOf a sorted in
  (currentIndex < Z.of_nat (length sorted) - 1 ->
   In (at_ sorted (currentIndex + 1)) zs /\ at_ sorted (currentIndex + 1) <> a)
  /\ (0 < currentIndex ->
      In (at_ sorted (currentIndex - 1)) zs /\ at_ sorted (currentIndex - 1) <> a).
Proof.
  intros Hnd Hin sorted currentIndex.
  assert (Hnds : NoDup sorted)
    by (eapply Permutation_NoDup; [apply sortAscending_perm|exact Hnd]).
  assert (Hins : In a sorted) by (now apply sorted_members).
  destruct (indexOfFrom_split a sorted 0 Hins) as (before & after & Heq & _ & Hidx).
  fold (indexOf a sorted) in Hidx. fold currentIndex in Hidx.
  rewrite Heq in Hnds. rewrite Heq, Hidx. cbn [Z.add].
  split; intros Hguard.
  - destruct after as [|b rest].
    + rewrite length_app in Hguard. cbn [length] in Hguard. lia.
    + replace (before ++ a :: b :: rest) with ((before ++ [a]) ++ b :: rest)
        by (now rewrite <- app_assoc).
      replace (Z.of_nat (length before) + 1) with (Z.of_nat (length (before ++ [a])))
        by (rewrite length_app; cbn [length]; lia).
      rewrite at_middle. split.
      * apply sorted_members. fold sorted. rewrite Heq.
        apply in_or_app. right. right. now left.
      * intros ->. apply NoDup_remove_2 in Hnds. apply Hnds.
        apply in_or_app. right. now left.
  - destruct (exists_last (l := before)) as (front & c & ->).
    { intros ->. cbn in Hguard. lia. }
    rewrite length_app. cbn [length].
    replace (Z.of_nat (length front + 1) - 1) with (Z.of_nat (length front)) by lia.
    rewrite <- !app_assoc. cbn [app]. rewrite at_middle. split.
    + apply sorted_members. fold sorted. rewrite Heq.
      apply in_or_app. left. apply in_or_app. right. now left.
    + intros ->. apply NoDup_remove_2 in Hnds. apply Hnds.
      apply in_or_app. left. apply in_or_app. right. now left.
Qed.

Lemma exchange_ids {T : Type} (getId getZ : T -> Z) (setZ : Z -> T -> T) a b l :
  (forall z e, getId (setZ z e) = getId e) ->
  map getId (exchange getZ setZ a b l) = map getId l.
Proof.
  intros H. unfold exchange. rewrite map_map. apply map_ext. intros e. apply H.
Qed.

Lemma swapZIndex_keeps s selected b :
  wellNumberedApp s ->
  getSelectedObject s = Some selected ->
  In b (zIndicesOf (document s)) -> b <> SelectedObject.zIndex selected ->
  wellNumberedApp (swapZIndex selected b s).
Proof.
  intros Hs Hsel Hb Hne.
  apply (wellNumberedApp_via s _ Hs);
    [|right; split; unfold swapZIndex; destruct (SelectedObject.type selected);
      reflexivity].
  destruct Hs as (Hd & _).
  pose proof Hd as (_ & _ & _ & Hnd & _).
  destruct (swapZIndex_summary s selected b Hnd Hsel Hb Hne)
    as ((Ht & Hr & Hl & H1 & H2 & H3 & H4) & _ & Hperm & _).
  apply (wellNumbered_relabel (document s)); try assumption.
  - rewrite Ht. now apply exchange_ids.
  - rewrite Hr. now apply exchange_ids.
  - rewrite Hl. now apply exchange_ids.
  - now symmetry.
Qed.

Lemma moveLayer_keeps s :
  wellNumberedApp s -> wellNumberedApp (moveLayerUp s) /\ wellNumberedApp (moveLayerDown s).
Proof.
  intros Hs. unfold moveLayerUp, moveLayerDown.
  destruct (getSelectedObject s) as [selected|] eqn:Hsel; [|split; exact Hs].
  pose proof (getSelectedObject_member s selected Hsel) as Ha.
  pose proof Hs as ((_ & _ & _ & Hnd & _) & _).
  destruct (sorted_neighbour_member _ _ Hnd Ha) as [Hup Hdown].
  cbv zeta in *. unfold getAllZIndices. split.
  - destruct (Z.leb_spec (Z.of_nat (length (sortAscending (zIndicesOf (document s)))) - 1)
                         (indexOf (SelectedObject.zIndex selected)
                                  (sortAscending (zIndicesOf (document s)))));
      [exact Hs|].
    apply swapZIndex_keeps; try assumption; now apply Hup.
  - destruct (Z.leb_spec (indexOf (SelectedObject.zIndex selected)
                                  (sortAscending (zIndicesOf (document s)))) 0);
      [exact Hs|].
    apply swapZIndex_keeps; try assumption; now apply Hdown.
Qed.

Lemma runEdit_keeps e s : wellNumberedApp s -> wellNumberedApp (runEdit e s).
Proof.
  intros Hs. destruct e; cbn [runEdit].
  - now apply handleTextInput_keeps.
  - now apply handleDeleteKey_keeps.
  - now apply commitRectangle_keeps.
  - now apply commitLine_keeps.
  - now apply moveLayer_keeps.
  - now apply moveLayer_keeps.
  - now apply applyColor_keeps.
  - now apply applyColor_keeps.
Qed.

(** *** Mouse events *)

Lemma commitSelection_content s :
  document (commitSelection s) = document s
  /\ historyStack (commitSelection s) = historyStack s
  /\ redoStack (commitSelection s) = redoStack s.
Proof.
  unfold commitSelection.
  destruct (negb (isSelecting (gesture s))); [repeat split|].
  cbv zeta. cbn [historyStack redoStack document with_gesture].
  set (P := fun u => document u = document s
                     /\ historyStack u = historyStack s /\ redoStack u = redoStack s).
  assert (Hfold : forall (A : Type) (f : CanvasApp -> A -> CanvasApp) l u,
             (forall v a, P v -> P (f v a)) -> P u -> P (fold_left f l u)).
  { intros A f l. induction l as [|a l IH]; intros u Hf Hu; [exact Hu|].
    simpl. apply IH; [exact Hf|now apply Hf]. }
  apply Hfold; [|apply Hfold; [|apply Hfold; [|repeat split]]];
    intros v a Hv; cbv zeta;
    destruct (isIntersecting _ _ _ _ _ _ _ _); exact Hv.
Qed.

Lemma updateHover_content x y s :
  document (updateHover x y s) = document s
  /\ historyStack (updateHover x y s) = historyStack s
  /\ redoStack (updateHover x y s) = redoStack s.
Proof.
  unfold updateHover.
  destruct (negb _); [repeat split|]. cbv zeta.
  match goal with
  | |- context [match ?h with Some _ => _ | None => _ end] => destruct h
  end; [repeat split|].
  destruct (highestType _ _ _) as [[]|]; repeat split.
Qed.

Lemma handleColorPickerClick_keeps x y s :
  wellNumberedApp s -> wellNumberedApp (snd (handleColorPickerClick x y s)).
Proof.
  intros Hs. unfold handleColorPickerClick. cbv zeta.
  destruct (_ || _); [exact Hs|].
  destruct (_ && _ && _ && _); [now apply applyColor_keeps|].
  destruct (_ && _ && _ && _); [now apply applyColor_keeps|exact Hs].
Qed.

Lemma handleMouseDownMove_keeps x y shiftHeld s :
  wellNumberedApp s -> wellNumberedApp (handleMouseDownMove x y shiftHeld s).
Proof.
  intros Hs. unfold handleMouseDownMove. cbv zeta.
  match goal with
  | |- context [match ?h with Some _ => _ | None => _ end] => destruct h as [handle|]
  end.
  { apply (wellNumberedApp_via s _ Hs); [apply Hs|right; split; reflexivity]. }
  unfold beginDrag, clickSelect, selectTextBox, selectRect, selectLine.
  repeat match goal with
         | |- context [match ?o with Some _ => _ | None => _ end] => destruct o
         | |- context [if ?c then _ else _] => destruct c
         end;
    (apply (wellNumberedApp_via s _ Hs);
     [apply Hs|first [left; split; reflexivity|right; split; reflexivity]]).
Qed.

Lemma handleMouseDownDraw_keeps x y s :
  wellNumberedApp s -> wellNumberedApp (handleMouseDownDraw x y s).
Proof.
  intros Hs. unfold handleMouseDownDraw. cbv zeta.
  change (gesture (clearSelection s)) with (gesture s).
  destruct (currentTool (gesture s)); try exact Hs.
  destruct (getTextBoxAt x y (clearSelection s)).
  - now apply (wellNumberedApp_same s).
  - apply (wellNumberedApp_via s _ Hs); [|right; split; reflexivity].
    cbn. now apply (wellNumbered_created (document s) (proj1 Hs)).
Qed.

Lemma handleMouseDown_keeps x y shiftHeld s :
  wellNumberedApp s -> wellNumberedApp (handleMouseDown x y shiftHeld s).
Proof.
  intros Hs. unfold handleMouseDown.
  destruct (gridHeight s <=? y); [exact Hs|].
  pose proof (handleColorPickerClick_keeps x y s Hs) as Hc.
  destruct (handleColorPickerClick x y s) as [handled s1]. cbn [snd] in Hc.
  destruct handled; [exact Hc|]. clear s1 Hc.
  match goal with
  | |- context [match ?o with Some activeBox => with_textCursorPos _ _ | None => _ end] =>
      destruct o
  end; [now apply (wellNumberedApp_same s)|].
  match goal with
  | |- context [if isToolMove (currentTool (gesture ?u)) then _ else _] =>
      assert (Hu : wellNumberedApp u)
        by (destruct (activeTextBoxId s);
            [apply setTool_keeps; now apply commitActiveTextBox_keeps|exact Hs]);
      destruct (isToolMove (currentTool (gesture u)))
  end.
  - now apply handleMouseDownMove_keeps.
  - now apply handleMouseDownDraw_keeps.
Qed.

Lemma handleMouseDrag_keeps x y s :
  wellNumberedApp s -> wellNumberedApp (handleMouseDrag x y s).
Proof.
  intros Hs. unfold handleMouseDrag.
  destruct (gridHeight s <=? y); [exact Hs|].
  cbv zeta.
  match goal with
  | |- context [isDraggingSelection (gesture ?u)] =>
      assert (Hu : wellNumberedApp u)
        by (repeat match goal with
                   | |- context [if ?c then _ else _] => destruct c
                   end; now apply (wellNumberedApp_same s));
      set (u' := u) in *
  end.
  clearbody u'. rename u' into u.
  destruct (isDraggingSelection (gesture u)).
  - apply (wellNumberedApp_same (moveSelection (x - dragStartX (gesture u))
                                               (y - dragStartY (gesture u)) u));
      try reflexivity. now apply moveSelection_keeps.
  - destruct (isResizingRect (gesture u)).
    + destruct (selectedRectIds (selection u)); [exact Hu|now apply resizeRect_keeps].
    + destruct (_ || _ || _); [now apply (wellNumberedApp_same u)|exact Hu].
Qed.

Lemma handleMouseUp_keeps x y s :
  wellNumberedApp s -> wellNumberedApp (handleMouseUp x y s).
Proof.
  intros Hs. unfold handleMouseUp.
  destruct (gridHeight s <=? y); [exact Hs|].
  cbv zeta.
  match goal with
  | |- context [isDrawingLine (gesture ?u)] =>
      assert (H1 : wellNumberedApp u)
        by (destruct (isDrawingRect (gesture s));
            [apply commitRectangle_keeps; now apply (wellNumberedApp_same s)|exact Hs]);
      set (s1 := u) in *
  end.
  clearbody s1.
  match goal with
  | |- context [isSelecting (gesture ?u)] =>
      assert (H2 : wellNumberedApp u)
        by (destruct (isDrawingLine (gesture s1));
            [apply commitLine_keeps; now apply (wellNumberedApp_same s1)|exact H1]);
      set (s2 := u) in *
  end.
  clearbody s2.
  match goal with
  | |- context [clickedOnSelectedTextBox (gesture ?u)] =>
      assert (H3 : wellNumberedApp u); [|set (s3 := u) in *]
  end.
  { destruct (isSelecting (gesture s2)); [|exact H2].
    match goal with
    | |- wellNumberedApp (commitSelection ?u) =>
        destruct (commitSelection_content u) as (Hd & Hh & Hr);
        apply (wellNumberedApp_same s2); [rewrite Hd|rewrite Hh|rewrite Hr|exact H2];
        reflexivity
    end. }
  clearbody s3.
  repeat match goal with
         | |- context [match ?o with Some _ => _ | None => _ end] => destruct o
         | |- context [match ?l with [] => _ | _ :: _ => _ end] => destruct l
         | |- context [if ?c then _ else _] => destruct c
         end;
    now apply (wellNumberedApp_same s3).
Qed.

Lemma runCommand_keeps c s : wellNumberedApp s -> wellNumberedApp (runCommand c s).
Proof.
  intros Hs. destruct c; cbn [runCommand].
  - now apply runEdit_keeps.
  - now apply handleMouseDown_keeps.
  - now apply handleMouseDrag_keeps.
  - now apply handleMouseUp_keeps.
  - unfold handleMouseMove. destruct (gridHeight s <=? y); [exact Hs|].
    destruct (updateHover_content x y s) as (Hd & Hh & Hr).
    now apply (wellNumberedApp_same s).
  - now apply (wellNumberedApp_same s).
  - unfold handleEscapeKey. destruct (activeTextBoxId s).
    + apply setTool_keeps. now apply commitActiveTextBox_keeps.
    + destruct (isDrawingRect (gesture s)); [now apply (wellNumberedApp_same s)|].
      destruct (isDrawingLine (gesture s)); [now apply (wellNumberedApp_same s)|exact Hs].
  - now apply setTool_keeps.
  - now apply undo_keeps.
  - now apply redo_keeps.
Qed.

(** X17: every state that the editor reaches from its initial state by
    edits, mouse events, resizes of the terminal, tool changes, [escape],
    [undo] and [redo], in any number and order, is well numbered, and so is every snapshot on its two
    stacks: the ids of each kind are pairwise distinct and below the
    counter of the kind, and the z-indices of all the entities are pairwise
    distinct and below [nextZIndex].  In particular the layer moves always
    find the z-indices of the document pairwise distinct. *)
Theorem reachable_states_well_numbered (w h : Z) (cs : list Command) :
  wellNumberedApp (runCommands cs (initialApp w h))
  /\ NoDup (zIndicesOf (document (runCommands cs (initialApp w h)))).
Proof.
  assert (H : wellNumberedApp (runCommands cs (initialApp w h))).
  { unfold runCommands.
    assert (Hinit : wellNumberedApp (initialApp w h)).
    { unfold wellNumberedApp, wellNumbered. cbn.
      repeat split; constructor. }
    generalize dependent (initialApp w h). induction cs as [|c cs IH]; intros s Hs.
    - exact Hs.
    - simpl. apply IH. now apply runCommand_keeps. }
  split; [exact H|]. apply H.
Qed.

(** ** An abandoned text run *)

Lemma handleColorPickerClick_unhandled x y s :
  fst (handleColorPickerClick x y s) = false ->
  handleColorPickerClick x y s = (false, s).
Proof.
  unfold handleColorPickerClick. cbv zeta.
  destruct (_ || _); [reflexivity|].
  destruct (_ && _ && _ && _); [discriminate|].
  destruct (_ && _ && _ && _); [discriminate|reflexivity].
Qed.

Lemma find_fresh {A : Type} (getId : A -> Z) (n : Z) (l : list A) (o : A) :
  Forall (fun i => i < n) (map getId l) -> getId o = n ->
  find (fun e => getId e =? n) (l ++ [o]) = Some o
  /\ filter (fun e => negb (getId e =? n)) (l ++ [o]) = l.
Proof.
  intros Hlt Ho. induction l as [|h t IH]; simpl in *.
  - rewrite Ho, Z.eqb_refl. now split.
  - apply Forall_cons_iff in Hlt. destruct Hlt as [Hh Ht].
    destruct (Z.eqb_spec (getId h) n) as [E|E]; [lia|].
    destruct (IH Ht) as [IH1 IH2]. simpl. now rewrite IH1, IH2.
Qed.




(** ** Hovering and pressing *)

(** What is hovered qualifies: it is on a handle of the single selected
    rectangle, or it is the topmost hit. *)
Lemma updateHover_sound (x y : Z) (s : CanvasApp) :
  let h := hover (updateHover x y s) in
  (isToolMove (currentTool (gesture s)) = false -> h = mkHover None None None)
  /\ (forall i, hoveredTextBoxId h = Some i ->
        hoveredRectId h = None /\ hoveredLineId h = None
        /\ exists box,
             getTextBoxAt x y s = Some box /\ TextBox.id box = i
             /\ 0 <= TextBox.zIndex box
             /\ (forall rect, getRectangleAt x y s = Some rect ->
                   Rectangle.zIndex rect <= TextBox.zIndex box)
             /\ (forall line, getLineAt x y s = Some line ->
                   Line.zIndex line <= TextBox.zIndex box))
  /\ (forall i, hoveredRectId h = Some i ->
        hoveredTextBoxId h = None /\ hoveredLineId h = None
        /\ ((selectedRectIds (selection s) = [i] /\ getResizeHandleAt i x y s <> None)
            \/ exists rect,
                 getRectangleAt x y s = Some rect /\ Rectangle.id rect = i
                 /\ 0 <= Rectangle.zIndex rect
                 /\ (forall box, getTextBoxAt x y s = Some box ->
                       TextBox.zIndex box < Rectangle.zIndex rect)
                 /\ (forall line, getLineAt x y s = Some line ->
                       Line.zIndex line <= Rectangle.zIndex rect)))
  /\ (forall i, hoveredLineId h = Some i ->
        hoveredTextBoxId h = None /\ hoveredRectId h = None
        /\ exists line,
             getLineAt x y s = Some line /\ Line.id line = i
             /\ 0 <= Line.zIndex line
             /\ (forall box, getTextBoxAt x y s = Some box ->
                   TextBox.zIndex box < Line.zIndex line)
             /\ (forall rect, getRectangleAt x y s = Some rect ->
                   Rectangle.zIndex rect < Line.zIndex line)).
Proof.
  cbv zeta. unfold updateHover.
  destruct (isToolMove (currentTool (gesture s))); cbn [negb].
  2:{ cbn. split; [reflexivity|]. split; [|split]; intros i Hi; discriminate Hi. }
  split; [discriminate|].
  assert (Hhandle : forall rectId,
             selectedRectIds (selection s) = [rectId] ->
             getResizeHandleAt rectId x y s <> None ->
             let h := mkHover None (Some rectId) None in
             (forall i, hoveredTextBoxId h = Some i -> False)
             /\ (forall i, hoveredRectId h = Some i ->
                   selectedRectIds (selection s) = [i]
                   /\ getResizeHandleAt i x y s <> None)
             /\ (forall i, hoveredLineId h = Some i -> False)).
  { intros rectId Hsel Hh. cbn. split; [|split]; intros i Hi; try discriminate Hi.
    injection Hi as <-. now split. }
  assert (Hfree :
            let h := hover
                       match highestType (getTextBoxAt x y s) (getRectangleAt x y s)
                                         (getLineAt x y s) with
                       | Some TypeText =>
                           with_hover (mkHover (option_map TextBox.id (getTextBoxAt x y s))
                                               None None) s
                       | Some TypeRect =>
                           with_hover (mkHover None
                                         (option_map Rectangle.id (getRectangleAt x y s))
                                         None) s
                       | Some TypeLine =>
                           with_hover (mkHover None None
                                         (option_map Line.id (getLineAt x y s))) s
                       | None => with_hover (mkHover None None None) s
                       end in
            (forall i, hoveredTextBoxId h = Some i ->
               hoveredRectId h = None /\ hoveredLineId h = None
               /\ exists box,
                    getTextBoxAt x y s = Some box /\ TextBox.id box = i
                    /\ 0 <= TextBox.zIndex box
                    /\ (forall rect, getRectangleAt x y s = Some rect ->
                          Rectangle.zIndex rect <= TextBox.zIndex box)
                    /\ (forall line, getLineAt x y s = Some line ->
                          Line.zIndex line <= TextBox.zIndex box))
            /\ (forall i, hoveredRectId h = Some i ->
                  hoveredTextBoxId h = None /\ hoveredLineId h = None
                  /\ exists rect,
                       getRectangleAt x y s = Some rect /\ Rectangle.id rect = i
                       /\ 0 <= Rectangle.zIndex rect
                       /\ (forall box, getTextBoxAt x y s = Some box ->
                             TextBox.zIndex box < Rectangle.zIndex rect)
                       /\ (forall line, getLineAt x y s = Some line ->
                             Line.zIndex line <= Rectangle.zIndex rect))
            /\ (forall i, hoveredLineId h = Some i ->
                  hoveredTextBoxId h = None /\ hoveredRectId h = None
                  /\ exists line,
                       getLineAt x y s = Some line /\ Line.id line = i
                       /\ 0 <= Line.zIndex line
                       /\ (forall box, getTextBoxAt x y s = Some box ->
                             TextBox.zIndex box < Line.zIndex line)
                       /\ (forall rect, getRectangleAt x y s = Some rect ->
                             Rectangle.zIndex rect < Line.zIndex line))).
  { unfold highestType.
    destruct (getTextBoxAt x y s) as [box|];
      destruct (getRectangleAt x y s) as [rect|];
      destruct (getLineAt x y s) as [line|];
      repeat match goal with
             | |- context [?a <? ?b] => destruct (Z.ltb_spec a b)
             end;
      cbn; (split; [|split]); intros i Hi; try discriminate Hi; injection Hi as <-;
      (split; [reflexivity|]); (split; [reflexivity|]);
      eexists; (split; [reflexivity|]); (split; [reflexivity|]); (split; [lia|]);
      split; intros o Ho; try discriminate Ho; injection Ho as <-; lia. }
  cbv zeta in Hhandle, Hfree.
  destruct (selectedRectIds (selection s)) as [|rectId [|]] eqn:Hsel;
    try (destruct Hfree as (H1 & H2 & H3); split; [exact H1|split; [|exact H3]];
         intros i Hi; destruct (H2 i Hi) as (? & ? & ?); auto; fail).
  destruct (negb (isMultiSelection s));
    try (destruct Hfree as (H1 & H2 & H3); split; [exact H1|split; [|exact H3]];
         intros i Hi; destruct (H2 i Hi) as (? & ? & ?); auto; fail).
  destruct (getResizeHandleAt rectId x y s) eqn:Hh;
    try (destruct Hfree as (H1 & H2 & H3); split; [exact H1|split; [|exact H3]];
         intros i Hi; destruct (H2 i Hi) as (? & ? & ?); auto; fail).
  cbn. split; [|split]; intros i Hi; try discriminate Hi.
  injection Hi as <-. split; [reflexivity|]. split; [reflexivity|].
  left. split; [reflexivity|]. rewrite Hh. discriminate.
Qed.

(** X19: what [updateHover] leaves hovered.  Outside the move tool,
    nothing.  With the move tool exactly this: the single selected
    rectangle when the cell is on one of its resize handles, whatever else
    lies at the cell; else the entity whose z-index is greatest among the
    topmost text run, the topmost rectangle and the topmost line at the
    cell, a text run winning a tie against a rectangle or a line and a
    rectangle winning a tie against a line, and only an entity of z-index 0
    or more.  Whatever is hovered is such an entity, and such an entity is
    hovered, alone. *)
Theorem updateHover_topmost (x y : Z) (s : CanvasApp) :
  let h := hover (updateHover x y s) in
  (isToolMove (currentTool (gesture s)) = false -> h = mkHover None None None)
  /\ (forall i, hoveredTextBoxId h = Some i ->
        hoveredRectId h = None /\ hoveredLineId h = None
        /\ exists box,
             getTextBoxAt x y s = Some box /\ TextBox.id box = i
             /\ 0 <= TextBox.zIndex box
             /\ (forall rect, getRectangleAt x y s = Some rect ->
                   Rectangle.zIndex rect <= TextBox.zIndex box)
             /\ (forall line, getLineAt x y s = Some line ->
                   Line.zIndex line <= TextBox.zIndex box))
  /\ (forall i, hoveredRectId h = Some i ->
        hoveredTextBoxId h = None /\ hoveredLineId h = None
        /\ ((selectedRectIds (selection s) = [i] /\ getResizeHandleAt i x y s <> None)
            \/ exists rect,
                 getRectangleAt x y s = Some rect /\ Rectangle.id rect = i
                 /\ 0 <= Rectangle.zIndex rect
                 /\ (forall box, getTextBoxAt x y s = Some box ->
                       TextBox.zIndex box < Rectangle.zIndex rect)
                 /\ (forall line, getLineAt x y s = Some line ->
                       Line.zIndex line <= Rectangle.zIndex rect)))
  /\ (forall i, hoveredLineId h = Some i ->
        hoveredTextBoxId h = None /\ hoveredRectId h = None
        /\ exists line,
             getLineAt x y s = Some line /\ Line.id line = i
             /\ 0 <= Line.zIndex line
             /\ (forall box, getTextBoxAt x y s = Some box ->
                   TextBox.zIndex box < Line.zIndex line)
             /\ (forall rect, getRectangleAt x y s = Some rect ->
                   Rectangle.zIndex rect < Line.zIndex line))
  /\ (isToolMove (currentTool (gesture s)) = true ->
      (forall rectId,
          selectedRectIds (selection s) = [rectId] -> isMultiSelection s = false ->
          getResizeHandleAt rectId x y s <> None ->
          h = mkHover None (Some rectId) None)
      /\ ((forall rectId,
              selectedRectIds (selection s) = [rectId] -> isMultiSelection s = false ->
              getResizeHandleAt rectId x y s = None) ->
          (forall box,
              getTextBoxAt x y s = Some box -> 0 <= TextBox.zIndex box ->
              (forall rect, getRectangleAt x y s = Some rect ->
                 Rectangle.zIndex rect <= TextBox.zIndex box) ->
              (forall line, getLineAt x y s = Some line ->
                 Line.zIndex line <= TextBox.zIndex box) ->
              h = mkHover (Some (TextBox.id box)) None None)
          /\ (forall rect,
                getRectangleAt x y s = Some rect -> 0 <= Rectangle.zIndex rect ->
                (forall box, getTextBoxAt x y s = Some box ->
                   TextBox.zIndex box < Rectangle.zIndex rect) ->
                (forall line, getLineAt x y s = Some line ->
                   Line.zIndex line <= Rectangle.zIndex rect) ->
                h = mkHover None (Some (Rectangle.id rect)) None)
          /\ (forall line,
                getLineAt x y s = Some line -> 0 <= Line.zIndex line ->
                (forall box, getTextBoxAt x y s = Some box ->
                   TextBox.zIndex box < Line.zIndex line) ->
                (forall rect, getRectangleAt x y s = Some rect ->
                   Rectangle.zIndex rect < Line.zIndex line) ->
                h = mkHover None None (Some (Line.id line)))
          /\ ((forall box, getTextBoxAt x y s = Some box -> TextBox.zIndex box < 0) ->
              (forall rect, getRectangleAt x y s = Some rect ->
                 Rectangle.zIndex rect < 0) ->
              (forall line, getLineAt x y s = Some line -> Line.zIndex line < 0) ->
              h = mkHover None None None))).
Proof.
  cbv zeta.
  destruct (updateHover_sound x y s) as (A & B & C & D). cbv zeta in A, B, C, D.
  split; [exact A|]. split; [exact B|]. split; [exact C|]. split; [exact D|].
  clear A B C D. intros Htool. unfold updateHover. rewrite Htool. cbn [negb].
  split.
  - intros rectId Hsel Hmulti Hh. rewrite Hsel, Hmulti. cbn [negb].
    destruct (getResizeHandleAt rectId x y s); [reflexivity|contradiction].
  - intros Hno.
    assert (Hfree :
      match selectedRectIds (selection s) with
      | [rectId] =>
          if negb (isMultiSelection s) then
            match getResizeHandleAt rectId x y s with
            | Some _ => Some rectId
            | None => None
            end
          else None
      | _ => None
      end = None).
    { destruct (selectedRectIds (selection s)) as [|rectId [|]]; try reflexivity.
      destruct (isMultiSelection s); [reflexivity|].
      cbn [negb]. now rewrite (Hno rectId eq_refl eq_refl). }
    cbv zeta. rewrite Hfree. unfold highestType.
    split; [|split; [|split]].
    + intros box Hbox Hz Hrect Hline. rewrite Hbox.
      destruct (getRectangleAt x y s) as [rect|];
        try (specialize (Hrect rect eq_refl));
        destruct (getLineAt x y s) as [line|];
        try (specialize (Hline line eq_refl));
        repeat match goal with
               | |- context [?a <? ?b] => destruct (Z.ltb_spec a b)
               end; try lia; reflexivity.
    + intros rect Hrect Hz Hbox Hline. rewrite Hrect.
      destruct (getTextBoxAt x y s) as [box|];
        try (specialize (Hbox box eq_refl));
        destruct (getLineAt x y s) as [line|];
        try (specialize (Hline line eq_refl));
        repeat match goal with
               | |- context [?a <? ?b] => destruct (Z.ltb_spec a b)
               end; try lia; reflexivity.
    + intros line Hline Hz Hbox Hrect. rewrite Hline.
      destruct (getTextBoxAt x y s) as [box|];
        try (specialize (Hbox box eq_refl));
        destruct (getRectangleAt x y s) as [rect|];
        try (specialize (Hrect rect eq_refl));
        repeat match goal with
               | |- context [?a <? ?b] => destruct (Z.ltb_spec a b)
               end; try lia; reflexivity.
    + intros Hbox Hrect Hline.
      destruct (getTextBoxAt x y s) as [box|];
        try (specialize (Hbox box eq_refl));
        destruct (getRectangleAt x y s) as [rect|];
        try (specialize (Hrect rect eq_refl));
        destruct (getLineAt x y s) as [line|];
        try (specialize (Hline line eq_refl));
        repeat match goal with
               | |- context [?a <? ?b] => destruct (Z.ltb_spec a b)
               end; try lia; reflexivity.
Qed.

(** X20: a press and the hover do not pick the same entity.  With the
    move tool, nothing selected and no gesture under way, at a cell where a
    text run and a rectangle above it in the layer order are both hit (and
    no line above the rectangle, whose z-index is not negative), [updateHover] marks the rectangle as
    hovered, but the press selects the text run (and only it): the press
    tries the kinds in the order text, rectangle, line, whatever the
    z-indices. *)
Theorem press_prefers_text (x y : Z) (s : CanvasApp) (box : TextBox.t)
    (rect : Rectangle.t) :
  idle s -> currentTool (gesture s) = ToolMove ->
  selection s = mkSelection [] [] [] ->
  y < gridHeight s -> fst (handleColorPickerClick x y s) = false ->
  getTextBoxAt x y s = Some box -> getRectangleAt x y s = Some rect ->
  TextBox.zIndex box < Rectangle.zIndex rect -> 0 <= Rectangle.zIndex rect ->
  (forall line, getLineAt x y s = Some line -> Line.zIndex line <= Rectangle.zIndex rect) ->
  hover (updateHover x y s) = mkHover None (Some (Rectangle.id rect)) None
  /\ selection (handleMouseDown x y false s) = mkSelection [TextBox.id box] [] []
  /\ isDraggingSelection (gesture (handleMouseDown x y false s)) = true.
Proof.
  intros (Hact & _) Htool Hsel Hy Hpick Hbox Hrect Hz Hpos Hline. split.
  - unfold updateHover. rewrite Htool, Hsel. cbn [negb isToolMove selectedRectIds].
    cbv zeta. rewrite Hbox, Hrect. unfold highestType.
    destruct (getLineAt x y s) as [line|];
      try (specialize (Hline line eq_refl));
      repeat match goal with
             | |- context [?a <? ?b] => destruct (Z.ltb_spec a b)
             end; try lia; reflexivity.
  - unfold handleMouseDown.
    destruct (Z.leb_spec (gridHeight s) y); [lia|].
    rewrite (handleColorPickerClick_unhandled x y s Hpick), Hact, Htool.
    cbn [isToolMove]. unfold handleMouseDownMove. cbv zeta.
    cbn [selection with_gesture]. rewrite Hsel. cbn [selectedRectIds].
    change (getTextBoxAt x y (with_gesture (pressAt x y (gesture s)) s))
      with (getTextBoxAt x y s).
    rewrite Hbox. unfold isTextBoxSelected, setHas.
    cbn [selection with_gesture]. rewrite Hsel.
    cbn [selectedTextBoxIds existsb andb negb].
    unfold beginDrag, clickSelect, selectTextBox. cbn.
    split; reflexivity.
Qed.

Lemma press_prefers_text_witness :
  hover (updateHover 1 1 overlapApp) = mkHover None (Some 1) None
  /\ selection (handleMouseDown 1 1 false overlapApp) = mkSelection [1] [] []
  /\ isDraggingSelection (gesture (handleMouseDown 1 1 false overlapApp)) = true.
Proof.
  apply (press_prefers_text 1 1 overlapApp
           (TextBox.mk 1 1 1 [TextChar.mk "a" false white] 1 white None)
           (Rectangle.mk 1 1 1 4 3 false 2 white None)).
  - unfold idle. cbn. repeat split.
  - reflexivity.
  - reflexivity.
  - cbn. lia.
  - reflexivity.
  - reflexivity.
  - reflexivity.
  - cbn. lia.
  - cbn. lia.
  - intros line H. discriminate H.
Defined.

(** ** Colours of the selection *)

Lemma find_updateFound_id {A : Type} (getId : A -> Z) (f : A -> A) (i j : Z) l :
  (forall o, getId (f o) = getId o) ->
  find (fun o => getId o =? i) (updateFound (fun o => getId o =? j) f l)
  = if i =? j then option_map f (find (fun o => getId o =? i) l)
    else find (fun o => getId o =? i) l.
Proof.
  intros Hid. destruct (Z.eqb_spec i j) as [->|Hne].
  - induction l as [|h t IH]; simpl; [reflexivity|].
    destruct (getId h =? j) eqn:E; simpl.
    + now rewrite Hid, E.
    + now rewrite E.
  - apply find_updateFound_other; [intros o; now rewrite Hid|].
    intros o Ho. apply Z.eqb_eq in Ho. apply Z.eqb_neq. congruence.
Qed.

Lemma find_updateAll {A : Type} (getId : A -> Z) (f : A -> A) (i : Z) ids : forall l,
  (forall o, getId (f o) = getId o) -> (forall o, f (f o) = f o) ->
  find (fun o => getId o =? i)
       (fold_left (fun l id => updateFound (fun o => getId o =? id) f l) ids l)
  = if setHas i ids then option_map f (find (fun o => getId o =? i) l)
    else find (fun o => getId o =? i) l.
Proof.
  induction ids as [|j ids IH]; intros l Hid Hf; [reflexivity|].
  cbn [fold_left]. rewrite IH by assumption.
  rewrite find_updateFound_id by assumption.
  unfold setHas. cbn [existsb].
  destruct (i =? j); destruct (existsb (Z.eqb i) ids); cbn [orb]; try reflexivity.
  destruct (find _ l); cbn [option_map]; [now rewrite Hf|reflexivity].
Qed.

Lemma strokeTextBox_twice c box : strokeTextBox c (strokeTextBox c box) = strokeTextBox c box.
Proof. unfold strokeTextBox. cbn. now rewrite map_map. Qed.

(** X21: the colour assignments touch the selected entities only and only
    their colours.  With a selection, [applyStrokeColorToSelection] gives
    the current stroke colour to every selected text run (and to each of
    its characters), rectangle and line, and leaves every other entity as
    it was; [applyFillColorToSelection] gives the current fill colour to
    every selected text run and rectangle and leaves every other entity as
    it was, the lines included, selected or not: with only lines selected
    it changes nothing in the document, yet it has taken a snapshot and
    emptied the redo stack. *)
Theorem colour_assignment (s : CanvasApp) :
  hasSelection s = true ->
  let sel := selection s in
  let d := document s in
  let stroked := document (applyStrokeColorToSelection s) in
  let filled := document (applyFillColorToSelection s) in
  (forall i,
      find (fun b => TextBox.id b =? i) (textBoxes stroked)
      = (if setHas i (selectedTextBoxIds sel)
         then option_map (strokeTextBox (currentStrokeColor (style s)))
                         (find (fun b => TextBox.id b =? i) (textBoxes d))
         else find (fun b => TextBox.id b =? i) (textBoxes d))
      /\ find (fun r => Rectangle.id r =? i) (rectangles stroked)
         = (if setHas i (selectedRectIds sel)
            then option_map (strokeRect (currentStrokeColor (style s)))
                            (find (fun r => Rectangle.id r =? i) (rectangles d))
            else find (fun r => Rectangle.id r =? i) (rectangles d))
      /\ find (fun l => Line.id l =? i) (lines stroked)
         = (if setHas i (selectedLineIds sel)
            then option_map (strokeLine (currentStrokeColor (style s)))
                            (find (fun l => Line.id l =? i) (lines d))
            else find (fun l => Line.id l =? i) (lines d))
      /\ find (fun b => TextBox.id b =? i) (textBoxes filled)
         = (if setHas i (selectedTextBoxIds sel)
            then option_map (fillTextBox (currentFillColor (style s)))
                            (find (fun b => TextBox.id b =? i) (textBoxes d))
            else find (fun b => TextBox.id b =? i) (textBoxes d))
      /\ find (fun r => Rectangle.id r =? i) (rectangles filled)
         = (if setHas i (selectedRectIds sel)
            then option_map (fillRect (currentFillColor (style s)))
                            (find (fun r => Rectangle.id r =? i) (rectangles d))
            else find (fun r => Rectangle.id r =? i) (rectangles d)))
  /\ lines filled = lines d
  /\ (selectedTextBoxIds sel = [] -> selectedRectIds sel = [] ->
      filled = d /\ oneSnapshot s (applyFillColorToSelection s)).
Proof.
  intros Hsel sel d stroked filled.
  subst stroked filled. unfold applyStrokeColorToSelection, applyFillColorToSelection.
  rewrite Hsel. cbn [negb]. cbv zeta.
  cbn [document with_document with_lines with_rectangles with_textBoxes textBoxes
       rectangles lines saveSnapshot with_redoStack with_historyStack selection style].
  split; [|split].
  - intros i.
    rewrite !(find_updateAll TextBox.id), !(find_updateAll Rectangle.id),
      !(find_updateAll Line.id)
      by first [reflexivity | apply strokeTextBox_twice].
    repeat split.
  - reflexivity.
  - intros Ht Hr. fold sel. rewrite Ht, Hr. cbn [fold_left].
    split; [now destruct (document s)|split; reflexivity].
Qed.

Lemma colour_assignment_witness :
  lines (document (applyFillColorToSelection layeredApp)) = lines layeredDocument
  /\ find (fun r => Rectangle.id r =? 1)
          (rectangles (document (applyFillColorToSelection layeredApp)))
     = option_map (fillRect None)
                  (find (fun r => Rectangle.id r =? 1) (rectangles layeredDocument)).
Proof.
  destruct (colour_assignment layeredApp) as (H1 & H2 & _).
  - reflexivity.
  - split; [exact H2|]. exact (proj2 (proj2 (proj2 (proj2 (H1 1))))).
Defined.

(** ** The marquee *)

Lemma isIntersecting_shareCell sx1 sy1 sx2 sy2 x1 y1 x2 y2 :
  sx1 <= sx2 -> sy1 <= sy2 -> x1 <= x2 -> y1 <= y2 ->
  isIntersecting sx1 sy1 sx2 sy2 x1 y1 x2 y2 = true
  <-> shareCell (mkBox sx1 sy1 sx2 sy2) (mkBox x1 y1 x2 y2).
Proof.
  intros Hsx Hsy Hx Hy. unfold isIntersecting, shareCell, inBox. cbn [bx1 by1 bx2 by2].
  rewrite negb_true_iff, !orb_false_iff, !Z.ltb_ge. split.
  - intros (((H1 & H2) & H3) & H4).
    exists (Z.max sx1 x1), (Z.max sy1 y1). lia.
  - intros (cx & cy & H1 & H2). lia.
Qed.

Lemma In_setAdd i j l : In i (setAdd j l) <-> i = j \/ In i l.
Proof.
  unfold setAdd. destruct (existsb (Z.eqb j) l) eqn:E.
  - split; [now right|]. intros [->|H]; [|exact H].
    apply existsb_exists in E. destruct E as (k & Hk & Hjk).
    apply Z.eqb_eq in Hjk. now subst.
  - rewrite in_app_iff. simpl. intuition congruence.
Qed.

Section FoldSelect.
Variable A : Type.
Variable test : A -> bool.
Variable getId : A -> Z.
Variable select : Z -> CanvasApp -> CanvasApp.

Lemma fold_select (proj : CanvasApp -> list Z) (l : list A) :
  (forall id s, proj (select id s) = setAdd id (proj s)) ->
  forall s i,
    In i (proj (fold_left (fun s o => if test o then select (getId o) s else s) l s))
    <-> In i (proj s) \/ exists o, In o l /\ getId o = i /\ test o = true.
Proof.
  intros Hsel. induction l as [|h t IH]; intros s i; simpl.
  - split; [now left|]. intros [H|(o & [] & _)]. exact H.
  - rewrite IH. destruct (test h) eqn:E.
    + rewrite Hsel, In_setAdd. split.
      * intros [[->|H]|(o & Ho & Hid & Ht)]; [right|now left|right].
        -- exists h. auto.
        -- exists o. auto.
      * intros [H|(o & [<-|Ho] & Hid & Ht)]; [left; now right|left; left; now symmetry|].
        right. exists o. auto.
    + split.
      * intros [H|(o & Ho & Hid & Ht)]; [now left|right]. exists o. auto.
      * intros [H|(o & [<-|Ho] & Hid & Ht)]; [now left|congruence|].
        right. exists o. auto.
Qed.

Lemma fold_select_other {B : Type} (proj : CanvasApp -> B) (l : list A) :
  (forall id s, proj (select id s) = proj s) ->
  forall s,
    proj (fold_left (fun s o => if test o then select (getId o) s else s) l s) = proj s.
Proof.
  intros Hsel. induction l as [|h t IH]; intros s; simpl; [reflexivity|].
  rewrite IH. destruct (test h); [apply Hsel|reflexivity].
Qed.
End FoldSelect.

(** X22: the marquee selects by bounding box.  When a marquee is
    committed, an id is selected afterwards exactly when it was selected
    before or an entity with that id has a cell of its bounding box in the
    marquee: for a text run its row over its effective width, for a
    rectangle the whole normalized rectangle with its interior (so a marquee
    drawn inside a rectangle, touching no side, selects it), for a line the
    box spanned by its endpoints (so no cell of the line itself needs to be
    in the marquee).  Nothing is deselected, the document is untouched and
    the marquee is closed. *)
Theorem marquee_selection (s : CanvasApp) :
  isSelecting (gesture s) = true ->
  let m := marquee (gesture s) in
  let d := document s in
  let s' := commitSelection s in
  (forall i, In i (selectedTextBoxIds (selection s'))
             <-> In i (selectedTextBoxIds (selection s))
                 \/ exists box, In box (textBoxes d) /\ TextBox.id box = i
                                /\ shareCell m (textBoxExtent box))
  /\ (forall i, In i (selectedRectIds (selection s'))
                <-> In i (selectedRectIds (selection s))
                    \/ exists rect, In rect (rectangles d) /\ Rectangle.id rect = i
                                    /\ shareCell m (normalizeRect rect))
  /\ (forall i, In i (selectedLineIds (selection s'))
                <-> In i (selectedLineIds (selection s))
                    \/ exists line, In line (lines d) /\ Line.id line = i
                                    /\ shareCell m (normalizeLine line))
  /\ document s' = d
  /\ isSelecting (gesture s') = false.
Proof.
  intros Hsel m d s'. subst s'. unfold commitSelection. rewrite Hsel. cbn [negb].
  cbv zeta. cbn [selection with_gesture document gesture isSelecting set_isSelecting].
  set (meets := isIntersecting (Z.min (drawStartX (gesture s)) (drawCursorX (gesture s)))
                               (Z.min (drawStartY (gesture s)) (drawCursorY (gesture s)))
                               (Z.max (drawStartX (gesture s)) (drawCursorX (gesture s)))
                               (Z.max (drawStartY (gesture s)) (drawCursorY (gesture s)))).
  set (testT := fun box : TextBox.t =>
                  meets (TextBox.x box) (TextBox.y box)
                        (TextBox.x box + Z.max 1 (getTextLength box) - 1) (TextBox.y box)).
  set (testR := fun rect : Rectangle.t =>
                  meets (bx1 (normalizeRect rect)) (by1 (normalizeRect rect))
                        (bx2 (normalizeRect rect)) (by2 (normalizeRect rect))).
  set (testL := fun line : Line.t =>
                  meets (bx1 (normalizeLine line)) (by1 (normalizeLine line))
                        (bx2 (normalizeLine line)) (by2 (normalizeLine line))).
  set (s1 := fold_left _ (textBoxes (document s)) s).
  set (s2 := fold_left _ (rectangles (document s)) s1).
  set (s3 := fold_left _ (lines (document s)) s2).
  assert (HT : forall box, testT box = true <-> shareCell m (textBoxExtent box)).
  { intros box. apply isIntersecting_shareCell; unfold getTextLength; lia. }
  assert (HR : forall rect, testR rect = true <-> shareCell m (normalizeRect rect)).
  { intros rect. apply isIntersecting_shareCell; cbn; lia. }
  assert (HL : forall line, testL line = true <-> shareCell m (normalizeLine line)).
  { intros line. apply isIntersecting_shareCell; cbn; lia. }
  (* the three loops, each on its own set *)
  assert (H1 : forall i, In i (selectedTextBoxIds (selection s1))
                         <-> In i (selectedTextBoxIds (selection s))
                             \/ exists o, In o (textBoxes (document s))
                                          /\ TextBox.id o = i /\ testT o = true)
    by (apply (fold_select _ testT TextBox.id (fun id => selectTextBox id true)
                 (fun u => selectedTextBoxIds (selection u))); reflexivity).
  assert (H1r : selectedRectIds (selection s1) = selectedRectIds (selection s))
    by (apply (fold_select_other _ testT TextBox.id (fun id => selectTextBox id true)
                 (fun u => selectedRectIds (selection u))); reflexivity).
  assert (H1l : selectedLineIds (selection s1) = selectedLineIds (selection s))
    by (apply (fold_select_other _ testT TextBox.id (fun id => selectTextBox id true)
                 (fun u => selectedLineIds (selection u))); reflexivity).
  assert (H1d : document s1 = document s)
    by (apply (fold_select_other _ testT TextBox.id (fun id => selectTextBox id true)
                 document); reflexivity).
  assert (H2 : forall i, In i (selectedRectIds (selection s2))
                         <-> In i (selectedRectIds (selection s1))
                             \/ exists o, In o (rectangles (document s))
                                          /\ Rectangle.id o = i /\ testR o = true)
    by (apply (fold_select _ testR Rectangle.id (fun id => selectRect id true)
                 (fun u => selectedRectIds (selection u))); reflexivity).
  assert (H2t : selectedTextBoxIds (selection s2) = selectedTextBoxIds (selection s1))
    by (apply (fold_select_other _ testR Rectangle.id (fun id => selectRect id true)
                 (fun u => selectedTextBoxIds (selection u))); reflexivity).
  assert (H2l : selectedLineIds (selection s2) = selectedLineIds (selection s1))
    by (apply (fold_select_other _ testR Rectangle.id (fun id => selectRect id true)
                 (fun u => selectedLineIds (selection u))); reflexivity).
  assert (H2d : document s2 = document s1)
    by (apply (fold_select_other _ testR Rectangle.id (fun id => selectRect id true)
                 document); reflexivity).
  assert (H3 : forall i, In i (selectedLineIds (selection s3))
                         <-> In i (selectedLineIds (selection s2))
                             \/ exists o, In o (lines (document s))
                                          /\ Line.id o = i /\ testL o = true)
    by (apply (fold_select _ testL Line.id (fun id => selectLine id true)
                 (fun u => selectedLineIds (selection u))); reflexivity).
  assert (H3t : selectedTextBoxIds (selection s3) = selectedTextBoxIds (selection s2))
    by (apply (fold_select_other _ testL Line.id (fun id => selectLine id true)
                 (fun u => selectedTextBoxIds (selection u))); reflexivity).
  assert (H3r : selectedRectIds (selection s3) = selectedRectIds (selection s2))
    by (apply (fold_select_other _ testL Line.id (fun id => selectLine id true)
                 (fun u => selectedRectIds (selection u))); reflexivity).
  assert (H3d : document s3 = document s2)
    by (apply (fold_select_other _ testL Line.id (fun id => selectLine id true)
                 document); reflexivity).
  split; [|split; [|split; [|split; [now rewrite H3d, H2d, H1d|reflexivity]]]]; intros i.
  - rewrite H3t, H2t, H1. apply or_iff_compat_l.
    split; intros (o & Ho & Hid & Ht); exists o; repeat split; try assumption;
      now apply HT.
  - rewrite H3r, H2, H1r. apply or_iff_compat_l.
    split; intros (o & Ho & Hid & Ht); exists o; repeat split; try assumption;
      now apply HR.
  - rewrite H3, H2l, H1l. apply or_iff_compat_l.
    split; intros (o & Ho & Hid & Ht); exists o; repeat split; try assumption;
      now apply HL.
Qed.

Lemma marquee_selection_witness :
  In 1 (selectedRectIds (selection (commitSelection marqueeApp)))
  /\ ~ In 1 (selectedLineIds (selection (commitSelection marqueeApp))).
Proof.
  destruct (marquee_selection marqueeApp eq_refl) as (_ & H2 & H3 & _).
  split.
  - apply H2. right. exists (Rectangle.mk 1 1 1 4 3 false 2 white None).
    split; [now left|]. split; [reflexivity|].
    exists 1, 1. unfold inBox. cbn. lia.
  - intros H. apply H3 in H. destruct H as [[]|(line & [<-|[]] & _ & (cx & cy & H1 & H2'))].
    unfold inBox in *. cbn in *. lia.
Defined.

(** ** Resizing *)

(** X23: a resize keeps a rectangle on the canvas.  Whatever handle is
    grabbed and wherever the pointer is, off the canvas included, a
    rectangle that lies on the canvas lies on it after [resizeRect], with
    its id, its z-index, its weight and its colours; every other rectangle,
    the text runs and the lines are left alone; and when the pointer is on
    the canvas and a corner handle is grabbed, that corner is at the
    pointer afterwards.  Without a grabbed handle nothing changes. *)
Theorem resizeRect_stays_on_canvas (id mouseX mouseY : Z) (s : CanvasApp)
    (rect : Rectangle.t) :
  find (fun r => Rectangle.id r =? id) (rectangles (document s)) = Some rect ->
  rectInCanvas (gridWidth s) (gridHeight s) rect = true ->
  let s' := resizeRect id mouseX mouseY s in
  (exists rect',
      find (fun r => Rectangle.id r =? id) (rectangles (document s')) = Some rect'
      /\ rectInCanvas (gridWidth s) (gridHeight s) rect' = true
      /\ setCorners (Rectangle.x1 rect) (Rectangle.y1 rect)
                    (Rectangle.x2 rect) (Rectangle.y2 rect) rect' = rect
      /\ (0 <= mouseX <= gridWidth s - 1 -> 0 <= mouseY <= gridHeight s - 1 ->
          match resizeHandle (gesture s) with
          | Some H_nw => Rectangle.x1 rect' = mouseX /\ Rectangle.y1 rect' = mouseY
          | Some H_ne => Rectangle.x2 rect' = mouseX /\ Rectangle.y1 rect' = mouseY
          | Some H_sw => Rectangle.x1 rect' = mouseX /\ Rectangle.y2 rect' = mouseY
          | Some H_se => Rectangle.x2 rect' = mouseX /\ Rectangle.y2 rect' = mouseY
          | _ => True
          end))
  /\ (forall i, i <> id ->
        find (fun r => Rectangle.id r =? i) (rectangles (document s'))
        = find (fun r => Rectangle.id r =? i) (rectangles (document s)))
  /\ textBoxes (document s') = textBoxes (document s)
  /\ lines (document s') = lines (document s)
  /\ (resizeHandle (gesture s) = None -> s' = s).
Proof.
  intros Hfind Hin s'. subst s'. unfold resizeRect. rewrite Hfind.
  pose proof (find_some _ _ Hfind) as [_ Hid].
  unfold rectInCanvas, boxInCanvas, normalizeRect in Hin. cbn [bx1 by1 bx2 by2] in Hin.
  rewrite !andb_true_iff, !Z.leb_le in Hin.
  destruct (resizeHandle (gesture s)) as [handle|].
  - cbv zeta. cbn [document with_document rectangles with_rectangles textBoxes lines].
    split; [|split; [|split; [reflexivity|split; [reflexivity|discriminate]]]].
    + eexists. split.
      * apply (find_updateFound (fun r => Rectangle.id r =? id)); [exact Hfind|].
        destruct handle; exact Hid.
      * unfold rectInCanvas, boxInCanvas, normalizeRect.
        destruct handle; cbn;
          rewrite !andb_true_iff, !Z.leb_le;
          (split; [lia|]); (split; [now destruct rect|]); intros; lia.
    + intros i Hi. apply find_updateFound_other.
      * intros o. now destruct handle.
      * intros o Ho. apply Z.eqb_eq in Ho. apply Z.eqb_neq. congruence.
  - split; [|split; [|split; [|split]]]; try reflexivity.
    exists rect. split; [exact Hfind|]. split.
    + unfold rectInCanvas, boxInCanvas, normalizeRect. cbn.
      rewrite !andb_true_iff, !Z.leb_le. lia.
    + split; [now destruct rect|trivial].
Qed.

Lemma resizeRect_stays_on_canvas_witness :
  exists rect',
    find (fun r => Rectangle.id r =? 1)
         (rectangles (document (resizeRect 1 (-5) 200 resizingApp))) = Some rect'
    /\ rectInCanvas 80 24 rect' = true.
Proof.
  destruct (resizeRect_stays_on_canvas 1 (-5) 200 resizingApp
              (Rectangle.mk 1 1 1 4 3 false 1 white None))
    as ((rect' & H1 & H2 & _) & _).
  - reflexivity.
  - reflexivity.
  - exists rect'. exact (conj H1 H2).
Defined.

(** ** Undo while a text run was being typed *)

Lemma handleMouseDown_new_run x y shiftHeld s :
  activeTextBoxId s = None ->
  currentTool (gesture s) = ToolText ->
  y < gridHeight s ->
  fst (handleColorPickerClick x y s) = false ->
  getTextBoxAt x y s = None ->
  handleMouseDown x y shiftHeld s
  = with_textCursorPos 0
      (with_activeTextBoxId (Some (nextTextBoxId (document s)))
         (with_document
            (mkSnapshot
               (push (textBoxes (document s))
                     (TextBox.mk (nextTextBoxId (document s)) x y []
                                 (nextZIndex (document s))
                                 (currentStrokeColor (style s)) None))
               (rectangles (document s)) (lines (document s))
               (nextTextBoxId (document s) + 1) (nextRectId (document s))
               (nextLineId (document s)) (nextZIndex (document s) + 1))
            (saveSnapshot (clearSelection s)))).
Proof.
  intros Hact Htool Hy Hpick Hnone. unfold handleMouseDown.
  destruct (Z.leb_spec (gridHeight s) y); [lia|].
  rewrite (handleColorPickerClick_unhandled x y s Hpick), Hact, Htool.
  cbn [isToolMove]. unfold handleMouseDownDraw.
  change (gesture (clearSelection s)) with (gesture s). rewrite Htool.
  change (getTextBoxAt x y (clearSelection s)) with (getTextBoxAt x y s).
  now rewrite Hnone.
Qed.

Lemma handleTextInput_types key s box :
  editing s box -> typesCharacter key = true ->
  handleTextInput key s
  = with_textCursorPos (textCursorPos s + 1)
      (spliceActive (textCursorPos s) 0
         [TextChar.mk (KeyEvent.sequence key) (boldMode (style s))
                      (currentStrokeColor (style s))]
         (saveSnapshot s)).
Proof.
  intros Hed Hkey. unfold typesCharacter in Hkey.
  apply andb_true_iff in Hkey. destruct Hkey as [Hkey Hmeta].
  apply andb_true_iff in Hkey. destruct Hkey as [Hkey Hctrl].
  apply andb_true_iff in Hkey. destruct Hkey as [Hname Hprint].
  apply negb_true_iff in Hname, Hctrl, Hmeta.
  cbn [existsb] in Hname.
  repeat (apply orb_false_iff in Hname; destruct Hname as [? Hname]).
  unfold handleTextInput. rewrite Hctrl, andb_false_r. cbn [andb].
  rewrite Hed. cbv zeta.
  repeat match goal with
         | H : String.eqb _ _ = false |- _ => rewrite H; clear H
         end.
  now rewrite Hprint, Hmeta.
Qed.

Lemma updateFound_fresh {A : Type} (getId : A -> Z) (f : A -> A) (n : Z) l o :
  Forall (fun i => i < n) (map getId l) -> getId o = n ->
  updateFound (fun e => getId e =? n) f (l ++ [o]) = l ++ [f o].
Proof.
  intros Hlt Ho. induction l as [|h t IH]; simpl in *.
  - now rewrite Ho, Z.eqb_refl.
  - apply Forall_cons_iff in Hlt. destruct Hlt as [Hh Ht].
    destruct (Z.eqb_spec (getId h) n) as [E|E]; [lia|].
    now rewrite IH.
Qed.

Lemma commitActiveTextBox_kept s n box :
  activeTextBoxId s = Some n ->
  find (fun b => TextBox.id b =? n) (textBoxes (document s)) = Some box ->
  TextBox.chars box <> [] ->
  document (commitActiveTextBox s) = document s
  /\ historyStack (commitActiveTextBox s) = historyStack s
  /\ redoStack (commitActiveTextBox s) = redoStack s
  /\ activeTextBoxId (commitActiveTextBox s) = None.
Proof.
  intros Hact Hfind Hne. unfold commitActiveTextBox. rewrite Hact, Hfind.
  unfold getTextLength. destruct (TextBox.chars box); [contradiction|].
  cbn. repeat split. now destruct (document s).
Qed.

Lemma undo_transient s :
  historyStack s <> [] ->
  activeTextBoxId (undo s) = None
  /\ selection (undo s) = mkSelection [] [] [].
Proof.
  intros Hne. destruct (pop_nonempty _ Hne) as (front & top & Hpush & _).
  rewrite (undo_nonempty s front top Hpush). split; reflexivity.
Qed.

(** X24: [undo] can bring back an empty text run that nobody is editing.
    A click with the text tool on a free cell starts an empty run and takes
    a snapshot without it; the first typed character takes a snapshot that
    holds the run still empty; after [escape] the run with its character
    stays.  One [undo] then installs the snapshot with the empty run: the
    document holds a text run without characters, no run is being edited
    (so [commitActiveTextBox] will not remove it), and it still answers the
    hit test at its cell. *)
Theorem undo_revives_empty_run (x y : Z) (shiftHeld : bool) (key : KeyEvent.t)
    (s : CanvasApp) :
  activeTextBoxId s = None ->
  currentTool (gesture s) = ToolText ->
  y < gridHeight s ->
  fst (handleColorPickerClick x y s) = false ->
  getTextBoxAt x y s = None ->
  Forall (fun i => i < nextTextBoxId (document s))
         (map TextBox.id (textBoxes (document s))) ->
  typesCharacter key = true ->
  let d := document s in
  let emptyRun := TextBox.mk (nextTextBoxId d) x y [] (nextZIndex d)
                             (currentStrokeColor (style s)) None in
  let typed := handleTextInput key (handleMouseDown x y shiftHeld s) in
  let escaped := setTool ToolMove (commitActiveTextBox typed) in
  textBoxes (document escaped)
  = textBoxes d
    ++ [setChars [TextChar.mk (KeyEvent.sequence key) (boldMode (style s))
                              (currentStrokeColor (style s))] emptyRun]
  /\ textBoxes (document (undo escaped)) = textBoxes d ++ [emptyRun]
  /\ activeTextBoxId (undo escaped) = None
  /\ commitActiveTextBox (undo escaped) = undo escaped
  /\ isOnTextBox x y emptyRun = true.
Proof.
  intros Hact Htool Hy Hpick Hnone Hfresh Hkey d emptyRun typed escaped.
  pose proof (handleMouseDown_new_run x y shiftHeld s Hact Htool Hy Hpick Hnone)
    as Hclicked.
  fold d in Hclicked. fold emptyRun in Hclicked.
  set (clicked := handleMouseDown x y shiftHeld s) in *.
  destruct (find_fresh TextBox.id (nextTextBoxId d) (textBoxes d) emptyRun Hfresh eq_refl)
    as [Hfind Hfilter].
  assert (Hed : editing clicked emptyRun).
  { unfold editing. rewrite Hclicked. exact Hfind. }
  assert (Htyped : typed
                   = with_textCursorPos (textCursorPos clicked + 1)
                       (spliceActive (textCursorPos clicked) 0
                          [TextChar.mk (KeyEvent.sequence key) (boldMode (style clicked))
                                       (currentStrokeColor (style clicked))]
                          (saveSnapshot clicked)))
    by (apply (handleTextInput_types key clicked emptyRun Hed Hkey)).
  destruct (spliceActive_editing (textCursorPos clicked) 0
              [TextChar.mk (KeyEvent.sequence key) (boldMode (style clicked))
                           (currentStrokeColor (style clicked))]
              (saveSnapshot clicked) emptyRun Hed) as (Hed' & _).
  (* the run holds one character after the key *)
  assert (Hboxes : textBoxes (document typed)
                   = textBoxes d
                     ++ [setChars [TextChar.mk (KeyEvent.sequence key) (boldMode (style s))
                                               (currentStrokeColor (style s))] emptyRun]).
  { rewrite Htyped. unfold spliceActive.
    cbn [document with_document with_textCursorPos textBoxes with_textBoxes saveSnapshot
         with_redoStack with_historyStack].
    rewrite Hclicked.
    cbn [document with_document with_textCursorPos with_activeTextBoxId textBoxes
         textCursorPos style activeTextBoxId isActiveBox].
    unfold push.
    change (isActiveBox _) with (fun b => TextBox.id b =? nextTextBoxId d).
    now rewrite (updateFound_fresh TextBox.id _ (nextTextBoxId d) (textBoxes d) emptyRun
                   Hfresh eq_refl). }
  assert (Hactive : activeTextBoxId typed = Some (nextTextBoxId d))
    by (rewrite Htyped, Hclicked; reflexivity).
  assert (Hescaped : document escaped = document typed
                     /\ historyStack escaped = historyStack (saveSnapshot clicked)
                     /\ redoStack escaped = []).
  { subst escaped.
    destruct (find_fresh TextBox.id (nextTextBoxId d) (textBoxes d)
                (setChars [TextChar.mk (KeyEvent.sequence key) (boldMode (style s))
                                       (currentStrokeColor (style s))] emptyRun)
                Hfresh eq_refl) as [Hfind1 _].
    rewrite <- Hboxes in Hfind1.
    destruct (commitActiveTextBox_kept typed _ _ Hactive Hfind1 ltac:(discriminate))
      as (Hd & Hh & Hr & Ha).
    unfold setTool. rewrite Ha. cbn [document historyStack redoStack with_gesture].
    rewrite Hd, Hh, Hr, Htyped. repeat split. }
  destruct Hescaped as (Hd & Hh & Hr).
  assert (Hundo : document (undo escaped) = document clicked)
    by (apply undo_after_snapshot; split; assumption).
  assert (Hne : historyStack escaped <> []).
  { rewrite Hh. destruct (saveSnapshot_top clicked) as [front ->].
    now destruct front. }
  destruct (undo_transient escaped Hne) as [Hnone' _].
  split; [now rewrite Hd|]. split; [now rewrite Hundo, Hclicked|].
  split; [exact Hnone'|]. split.
  - unfold commitActiveTextBox. now rewrite Hnone'.
  - unfold isOnTextBox, emptyRun, getTextLength. cbn.
    rewrite !andb_true_iff, Z.leb_le, Z.ltb_lt, Z.eqb_eq. lia.
Qed.

Lemma undo_revives_empty_run_witness :
  textBoxes
    (document
       (undo (setTool ToolMove
                (commitActiveTextBox
                   (handleTextInput (letterKey "x")
                      (handleMouseDown 10 3 false
                         (setTool ToolText (initialApp 80 24))))))))
  = [TextBox.mk 1 10 3 [] 1 white None]
  /\ activeTextBoxId
       (undo (setTool ToolMove
                (commitActiveTextBox
                   (handleTextInput (letterKey "x")
                      (handleMouseDown 10 3 false
                         (setTool ToolText (initialApp 80 24)))))))
     = None.
Proof.
  destruct (undo_revives_empty_run 10 3 false (letterKey "x")
              (setTool ToolText (initialApp 80 24)))
    as (_ & H2 & H3 & _).
  - reflexivity.
  - reflexivity.
  - cbn. lia.
  - reflexivity.
  - reflexivity.
  - cbn. constructor.
  - reflexivity.
  - exact (conj H2 H3).
Defined.

(** ** The end of a gesture *)

(** X25: a release on the canvas ends every gesture, whatever the state
    before: afterwards nothing is being drawn, marked, dragged or resized
    and no press is pending.  A release at or below row [gridHeight] is
    ignored altogether, so that a gesture under way stays open. *)
Theorem release_ends_gesture (x y : Z) (s : CanvasApp) :
  (y < gridHeight s ->
   let gs := gesture (handleMouseUp x y s) in
   isDrawingRect gs = false /\ isDrawingLine gs = false /\ isSelecting gs = false
   /\ isSelectionPending gs = false /\ isDraggingMouse gs = false
   /\ isDraggingSelection gs = false /\ isResizingRect gs = false
   /\ resizeHandle gs = None /\ hasDragged gs = false
   /\ clickedOnSelectedTextBox gs = false)
  /\ (gridHeight s <= y -> handleMouseUp x y s = s).
Proof.
  split.
  - intros Hy. unfold handleMouseUp.
    destruct (Z.leb_spec (gridHeight s) y); [lia|].
    cbv zeta.
    cbn [gesture with_gesture endGesture isDrawingRect isDrawingLine isSelecting
         isSelectionPending isDraggingMouse isDraggingSelection isResizingRect
         resizeHandle hasDragged clickedOnSelectedTextBox].
    (* the two drawing flags are those after the commits *)
    match goal with
    | |- isDrawingRect (gesture ?u4) = false /\ isDrawingLine (gesture ?u4) = false /\ _ =>
        assert (Hdraw : isDrawingRect (gesture u4) = false
                        /\ isDrawingLine (gesture u4) = false);
        [|destruct Hdraw as [-> ->]; repeat split]
    end.
    assert (HR : forall u, isDrawingRect (gesture u) = true ->
                   isDrawingRect (gesture (commitRectangle u)) = false
                   /\ isDrawingLine (gesture (commitRectangle u)) = false).
    { intros u Hu. unfold commitRectangle, setTool. rewrite Hu. cbn [negb]. cbv zeta.
      destruct (_ || _); cbn; destruct (activeTextBoxId u); cbn; now split. }
    assert (HL : forall u, isDrawingLine (gesture u) = true ->
                   isDrawingRect (gesture (commitLine u)) = false
                   /\ isDrawingLine (gesture (commitLine u)) = false).
    { intros u Hu. unfold commitLine, setTool. rewrite Hu. cbn [negb]. cbv zeta.
      destruct (_ || _); cbn; destruct (activeTextBoxId u); cbn; now split. }
    assert (HS : forall u, gesture (commitSelection u) = set_isSelecting false (gesture u)
                           \/ gesture (commitSelection u) = gesture u).
    { intros u. unfold commitSelection.
      destruct (negb (isSelecting (gesture u))); [now right|left].
      cbv zeta. cbn [gesture with_gesture]. f_equal.
      set (P := fun v : CanvasApp => gesture v = gesture u).
      assert (Hfold : forall (A : Type) (f : CanvasApp -> A -> CanvasApp) l v,
                 (forall w a, P w -> P (f w a)) -> P v -> P (fold_left f l v)).
      { intros A f l. induction l as [|a l IH]; intros v Hf Hv; [exact Hv|].
        simpl. apply IH; [exact Hf|now apply Hf]. }
      apply Hfold; [|apply Hfold; [|apply Hfold; [|reflexivity]]];
        intros w a Hw; cbv zeta;
        destruct (isIntersecting _ _ _ _ _ _ _ _); exact Hw. }
    set (s1 := if isDrawingRect (gesture s) then _ else s).
    assert (H1 : isDrawingRect (gesture s1) = false).
    { subst s1. destruct (isDrawingRect (gesture s)) eqn:E; [|exact E]. now apply HR. }
    set (s2 := if isDrawingLine (gesture s1) then _ else s1).
    assert (H2 : isDrawingRect (gesture s2) = false /\ isDrawingLine (gesture s2) = false).
    { subst s2. destruct (isDrawingLine (gesture s1)) eqn:E; [|now split]. now apply HL. }
    set (s3 := if isSelecting (gesture s2) then _ else s2).
    assert (H3 : isDrawingRect (gesture s3) = false /\ isDrawingLine (gesture s3) = false).
    { subst s3. destruct (isSelecting (gesture s2)); [|exact H2].
      match goal with
      | |- context [commitSelection ?u] => destruct (HS u) as [-> | ->]
      end; exact H2. }
    repeat match goal with
           | |- context [match ?o with Some _ => _ | None => _ end] => destruct o
           | |- context [match ?l with [] => _ | _ :: _ => _ end] => destruct l
           | |- context [if ?c then _ else _] => destruct c
           end; exact H3.
  - intros Hy. unfold handleMouseUp.
    destruct (Z.leb_spec (gridHeight s) y); [reflexivity|lia].
Qed.

(** ** Drawing a line *)






(** ** Drawing and hit testing *)

Lemma In_zrange a b x : In x (zrange a b) <-> a <= x <= b.
Proof.
  unfold zrange. rewrite in_map_iff. split.
  - intros (k & <- & Hk). apply in_seq in Hk. lia.
  - intros H. exists (Z.to_nat (x - a)). split; [lia|].
    apply in_seq. lia.
Qed.



(** X28: the cells of a text run that are drawn and the cells that are
    hit.  A run with at least one character, neither hovered nor selected,
    is drawn on exactly the cells of the grid at which [isOnTextBox]
    answers true.  An empty run is not drawn at all unless it is hovered or
    selected, yet [isOnTextBox] answers true at its anchor cell. *)
Theorem renderTextBox_cells_are_hit (box : TextBox.t) (s : CanvasApp) (x y : Z) :
  (TextBox.chars box <> [] ->
   ((exists char, In (x, y, char) (renderTextBox box false false s))
    <-> isOnTextBox x y box = true /\ offGrid x y s = false))
  /\ (TextBox.chars box = [] ->
      renderTextBox box false false s = []
      /\ isOnTextBox (TextBox.x box) (TextBox.y box) box = true).
Proof.
  split.
  - intros Hne. unfold renderTextBox, isOnTextBox, offGrid, getTextLength. cbv zeta.
    assert (Hlen : 1 <= Z.of_nat (length (TextBox.chars box)))
      by (destruct (TextBox.chars box); [contradiction|cbn [length]; lia]).
    rewrite Z.max_r by lia. split.
    + intros (char & Hin).
      apply in_flat_map in Hin. destruct Hin as (i & Hi & Hin).
      apply In_zrange in Hi.
      destruct ((0 <=? TextBox.x box + i) && (TextBox.x box + i <? gridWidth s)
                && (0 <=? TextBox.y box) && (TextBox.y box <? gridHeight s)) eqn:Hgrid;
        [|contradiction].
      rewrite !andb_true_iff, !Z.leb_le, !Z.ltb_lt in Hgrid.
      destruct (nth_error (TextBox.chars box) (Z.to_nat i)); [|contradiction].
      destruct Hin as [Hin|[]]. injection Hin as <- <- _.
      rewrite !andb_true_iff, !orb_false_iff, Z.leb_le, Z.ltb_lt, Z.eqb_eq,
        !Z.ltb_ge, !Z.leb_gt.
      lia.
    + rewrite !andb_true_iff, !orb_false_iff, Z.leb_le, Z.ltb_lt, Z.eqb_eq,
        !Z.ltb_ge, !Z.leb_gt.
      intros (((Hx1 & Hx2) & ->) & ((Hg1 & Hg2) & Hg3) & Hg4).
      destruct (nth_error (TextBox.chars box) (Z.to_nat (x - TextBox.x box)))
        as [charInfo|] eqn:Hnth.
      * exists (TextChar.char charInfo).
        apply in_flat_map. exists (x - TextBox.x box).
        split; [apply In_zrange; lia|].
        replace (TextBox.x box + (x - TextBox.x box)) with x by lia.
        rewrite Hnth.
        destruct (Z.leb_spec 0 x); destruct (Z.ltb_spec x (gridWidth s));
          destruct (Z.leb_spec 0 (TextBox.y box));
          destruct (Z.ltb_spec (TextBox.y box) (gridHeight s)); try lia.
        now left.
      * apply nth_error_None in Hnth. lia.
  - intros Hempty. split.
    + unfold renderTextBox. rewrite Hempty. cbv zeta.
      induction (zrange 0 (Z.max 1 (Z.of_nat (length (@nil TextChar.t))) - 1))
        as [|i l IH]; [reflexivity|].
      cbn [flat_map]. rewrite IH.
      destruct (_ && _ && _ && _); [|reflexivity].
      now destruct (Z.to_nat i).
    + unfold isOnTextBox, getTextLength. rewrite Hempty. cbn.
      rewrite !andb_true_iff, Z.leb_le, Z.ltb_lt, Z.eqb_eq. lia.
Qed.

(** ** The depth of the history, in every reachable state *)

Lemma historyWithinBound_via s s' :
  historyWithinBound s -> sameHistory s s' \/ oneSnapshot s s' ->
  historyWithinBound s'.
Proof.
  intros Hs [[Hh Hr]|[Hh Hr]]; unfold historyWithinBound in *; rewrite Hh, Hr.
  - exact Hs.
  - pose proof (saveSnapshot_length s) as Hlen. unfold MAX_HISTORY in *.
    rewrite Hlen by lia. cbn [length]. lia.
Qed.

Lemma commitActiveTextBox_history s : sameHistory s (commitActiveTextBox s).
Proof.
  unfold commitActiveTextBox, sameHistory.
  destruct (activeTextBoxId s); split; reflexivity.
Qed.

Lemma handleMouseDown_bounded x y shiftHeld s :
  historyWithinBound s -> historyWithinBound (handleMouseDown x y shiftHeld s).
Proof.
  intros Hs. unfold handleMouseDown.
  destruct (gridHeight s <=? y); [exact Hs|].
  pose proof (handleColorPickerClick_course x y s) as (_ & _ & Hc).
  destruct (handleColorPickerClick x y s) as [handled s1]. cbn [snd] in Hc.
  destruct handled.
  { apply (historyWithinBound_via s _ Hs). destruct Hc as [[H _]|H]; auto. }
  clear s1 Hc.
  match goal with
  | |- context [match ?o with Some activeBox => with_textCursorPos _ _ | None => _ end] =>
      destruct o
  end; [exact Hs|].
  match goal with
  | |- context [if isToolMove (currentTool (gesture ?u)) then _ else _] =>
      assert (Hu : historyWithinBound u);
      [|set (s2 := u) in *]
  end.
  { destruct (activeTextBoxId s); [|exact Hs].
    apply (historyWithinBound_via s _ Hs). left.
    destruct (setTool_history ToolMove (commitActiveTextBox s)) as [H1 H2].
    destruct (commitActiveTextBox_history s) as [H3 H4].
    split; congruence. }
  clearbody s2.
  destruct (isToolMove (currentTool (gesture s2))).
  - apply (historyWithinBound_via s2 _ Hu).
    unfold handleMouseDownMove. cbv zeta.
    match goal with
    | |- context [match ?h with Some _ => _ | None => _ end] => destruct h as [handle|]
    end; [right; split; reflexivity|].
    unfold beginDrag, clickSelect, selectTextBox, selectRect, selectLine.
    repeat match goal with
           | |- context [match ?o with Some _ => _ | None => _ end] => destruct o
           | |- context [if ?c then _ else _] => destruct c
           end;
      first [left; split; reflexivity|right; split; reflexivity].
  - apply (historyWithinBound_via s2 _ Hu).
    unfold handleMouseDownDraw. cbv zeta.
    change (gesture (clearSelection s2)) with (gesture s2).
    destruct (currentTool (gesture s2)); try (left; split; reflexivity).
    destruct (getTextBoxAt x y (clearSelection s2));
      [left; split; reflexivity|right; split; reflexivity].
Qed.

Lemma handleMouseDrag_history x y s : sameHistory s (handleMouseDrag x y s).
Proof.
  unfold handleMouseDrag, sameHistory.
  destruct (gridHeight s <=? y); [split; reflexivity|].
  cbv zeta.
  match goal with
  | |- context [isDraggingSelection (gesture ?u)] =>
      assert (Hu : historyStack u = historyStack s /\ redoStack u = redoStack s)
        by (repeat match goal with
                   | |- context [if ?c then _ else _] => destruct c
                   end; split; reflexivity);
      set (u' := u) in *
  end.
  clearbody u'. destruct Hu as [Hh Hr].
  destruct (isDraggingSelection (gesture u')); [split; assumption|].
  destruct (isResizingRect (gesture u')).
  - destruct (selectedRectIds (selection u')); [split; assumption|].
    match goal with
    | |- context [resizeRect ?i ?a ?b ?u] =>
        destruct (resizeRect_course i a b u) as (-> & -> & _)
    end.
    split; assumption.
  - destruct (_ || _ || _); split; assumption.
Qed.

Lemma handleMouseUp_bounded x y s :
  historyWithinBound s -> historyWithinBound (handleMouseUp x y s).
Proof.
  intros Hs. unfold handleMouseUp.
  destruct (gridHeight s <=? y); [exact Hs|].
  cbv zeta.
  match goal with
  | |- context [isDrawingLine (gesture ?u)] =>
      assert (H1 : historyWithinBound u); [|set (s1 := u) in *]
  end.
  { destruct (isDrawingRect (gesture s)); [|exact Hs].
    match goal with
    | |- historyWithinBound (commitRectangle ?u) =>
        apply (historyWithinBound_via u); [exact Hs|];
        destruct (commitRectangle_history u) as [[H _]|H]; auto
    end. }
  clearbody s1.
  match goal with
  | |- context [isSelecting (gesture ?u)] =>
      assert (H2 : historyWithinBound u); [|set (s2 := u) in *]
  end.
  { destruct (isDrawingLine (gesture s1)); [|exact H1].
    match goal with
    | |- historyWithinBound (commitLine ?u) =>
        apply (historyWithinBound_via u); [exact H1|];
        destruct (commitLine_history u) as [[H _]|H]; auto
    end. }
  clearbody s2.
  match goal with
  | |- context [clickedOnSelectedTextBox (gesture ?u)] =>
      assert (H3 : historyWithinBound u); [|set (s3 := u) in *]
  end.
  { destruct (isSelecting (gesture s2)); [|exact H2].
    match goal with
    | |- historyWithinBound (commitSelection ?u) =>
        destruct (commitSelection_content u) as (_ & Hh & Hr);
        apply (historyWithinBound_via u); [exact H2|left; split; assumption]
    end. }
  clearbody s3.
  apply (historyWithinBound_via s3 _ H3). left.
  repeat match goal with
         | |- context [match ?o with Some _ => _ | None => _ end] => destruct o
         | |- context [match ?l with [] => _ | _ :: _ => _ end] => destruct l
         | |- context [if ?c then _ else _] => destruct c
         end;
    split; reflexivity.
Qed.

Lemma runCommand_bounded c s :
  historyWithinBound s -> historyWithinBound (runCommand c s).
Proof.
  intros Hs. destruct c as [e| | | | | | | | |]; cbn [runCommand].
  - apply (historyWithinBound_via s _ Hs). destruct e; cbn [runEdit].
    + destruct (handleTextInput_history key s) as [[H _]|H]; auto.
    + destruct (handleDeleteKey_history s) as [[H _]|H]; auto.
    + destruct (commitRectangle_history s) as [[H _]|H]; auto.
    + destruct (commitLine_history s) as [[H _]|H]; auto.
    + destruct (moveLayer_history s) as [[[H _]|H] _]; auto.
    + destruct (moveLayer_history s) as [_ [[H _]|H]]; auto.
    + destruct (applyColor_history s) as [[[H _]|H] _]; auto.
    + destruct (applyColor_history s) as [_ [[H _]|H]]; auto.
  - now apply handleMouseDown_bounded.
  - apply (historyWithinBound_via s _ Hs). left. apply handleMouseDrag_history.
  - now apply handleMouseUp_bounded.
  - apply (historyWithinBound_via s _ Hs). left.
    unfold handleMouseMove. destruct (gridHeight s <=? y); [split; reflexivity|].
    destruct (updateHover_content x y s) as (_ & Hh & Hr). split; assumption.
  - exact Hs.
  - apply (historyWithinBound_via s _ Hs). left.
    unfold handleEscapeKey. destruct (activeTextBoxId s).
    + destruct (setTool_history ToolMove (commitActiveTextBox s)) as [H1 H2].
      destruct (commitActiveTextBox_history s) as [H3 H4].
      split; congruence.
    + destruct (isDrawingRect (gesture s)); [split; reflexivity|].
      destruct (isDrawingLine (gesture s)); split; reflexivity.
  - apply (historyWithinBound_via s _ Hs). left. apply setTool_history.
  - now apply (historyWithinBound_preserved s).
  - now apply (historyWithinBound_preserved s).
Qed.

(** X29: in every state that the editor reaches from its initial state by
    edits, mouse events, resizes of the terminal, tool changes, [escape],
    [undo] and [redo], in any number and order, the undo stack and the redo stack together hold at
    most [MAX_HISTORY] snapshots; in particular neither stack ever holds
    more than a hundred. *)
Theorem reachable_states_history_bounded (w h : Z) (cs : list Command) :
  historyWithinBound (runCommands cs (initialApp w h))
  /\ (length (historyStack (runCommands cs (initialApp w h))) <= 100)%nat
  /\ (length (redoStack (runCommands cs (initialApp w h))) <= 100)%nat.
Proof.
  assert (H : historyWithinBound (runCommands cs (initialApp w h))).
  { unfold runCommands.
    assert (Hinit : historyWithinBound (initialApp w h))
      by (unfold historyWithinBound, MAX_HISTORY; cbn; lia).
    generalize dependent (initialApp w h). induction cs as [|c cs IH]; intros s Hs.
    - exact Hs.
    - simpl. apply IH. now apply runCommand_bounded. }
  split; [exact H|]. unfold historyWithinBound, MAX_HISTORY in H. lia.
Qed.

(** ** A handle held where it is *)

Lemma updateFound_fixed {A : Type} (p : A -> bool) (f : A -> A) l o :
  find p l = Some o -> f o = o -> updateFound p f l = l.
Proof.
  intros Hfind Hf. induction l as [|h t IH]; simpl in *; [reflexivity|].
  destruct (p h).
  - injection Hfind as ->. now rewrite Hf.
  - f_equal. now apply IH.
Qed.

(** X30: a resize with the pointer still on the grabbed handle.  For a
    rectangle on the canvas that is stored with x1 <= x2 and y1 <= y2,
    [resizeRect] at the very cell at which [getResizeHandleAt] found the
    grabbed handle changes nothing.  For a rectangle stored with x2 < x1 (as
    a resize across the opposite side leaves it), the handles are found on
    the normalized rectangle but the resize writes the stored corners: at
    the cell of its north-west handle [resizeRect] moves the stored x1, the
    right side, onto the left side, and the rectangle collapses to one
    column. *)
Theorem resize_with_handle_at_rest (id x y : Z) (s : CanvasApp) (rect : Rectangle.t) :
  find (fun r => Rectangle.id r =? id) (rectangles (document s)) = Some rect ->
  rectInCanvas (gridWidth s) (gridHeight s) rect = true ->
  (Rectangle.x1 rect <= Rectangle.x2 rect -> Rectangle.y1 rect <= Rectangle.y2 rect ->
   forall handle,
     getResizeHandleAt id x y s = Some handle ->
     resizeHandle (gesture s) = Some handle ->
     resizeRect id x y s = s)
  /\ (Rectangle.x2 rect < Rectangle.x1 rect -> Rectangle.y1 rect <= Rectangle.y2 rect ->
      getResizeHandleAt id (Rectangle.x2 rect) (Rectangle.y1 rect) s = Some H_nw
      /\ (resizeHandle (gesture s) = Some H_nw ->
          find (fun r => Rectangle.id r =? id)
               (rectangles (document (resizeRect id (Rectangle.x2 rect)
                                                 (Rectangle.y1 rect) s)))
          = Some (setCorners (Rectangle.x2 rect) (Rectangle.y1 rect)
                             (Rectangle.x2 rect) (Rectangle.y2 rect) rect))).
Proof.
  intros Hfind Hin.
  pose proof (find_some _ _ Hfind) as [_ Hid].
  unfold rectInCanvas, boxInCanvas, normalizeRect in Hin. cbn [bx1 by1 bx2 by2] in Hin.
  rewrite !andb_true_iff, !Z.leb_le in Hin.
  split.
  - intros Hx Hy handle Hat Hgrab.
    unfold getResizeHandleAt in Hat. rewrite Hfind in Hat.
    unfold normalizeRect in Hat. cbn [bx1 by1 bx2 by2] in Hat. cbv zeta in Hat.
    rewrite !Z.min_l, !Z.max_r in Hat by lia.
    pose proof (midpoint_between _ _ Hx) as Hmx.
    pose proof (midpoint_between _ _ Hy) as Hmy.
    unfold resizeRect. rewrite Hfind, Hgrab. cbv zeta.
    assert (Hsame : resizeBy handle (Z.max 0 (Z.min (gridWidth s - 1) x))
                             (Z.max 0 (Z.min (gridHeight s - 1) y)) rect = rect).
    { repeat match type of Hat with
             | (if ?c then _ else _) = _ =>
                 let E := fresh "E" in
                 destruct c eqn:E;
                 [apply andb_true_iff in E; rewrite !Z.eqb_eq in E; destruct E as [-> ->];
                  injection Hat as <-|]
             end; try discriminate;
        unfold resizeBy, setCorners; destruct rect; cbn in *; f_equal; lia. }
    rewrite (updateFound_fixed _ _ _ rect Hfind Hsame).
    destruct s as [? ? d ? ? ? ? ? ? ? ? ?]. cbn. f_equal. now destruct d.
  - intros Hx Hy. split.
    + unfold getResizeHandleAt. rewrite Hfind.
      unfold normalizeRect. cbn [bx1 by1 bx2 by2]. cbv zeta.
      rewrite Z.min_r, Z.min_l by lia. now rewrite !Z.eqb_refl.
    + intros Hgrab. unfold resizeRect. rewrite Hfind, Hgrab. cbv zeta.
      cbn [document with_document rectangles with_rectangles].
      rewrite (find_updateFound (fun r => Rectangle.id r =? id)
                 (resizeBy H_nw (Z.max 0 (Z.min (gridWidth s - 1) (Rectangle.x2 rect)))
                                (Z.max 0 (Z.min (gridHeight s - 1) (Rectangle.y1 rect))))
                 _ rect Hfind Hid).
      unfold resizeBy, setCorners. do 2 f_equal; lia.
Qed.

Lemma resize_with_handle_at_rest_witness :
  resizeRect 1 1 1 resizingApp = resizingApp.
Proof.
  destruct (resize_with_handle_at_rest 1 1 1 resizingApp
              (Rectangle.mk 1 1 1 4 3 false 1 white None)) as (H & _).
  - reflexivity.
  - reflexivity.
  - apply (H ltac:(cbn; lia) ltac:(cbn; lia) H_nw); reflexivity.
Defined.
